(** * Schema validation engine of [validate_schema.py]

    A shallow embedding of [validate] and its helpers, followed by the
    properties of the validation report that the specification states.

    Python values (the parsed YAML schema, table cells, issue examples) are one
    inductive type; floats are binary64.  [validate] runs in a state and
    exception monad: the state is the table it was handed and the issue list it
    appends to.  The pandas / Python runtime surface whose behaviour is not part
    of the validator (string rendering, numeric and datetime coercion, regular
    expressions, membership, duplicate detection, [DataFrame.eval]) is a record
    of operations, [Runtime], over which every general theorem is quantified;
    [Ref.runtime] is a small executable instance for concrete runs.

    [Store] holds a second reading of the same code, on Python's object model:
    the table is a mutable object whose columns live in a store, [df[col]] is a
    reference, every series that [validate] derives is a new object, and the
    evaluation of a rule expression is handed the store.  What [validate]
    leaves of the table is stated there, and the two readings are proved to
    answer alike.

    Layout: the model, the reference runtime, the vocabulary of the statements
    and the concrete tables come first; lemmas and theorems follow. *)

From Stdlib Require Import ZArith List String Ascii Bool Lia DecimalString.
From Stdlib Require Import PrimFloat SpecFloat FloatOps.
Import ListNotations.
Local Open Scope Z_scope.
Local Open Scope list_scope.

Set Implicit Arguments.
Set Warnings "-register-all".

(** ** Python values *)

Inductive pyobj : Type :=
| PNone
| PBool (b : bool)
| PInt (z : Z)
| PFloat (f : float)
| PStr (s : string)
| PList (xs : list pyobj)
| PDict (kvs : list (string * pyobj)).

(** A mapping with string keys, in insertion order. *)
Definition pydict : Type := list (string * pyobj).

Fixpoint dict_get (d : pydict) (k : string) : option pyobj :=
  match d with
  | [] => None
  | (k', v) :: rest => if String.eqb k' k then Some v else dict_get rest k
  end.

(** [d.get(k, dflt)] *)
Definition get_default (d : pydict) (k : string) (dflt : pyobj) : pyobj :=
  match dict_get d k with
  | Some v => v
  | None => dflt
  end.

(** [k in d] *)
Definition dict_has (d : pydict) (k : string) : bool :=
  match dict_get d k with
  | Some _ => true
  | None => false
  end.

Definition keys (d : pydict) : list string := map fst d.

(** [d[k] = v] *)
Fixpoint dict_set (k : string) (v : pyobj) (d : pydict) : pydict :=
  match d with
  | [] => [(k, v)]
  | (k', v') :: rest =>
      if String.eqb k' k then (k', v) :: rest else (k', v') :: dict_set k v rest
  end.

(** [len(xs)] *)
Definition len {A : Type} (xs : list A) : Z := Z.of_nat (List.length xs).

Definition fzero : float := PrimFloat.zero.

Definition is_nan (f : float) : bool := negb (PrimFloat.eqb f f).

(** [bool(x)] *)
Definition py_truthy (o : pyobj) : bool :=
  match o with
  | PNone => false
  | PBool b => b
  | PInt z => negb (z =? 0)
  | PFloat f => negb (PrimFloat.eqb f fzero)
  | PStr s => negb (String.eqb s EmptyString)
  | PList xs => match xs with [] => false | _ => true end
  | PDict kvs => match kvs with [] => false | _ => true end
  end.

(** [x or y] *)
Definition py_or (x y : pyobj) : pyobj := if py_truthy x then x else y.

Definition type_name (o : pyobj) : string :=
  match o with
  | PNone => "NoneType"
  | PBool _ => "bool"
  | PInt _ => "int"
  | PFloat _ => "float"
  | PStr _ => "str"
  | PList _ => "list"
  | PDict _ => "dict"
  end.

(** Concatenation of the pieces of an f-string. *)
Definition fstr (pieces : list string) : string := String.concat EmptyString pieces.

(** [f"{type(o)}"] *)
Definition type_repr (o : pyobj) : string := fstr ["<class '"; type_name o; "'>"]%string.

(** ** Exceptions *)

Inductive exn : Type :=
| AttributeError (msg : string)
| TypeError (msg : string)
| ValueError (msg : string)
| OverflowError (msg : string)
| LibraryError (kind msg : string).

(** [str(e)] *)
Definition exn_message (e : exn) : string :=
  match e with
  | AttributeError m | TypeError m | ValueError m | OverflowError m => m
  | LibraryError _ m => m
  end.

Inductive outcome (A : Type) : Type :=
| Ok (a : A)
| Raise (e : exn).
Arguments Ok {A} a.
Arguments Raise {A} e.

Definition obind {A B : Type} (o : outcome A) (k : A -> outcome B) : outcome B :=
  match o with
  | Ok a => k a
  | Raise e => Raise e
  end.

Declare Scope outcome_scope.
Delimit Scope outcome_scope with outcome.
Notation "x <- o ;; k" := (obind o (fun x => k))
  (at level 61, o at next level, right associativity) : outcome_scope.

(** The receiver of [.get]: only a mapping has the method. *)
Definition as_mapping (o : pyobj) : outcome pydict :=
  match o with
  | PDict d => Ok d
  | _ => Raise (AttributeError (fstr ["'"; type_name o; "' object has no attribute 'get'"]%string))
  end.

(** ** Floats *)

Definition float_of_Z (z : Z) : float := SF2Prim (binary_normalize prec emax z 0 false).

Definition is_infinite (f : float) : bool :=
  match Prim2SF f with
  | S754_infinity _ => true
  | _ => false
  end.

(** The integer a float denotes, when it denotes one. *)
Definition float_int_value (f : float) : option Z :=
  match Prim2SF f with
  | S754_zero _ => Some 0
  | S754_finite s m e =>
      let z := if s then Z.neg m else Z.pos m in
      if 0 <=? e then Some (z * 2 ^ e)
      else if Z.pos m mod 2 ^ (- e) =? 0 then Some (z / 2 ^ (- e)) else None
  | _ => None
  end.

(** [float.is_integer] *)
Definition float_is_integer (f : float) : bool :=
  match float_int_value f with
  | Some _ => true
  | None => false
  end.

(** The float a numeric cell is compared as (numpy widens integers and booleans). *)
Definition as_float (o : pyobj) : option float :=
  match o with
  | PBool b => Some (float_of_Z (if b then 1 else 0))
  | PInt z => Some (float_of_Z z)
  | PFloat f => Some f
  | _ => None
  end.

(** [v < bound] and [v > bound] on one numeric cell *)
Definition num_ltb (v : pyobj) (bound : float) : bool :=
  match as_float v with
  | Some f => PrimFloat.ltb f bound
  | None => false
  end.

Definition num_gtb (v : pyobj) (bound : float) : bool :=
  match as_float v with
  | Some f => PrimFloat.ltb bound f
  | None => false
  end.

(** ** Strings *)

Definition lower_ascii (c : ascii) : ascii :=
  let n := nat_of_ascii c in
  if andb (Nat.leb 65 n) (Nat.leb n 90) then ascii_of_nat (n + 32) else c.

(** [s.lower()] on the ASCII letters *)
Fixpoint lower (s : string) : string :=
  match s with
  | EmptyString => EmptyString
  | String c rest => String (lower_ascii c) (lower rest)
  end.

(** [c.isspace()] on the ASCII range: space, \t to \r, and the separators
    \x1c to \x1f *)
Definition is_space (c : ascii) : bool :=
  let n := nat_of_ascii c in
  orb (Nat.eqb n 32)
      (orb (andb (Nat.leb 9 n) (Nat.leb n 13)) (andb (Nat.leb 28 n) (Nat.leb n 31))).

Fixpoint lstrip (s : string) : string :=
  match s with
  | EmptyString => EmptyString
  | String c rest => if is_space c then lstrip rest else s
  end.

Fixpoint rstrip (s : string) : string :=
  match s with
  | EmptyString => EmptyString
  | String c rest =>
      match rstrip rest with
      | EmptyString => if is_space c then EmptyString else String c EmptyString
      | rest' => String c rest'
      end
  end.

(** [s.strip()]; the whitespace outside ASCII is not modelled *)
Definition strip (s : string) : string := rstrip (lstrip s).

(** ** Tables *)

Record Series : Type := {
  dtype : string;          (* [str(s.dtype)] *)
  values : list pyobj
}.

Record DataFrame : Type := {
  df_columns : list (string * Series)
}.

Definition column_names (df : DataFrame) : list string := map fst (df_columns df).

(** [c in df.columns] *)
Definition has_column (df : DataFrame) (c : string) : bool :=
  existsb (String.eqb c) (column_names df).

(** [df[c]] *)
Fixpoint lookup_column (cols : list (string * Series)) (c : string) : option Series :=
  match cols with
  | [] => None
  | (c', s) :: rest => if String.eqb c c' then Some s else lookup_column rest c
  end.

Definition get_column (df : DataFrame) (c : string) : option Series :=
  lookup_column (df_columns df) c.

(** [pd.isna] on one cell *)
Definition is_null (o : pyobj) : bool :=
  match o with
  | PNone => true
  | PFloat f => is_nan f
  | _ => false
  end.

(** [s.isna()] *)
Definition isna (vals : list pyobj) : list bool := map is_null vals.

(** [s.dropna()] *)
Definition dropna (vals : list pyobj) : list pyobj := filter (fun v => negb (is_null v)) vals.

(** Boolean indexing [xs[mask]] *)
Fixpoint select {A : Type} (mask : list bool) (xs : list A) : list A :=
  match mask, xs with
  | b :: mask', x :: xs' => if b then x :: select mask' xs' else select mask' xs'
  | _, _ => []
  end.

(** [int(mask.sum())] *)
Definition count_true (mask : list bool) : Z := len (filter (fun b => b) mask).

(** [~mask] and [a & b] *)
Definition mask_not (mask : list bool) : list bool := map negb mask.

Fixpoint mask_and (a b : list bool) : list bool :=
  match a, b with
  | x :: a', y :: b' => andb x y :: mask_and a' b'
  | _, _ => []
  end.

(** [.head(n)] *)
Definition head {A : Type} (n : nat) (xs : list A) : list A := firstn n xs.

(** Row positions selected by a mask. *)
Fixpoint mask_positions (i : nat) (mask : list bool) : list nat :=
  match mask with
  | [] => []
  | b :: rest => if b then i :: mask_positions (S i) rest else mask_positions (S i) rest
  end.

Definition cell (df : DataFrame) (c : string) (i : nat) : pyobj :=
  match get_column df c with
  | Some s => nth i (values s) PNone
  | None => PNone
  end.

(** One row restricted to the columns [names], as [to_dict(orient="records")]
    gives it: a dict, so a name that comes twice is one key. *)
Definition record_at (df : DataFrame) (names : list string) (i : nat) : pyobj :=
  PDict (fold_left (fun d c => dict_set c (cell df c i) d) names []).

(** [df.loc[mask, names].head(n).to_dict(orient="records")] *)
Definition records (df : DataFrame) (names : list string) (mask : list bool) (n : nat)
  : list pyobj :=
  map (record_at df names) (head n (mask_positions 0 mask)).

(** [_normalize_dtype_name] *)
Definition normalize_dtype_name (s : string) : string :=
  if String.prefix "int" s then "int"
  else if String.prefix "float" s then "float"
  else if orb (String.eqb s "object") (String.eqb s "string") then "string"
  else if String.prefix "datetime" s then "datetime"
  else if String.eqb s "bool" then "bool"
  else s.

(** ** Issues *)

Record ValidationIssue : Type := {
  level : string;                     (* "ERROR" | "WARN" *)
  code : string;
  message : string;
  column : option string;
  n_rows : option Z;
  examples : option (list pyobj)
}.

Definition is_error (i : ValidationIssue) : bool := String.eqb (level i) "ERROR".

(** ** The runtime surface

    What [validate] asks of Python and pandas beyond the vectorised plumbing
    modelled above.  An operation that pandas can fail in returns an [outcome]. *)

Inductive eval_result : Type :=
| EvalSeries (out : Series)           (* a row-wise Series *)
| EvalOther                           (* a scalar, a frame, nothing *)
| EvalRaise (msg : string).           (* any exception, with its [str] *)

Record Runtime : Type := {
  (* [str(x)], also the rendering of [x] inside an f-string, for a non-string *)
  rt_str : pyobj -> string;
  (* [float(s)] on a string; [None] is ValueError *)
  rt_float_of_str : string -> option float;
  (* [pd.to_numeric(s, errors="coerce")] *)
  rt_to_numeric : Series -> outcome (list pyobj);
  (* [pd.to_datetime(s, errors="coerce").isna()] *)
  rt_to_datetime_isna : Series -> outcome (list bool);
  (* [ss.isin(allowed)] *)
  rt_isin : list pyobj -> list pyobj -> list bool;
  (* the mask that [~ss.str.match(pattern)] inverts; raises where the match or
     the [~] does (a null cell matches as NaN, which [~] refuses) *)
  rt_str_match : list pyobj -> pyobj -> outcome (list bool);
  (* [s.duplicated(keep=False)] *)
  rt_duplicated : Series -> list bool;
  (* [df.duplicated(subset=pk, keep=False)] *)
  rt_frame_duplicated : DataFrame -> list string -> list bool;
  (* [df.eval(expr, engine="python")] *)
  rt_df_eval : DataFrame -> string -> eval_result
}.

(** ** The validation monad

    [validate] appends to its issue list while it reads the table it was given;
    an uncaught exception leaves through [Raise].  The table is part of the
    state because a [DataFrame] is a mutable object. *)

Record world : Type := {
  w_table : DataFrame;
  w_issues : list ValidationIssue
}.

Definition M (A : Type) : Type := world -> outcome A * world.

Definition ret {A : Type} (a : A) : M A := fun w => (Ok a, w).

Definition bind {A B : Type} (m : M A) (k : A -> M B) : M B :=
  fun w =>
    match m w with
    | (Ok a, w') => k a w'
    | (Raise e, w') => (Raise e, w')
    end.

Definition lift {A : Type} (o : outcome A) : M A := fun w => (o, w).

Definition get_table : M DataFrame := fun w => (Ok (w_table w), w).

Definition get_issues : M (list ValidationIssue) := fun w => (Ok (w_issues w), w).

(** [issues.append(i)] *)
Definition append (i : ValidationIssue) : M unit :=
  fun w => (Ok tt, {| w_table := w_table w; w_issues := w_issues w ++ [i] |}).

(** [try: m except Exception as e: h e] *)
Definition try_except {A : Type} (m : M A) (h : exn -> M A) : M A :=
  fun w =>
    match m w with
    | (Ok a, w') => (Ok a, w')
    | (Raise e, w') => h e w'
    end.

Declare Scope validation_scope.
Delimit Scope validation_scope with M.
Notation "x <- m ;; k" := (bind m (fun x => k))
  (at level 61, m at next level, right associativity) : validation_scope.
Notation "m ;;; k" := (bind m (fun _ => k))
  (at level 61, right associativity) : validation_scope.

(** [for x in xs: body x] *)
Fixpoint for_each {A : Type} (xs : list A) (body : A -> M unit) : M unit :=
  match xs with
  | [] => ret tt
  | x :: rest => (body x ;;; for_each rest body)%M
  end.

(** [if c: m] *)
Definition when (c : bool) (m : M unit) : M unit := if c then m else ret tt.

Definition mk_issue (lvl cd msg : string) (col : option string) (n : option Z)
    (ex : option (list pyobj)) : ValidationIssue :=
  {| level := lvl; code := cd; message := msg; column := col; n_rows := n; examples := ex |}.

Fixpoint chars (s : string) : list pyobj :=
  match s with
  | EmptyString => []
  | String c rest => PStr (String c EmptyString) :: chars rest
  end.

Definition hashable (o : pyobj) : bool :=
  match o with
  | PList _ | PDict _ => false
  | _ => true
  end.

Definition is_str (o : pyobj) : bool :=
  match o with
  | PStr _ => true
  | _ => false
  end.

Definition str_of (o : pyobj) : string :=
  match o with
  | PStr s => s
  | _ => EmptyString
  end.

(** [set(allowed)]: the elements, which is all that membership looks at. *)
Definition py_set (o : pyobj) : outcome (list pyobj) :=
  match o with
  | PList xs =>
      match find (fun x => negb (hashable x)) xs with
      | Some x => Raise (TypeError (fstr ["unhashable type: '"; type_name x; "'"]%string))
      | None => Ok xs
      end
  | PStr s => Ok (chars s)
  | PDict d => Ok (map PStr (keys d))
  | _ => Raise (TypeError (fstr ["'"; type_name o; "' object is not iterable"]%string))
  end.

(** [s.dropna().apply(float.is_integer).all()] *)
Fixpoint all_is_integer (vals : list pyobj) : outcome bool :=
  match vals with
  | [] => Ok true
  | PFloat f :: rest =>
      (b <- all_is_integer rest ;; Ok (andb (float_is_integer f) b))%outcome
  | o :: _ =>
      Raise (TypeError (fstr ["descriptor 'is_integer' requires a 'float' object but received a '";
                              type_name o; "'"]%string))
  end.

(** [out.astype(bool)] *)
Definition astype_bool (s : Series) : Series :=
  {| dtype := "bool"; values := map (fun v => PBool (py_truthy v)) (values s) |}.

(** [ok.fillna(False)] *)
Definition fillna_false (vals : list pyobj) : list pyobj :=
  map (fun v => if is_null v then PBool false else v) vals.

(** [~ok] on a boolean series *)
Definition invert (vals : list pyobj) : list bool := map (fun v => negb (py_truthy v)) vals.

Section Engine.

Variable rt : Runtime.

(** [str(o)], and [o] interpolated in an f-string *)
Definition py_str (o : pyobj) : string :=
  match o with
  | PStr s => s
  | _ => rt_str rt o
  end.

(** [float(o)] *)
Definition py_float (o : pyobj) : outcome float :=
  match o with
  | PBool b => Ok (float_of_Z (if b then 1 else 0))
  | PInt z =>
      let f := float_of_Z z in
      if is_infinite f then Raise (OverflowError "int too large to convert to float")
      else Ok f
  | PFloat f => Ok f
  | PStr s =>
      match rt_float_of_str rt s with
      | Some f => Ok f
      | None => Raise (ValueError (fstr ["could not convert string to float: "; rt_str rt o]%string))
      end
  | _ =>
      Raise (TypeError (fstr ["float() argument must be a string or a real number, not '";
                              type_name o; "'"]%string))
  end.

(** [_coerce_string_series]: nulls kept, the rest cast to [str] *)
Definition coerce_string_series (vals : list pyobj) : list pyobj :=
  map (fun v => if is_null v then v else PStr (py_str v)) vals.

(** [_safe_eval_expr] *)
Definition safe_eval_expr (df : DataFrame) (expr : string) : outcome Series :=
  let failed (e : string) :=
    Raise (ValueError (fstr ["Failed to evaluate rule expr='"; expr; "': "; e]%string)) in
  match rt_df_eval rt df expr with
  | EvalRaise msg => failed msg
  | EvalOther => failed "Expression did not evaluate to a row-wise Series."%string
  | EvalSeries out =>
      if negb (String.eqb (dtype out) "bool") then Ok (astype_bool out) else Ok out
  end.

(** *** 1) Required columns present *)

Fixpoint required_cols (columns_spec : pydict) : outcome (list string) :=
  match columns_spec with
  | [] => Ok []
  | (c, spec) :: rest =>
      (d <- as_mapping (py_or spec (PDict [])) ;;
       rs <- required_cols rest ;;
       Ok (if py_truthy (get_default d "required" (PBool false)) then c :: rs else rs))%outcome
  end.

Definition check_required (columns_spec : pydict) : M unit :=
  (required <- lift (required_cols columns_spec) ;;
   df <- get_table ;;
   let missing := filter (fun c => negb (has_column df c)) required in
   when (py_truthy (PList (map PStr missing)))
     (append (mk_issue "ERROR" "MISSING_REQUIRED_COLUMNS"
                (fstr ["Missing required columns: "; py_str (PList (map PStr missing))]%string)
                None (Some (len missing)) (Some (map PStr missing)))))%M.

(** *** 2) Unexpected columns (warn only) *)

Definition check_unexpected (schema columns_spec : pydict) : M unit :=
  let allow_extra := py_truthy (get_default schema "allow_extra_columns" (PBool true)) in
  when (negb allow_extra)
    (df <- get_table ;;
     let unexpected := filter (fun c => negb (dict_has columns_spec c)) (column_names df) in
     when (py_truthy (PList (map PStr unexpected)))
       (append (mk_issue "WARN" "UNEXPECTED_COLUMNS"
                  (fstr ["Unexpected columns found (schema disallows extras): ";
                         py_str (PList (map PStr unexpected))]%string)
                  None (Some (len unexpected)) (Some (map PStr unexpected)))))%M.

(** *** 3) Column-level checks *)

(** 3a) Nullability *)
Definition check_nullability (col : string) (s : Series) (nullable : bool) : M unit :=
  when (negb nullable)
    (let n_null := count_true (isna (values s)) in
     when (0 <? n_null)
       (append (mk_issue "ERROR" "NULLS_NOT_ALLOWED"
                  (fstr ["Column '"; col; "' contains "; py_str (PInt n_null);
                         " nulls but nullable=false."]%string)
                  (Some col) (Some n_null)
                  (Some (head 5 (select (isna (values s)) (values s))))))).

Definition dtype_mismatch (col : string) (detail : list string) : ValidationIssue :=
  mk_issue "ERROR" "DTYPE_MISMATCH" (fstr (["Column '"; col; "' expected "]%string ++ detail))
    (Some col) None None.

(** 3b) Type checks *)
Definition check_dtype (col : string) (s : Series) (dtype_expected : pyobj) : M unit :=
  when (py_truthy dtype_expected)
    (let dtype_expected := strip (lower (py_str dtype_expected)) in
     let actual_norm := normalize_dtype_name (dtype s) in
     if String.eqb dtype_expected "string" then
       when (negb (orb (String.eqb actual_norm "string") (String.eqb actual_norm "object")))
         (append (dtype_mismatch col ["dtype=string but got "; dtype s; "."]%string))
     else if orb (String.eqb dtype_expected "int") (String.eqb dtype_expected "integer") then
       when (negb (String.eqb actual_norm "int"))
         (intlike <- (if String.eqb actual_norm "float"
                      then lift (all_is_integer (dropna (values s)))
                      else ret false) ;;
          if (intlike : bool) then
            append (mk_issue "WARN" "DTYPE_INTLIKE_FLOAT"
                      (fstr ["Column '"; col;
                             "' is float but appears int-like; consider casting to int."]%string)
                      (Some col) None None)
          else
            append (dtype_mismatch col ["dtype=int but got "; dtype s; "."]%string))%M
     else if String.eqb dtype_expected "float" then
       when (negb (orb (String.eqb actual_norm "float") (String.eqb actual_norm "int")))
         (append (dtype_mismatch col ["dtype=float but got "; dtype s; "."]%string))
     else if String.eqb dtype_expected "bool" then
       when (negb (String.eqb actual_norm "bool"))
         (append (dtype_mismatch col ["dtype=bool but got "; dtype s; "."]%string))
     else if String.eqb dtype_expected "datetime" then
       when (negb (String.eqb actual_norm "datetime"))
         (coerced_na <- lift (rt_to_datetime_isna rt s) ;;
          when (negb (count_true coerced_na =? count_true (isna (values s))))
            (append (dtype_mismatch col ["datetime; coercion failed for some values."]%string)))%M
     else ret tt).

Definition range_issue (cd : string) (col : string) (bad : list pyobj) (rel : string)
    (bound : float) : ValidationIssue :=
  mk_issue "ERROR" cd
    (fstr ["Column '"; col; "' has "; py_str (PInt (len bad)); " values "; rel;
           py_str (PFloat bound); ")."]%string)
    (Some col) (Some (len bad)) (Some (head 5 bad)).

(** 3c) Range checks (min/max) *)
Definition check_range (col : string) (s : Series) (spec : pydict) : M unit :=
  when (orb (dict_has spec "min") (dict_has spec "max"))
    (num <- lift (rt_to_numeric rt s) ;;
     let valid := dropna num in
     match dict_get spec "min" with
     | Some v =>
         mn <- lift (py_float v) ;;
         let bad := select (map (fun x => num_ltb x mn) valid) valid in
         when (0 <? len bad) (append (range_issue "MIN_VIOLATION" col bad "< min(" mn))
     | None => ret tt
     end ;;;
     match dict_get spec "max" with
     | Some v =>
         mx <- lift (py_float v) ;;
         let bad := select (map (fun x => num_gtb x mx) valid) valid in
         when (0 <? len bad) (append (range_issue "MAX_VIOLATION" col bad "> max(" mx))
     | None => ret tt
     end)%M.

(** [spec.get("dtype", "").lower() == "string"] *)
Definition declared_string (spec : pydict) : outcome bool :=
  match get_default spec "dtype" (PStr EmptyString) with
  | PStr s => Ok (String.eqb (lower s) "string")
  | o => Raise (AttributeError (fstr ["'"; type_name o;
                                      "' object has no attribute 'lower'"]%string))
  end.

(** 3d) Allowed set checks *)
Definition check_allowed (col : string) (s : Series) (spec : pydict) : M unit :=
  match get_default spec "allowed" PNone with
  | PNone => ret tt
  | allowed =>
      (allowed_set <- lift (py_set allowed) ;;
       as_string <- lift (declared_string spec) ;;
       let ss := if (as_string : bool) then coerce_string_series (values s) else values s in
       let bad_mask := mask_and (mask_not (isna ss)) (mask_not (rt_isin rt ss allowed_set)) in
       let n_bad := count_true bad_mask in
       when (0 <? n_bad)
         (append (mk_issue "ERROR" "ALLOWED_SET_VIOLATION"
                    (fstr ["Column '"; col; "' has "; py_str (PInt n_bad);
                           " values not in allowed set."]%string)
                    (Some col) (Some n_bad) (Some (head 5 (select bad_mask (values s)))))))%M
  end.

(** 3e) Regex checks (string columns) *)
Definition check_regex (col : string) (s : Series) (spec : pydict) : M unit :=
  let pattern := get_default spec "regex" PNone in
  when (py_truthy pattern)
    (let ss := coerce_string_series (values s) in
     matched <- lift (rt_str_match rt ss pattern) ;;
     let bad_mask := mask_and (mask_not (isna ss)) (mask_not matched) in
     let n_bad := count_true bad_mask in
     when (0 <? n_bad)
       (append (mk_issue "ERROR" "REGEX_VIOLATION"
                  (fstr ["Column '"; col; "' has "; py_str (PInt n_bad);
                         " values not matching regex: "; py_str pattern]%string)
                  (Some col) (Some n_bad) (Some (head 5 (select bad_mask (values s)))))))%M.

(** 3f) Uniqueness checks *)
Definition check_unique (col : string) (s : Series) (spec : pydict) : M unit :=
  when (py_truthy (get_default spec "unique" (PBool false)))
    (let dup_mask := mask_and (rt_duplicated rt s) (mask_not (isna (values s))) in
     let n_dup := count_true dup_mask in
     when (0 <? n_dup)
       (append (mk_issue "ERROR" "UNIQUE_VIOLATION"
                  (fstr ["Column '"; col; "' has "; py_str (PInt n_dup);
                         " duplicated entries but unique=true."]%string)
                  (Some col) (Some n_dup) (Some (head 5 (select dup_mask (values s))))))).

(** Checks 3a) to 3f) on a column [s] that the table has. *)
Definition column_checks (col : string) (s : Series) (spec : pydict) : M unit :=
  let dtype_expected := get_default spec "dtype" PNone in
  let nullable := py_truthy (get_default spec "nullable" (PBool true)) in
  (check_nullability col s nullable ;;;
   check_dtype col s dtype_expected ;;;
   check_range col s spec ;;;
   check_allowed col s spec ;;;
   check_regex col s spec ;;;
   check_unique col s spec)%M.

(** The body of [for col, spec in columns_spec.items()]. *)
Definition check_column (item : string * pyobj) : M unit :=
  let col := fst item in
  let spec := py_or (snd item) (PDict []) in
  (df <- get_table ;;
   match get_column df col with
   | None => ret tt
   | Some s =>
       spec <- lift (as_mapping spec) ;;
       column_checks col s spec
   end)%M.

(** *** 4) Primary key uniqueness (if provided) *)

Definition check_primary_key (schema : pydict) : M unit :=
  let pk := get_default schema "primary_key" PNone in
  when (py_truthy pk)
    (match pk with
     | PList xs =>
         if forallb is_str xs then
           (df <- get_table ;;
            let pk_cols := map str_of xs in
            let missing_pk := filter (fun c => negb (has_column df c)) pk_cols in
            if py_truthy (PList (map PStr missing_pk)) then
              append (mk_issue "ERROR" "PRIMARY_KEY_MISSING_COLUMNS"
                        (fstr ["Primary key columns missing from table: ";
                               py_str (PList (map PStr missing_pk))]%string)
                        None None (Some (map PStr missing_pk)))
            else
              let dup_rows := rt_frame_duplicated rt df pk_cols in
              let n_dup := count_true dup_rows in
              when (0 <? n_dup)
                (append (mk_issue "ERROR" "PRIMARY_KEY_NOT_UNIQUE"
                           (fstr ["Primary key "; py_str pk; " is not unique; ";
                                  py_str (PInt n_dup); " rows are duplicates."]%string)
                           None (Some n_dup) (Some (records df pk_cols dup_rows 5)))))%M
         else
           append (mk_issue "ERROR" "SCHEMA_PRIMARY_KEY_INVALID"
                     "Schema 'primary_key' must be a list of column names." None None None)
     | _ =>
         append (mk_issue "ERROR" "SCHEMA_PRIMARY_KEY_INVALID"
                   "Schema 'primary_key' must be a list of column names." None None None)
     end).

(** *** 5) Table-level boolean rules (expr) *)

(** The [try] block of one rule. *)
Definition eval_rule (name : pyobj) (expr : string) : M unit :=
  (df <- get_table ;;
   ok <- lift (safe_eval_expr df expr) ;;
   let bad_mask := invert (fillna_false (values ok)) in
   let n_bad := count_true bad_mask in
   when (0 <? n_bad)
     (append (mk_issue "ERROR" "TABLE_RULE_VIOLATION"
                (fstr ["Rule '"; py_str name; "' failed for "; py_str (PInt n_bad);
                       " rows. expr="; expr]%string)
                None (Some n_bad) (Some (records df (column_names df) bad_mask 3)))))%M.

(** The body of [for r in rules]. *)
Definition check_rule (r : pyobj) : M unit :=
  match r with
  | PDict rd =>
      let name := get_default rd "name" (PStr "unnamed_rule") in
      let expr := get_default rd "expr" PNone in
      if orb (negb (py_truthy expr)) (negb (is_str expr)) then
        append (mk_issue "ERROR" "SCHEMA_RULE_MISSING_EXPR"
                  (fstr ["Rule '"; py_str name; "' missing 'expr' string."]%string)
                  None None None)
      else
        try_except (eval_rule name (str_of expr))
          (fun e => append (mk_issue "ERROR" "TABLE_RULE_EVAL_ERROR" (exn_message e)
                              None None None))
  | _ =>
      append (mk_issue "ERROR" "SCHEMA_RULE_INVALID"
                (fstr ["Rule must be dict, got: "; type_repr r]%string) None None None)
  end.

Definition check_rules (schema : pydict) : M unit :=
  let rules := py_or (get_default schema "rules" (PList [])) (PList []) in
  when (py_truthy rules)
    (match rules with
     | PList rs => for_each rs check_rule
     | _ =>
         append (mk_issue "ERROR" "SCHEMA_RULES_INVALID" "Schema 'rules' must be a list."
                   None None None)
     end).

(** *** The whole run *)

Definition no_columns_issue : ValidationIssue :=
  mk_issue "ERROR" "SCHEMA_NO_COLUMNS" "Schema must define a non-empty 'columns' mapping."
    None None None.

(** Steps 1) to 5), once the schema is known to declare columns. *)
Definition run_checks (schema columns_spec : pydict) : M unit :=
  (check_required columns_spec ;;;
   check_unexpected schema columns_spec ;;;
   for_each columns_spec check_column ;;;
   check_primary_key schema ;;;
   check_rules schema)%M.

Definition validate_body (schema : pydict) : M bool :=
  match py_or (get_default schema "columns" (PDict [])) (PDict []) with
  | PDict ((_ :: _) as columns_spec) =>
      (run_checks schema columns_spec ;;;
       issues <- get_issues ;;
       ret (negb (existsb is_error issues)))%M
  | _ => (append no_columns_issue ;;; ret false)%M
  end.

(** [validate(df, schema)]: the returned pair, or the exception that escaped,
    together with the table as the call leaves it. *)
Definition validate (df : DataFrame) (schema : pydict)
  : outcome (bool * list ValidationIssue) * DataFrame :=
  let '(r, w) := validate_body schema {| w_table := df; w_issues := [] |} in
  (match r with
   | Ok is_valid => Ok (is_valid, w_issues w)
   | Raise e => Raise e
   end, w_table w).

End Engine.

(** ** Loading, reporting and the entry point

    What [main] asks of the host besides the engine: the YAML parser and the
    three pandas readers.  Standard output is the list of printed lines. *)

Record Host : Type := {
  yaml_available : bool;                            (* [yaml is not None] *)
  safe_load : string -> outcome pyobj;              (* [yaml.safe_load(open(path))] *)
  read_csv : string -> outcome DataFrame;
  read_parquet : string -> outcome DataFrame;
  read_excel : string -> outcome DataFrame
}.

(** [_load_yaml] *)
Definition load_yaml (host : Host) (path : string) : outcome pydict :=
  if negb (yaml_available host) then
    Raise (LibraryError "RuntimeError"
             "pyyaml is required to load YAML schemas. Install: pip install pyyaml")
  else
    (obj <- safe_load host path ;;
     match obj with
     | PDict d => Ok d
     | _ => Raise (ValueError "Schema YAML must be a mapping/dict at top-level.")
     end)%outcome.

(** [s.endswith(suffix)] *)
Definition ends_with (s suffix : string) : bool :=
  let n := String.length s in
  let m := String.length suffix in
  andb (Nat.leb m n) (String.eqb (substring (n - m) m s) suffix).

(** [_read_table] *)
Definition read_table (host : Host) (path : string) : outcome DataFrame :=
  let p := lower path in
  if ends_with p ".csv" then read_csv host path
  else if ends_with p ".parquet" then read_parquet host path
  else if orb (ends_with p ".xlsx") (ends_with p ".xls") then read_excel host path
  else Raise (ValueError (fstr ["Unsupported input format: "; path;
                                " (use .csv, .parquet, .xlsx)"]%string)).

Definition newline : string := String (ascii_of_nat 10) EmptyString.

Definition is_warn (i : ValidationIssue) : bool := String.eqb (level i) "WARN".

Section Report.

Variable rt : Runtime.

(** The lines printed for one issue. *)
Definition issue_lines (i : ValidationIssue) : list string :=
  let loc :=
    match column i with
    | Some c => if py_truthy (PStr c) then fstr [" [col="; c; "]"]%string else EmptyString
    | None => EmptyString
    end in
  let n :=
    match n_rows i with
    | Some k => fstr [" (n="; py_str rt (PInt k); ")"]%string
    | None => EmptyString
    end in
  fstr [" - "; code i; loc; n; ": "; message i]%string
  :: match examples i with
     | Some ex =>
         if py_truthy (PList ex) then [fstr ["   examples: "; py_str rt (PList ex)]%string]
         else []
     | None => []
     end.

(** The lines printed for one group, under its heading. *)
Definition group_lines (heading : string) (group : list ValidationIssue) : list string :=
  match group with
  | [] => []
  | _ => fstr [newline; heading]%string :: flat_map issue_lines group
  end.

(** [_print_report] *)
Definition print_report (is_valid : bool) (issues : list ValidationIssue) : list string :=
  let status := if is_valid then "VALID"%string else "INVALID"%string in
  fstr [newline; "Schema validation result: "; status]%string
  :: match issues with
     | [] => ["No issues found."%string]
     | _ =>
         let errors := filter is_error issues in
         let warns := filter is_warn issues in
         group_lines "ERRORS:" errors ++ group_lines "WARNINGS:" warns ++ [EmptyString]
     end.

(** [main], on parsed arguments: the exit status, or the exception that
    escaped, and what was printed. *)
Definition main (host : Host) (input schema_path : string) : outcome Z * list string :=
  match load_yaml host schema_path with
  | Raise e => (Raise e, [])
  | Ok schema =>
      match read_table host input with
      | Raise e => (Raise e, [])
      | Ok df =>
          match fst (validate rt df schema) with
          | Raise e => (Raise e, [])
          | Ok (is_valid, issues) =>
              (Ok (if is_valid then 0 else 2), print_report is_valid issues)
          end
      end
  end.

End Report.

(** * The engine on shared objects

    The same code read with Python's object model.  A [DataFrame] is a mutable
    object: its columns are series objects that live in a store, [df[col]]
    hands out a reference to the column itself, and a pandas call that builds
    a series builds a new object.  The text handed to [DataFrame.eval] is run
    by pandas with the table in reach, so its evaluation is given the store
    and hands back the store it leaves. *)

Module Store.

Definition addr : Type := nat.

Inductive obj : Type :=
| OSeries (s : Series)              (* a series, with its dtype *)
| OValues (vals : list pyobj)       (* a series of which only the cells are read *)
| OMask (m : list bool)             (* a boolean series used as a mask *)
| ODatetime (na : list bool).       (* a datetime series, known by its null mask *)

Record state : Type := {
  st_frame : list (string * addr);    (* the table: each label with its column object *)
  st_heap : list obj;
  st_issues : list ValidationIssue
}.

(** What the references read. *)
Definition series_at (h : list obj) (a : addr) : Series :=
  match nth_error h a with
  | Some (OSeries s) => s
  | _ => {| dtype := EmptyString; values := [] |}
  end.

Definition cells_at (h : list obj) (a : addr) : list pyobj :=
  match nth_error h a with
  | Some (OSeries s) => values s
  | Some (OValues vals) => vals
  | _ => []
  end.

Definition mask_at (h : list obj) (a : addr) : list bool :=
  match nth_error h a with
  | Some (OMask m) => m
  | _ => []
  end.

Definition isna_at (h : list obj) (a : addr) : list bool :=
  match nth_error h a with
  | Some (ODatetime na) => na
  | Some (OSeries s) => isna (values s)
  | Some (OValues vals) => isna vals
  | _ => []
  end.

(** The table as a read of it sees it. *)
Definition snapshot (fr : list (string * addr)) (h : list obj) : DataFrame :=
  {| df_columns := map (fun ca => (fst ca, series_at h (snd ca))) fr |}.

Fixpoint lookup_addr (fr : list (string * addr)) (c : string) : option addr :=
  match fr with
  | [] => None
  | (c', a) :: rest => if String.eqb c c' then Some a else lookup_addr rest c
  end.

Definition SM (A : Type) : Type := state -> outcome A * state.

Definition ret {A : Type} (a : A) : SM A := fun st => (Ok a, st).

Definition bind {A B : Type} (m : SM A) (k : A -> SM B) : SM B :=
  fun st =>
    match m st with
    | (Ok a, st') => k a st'
    | (Raise e, st') => (Raise e, st')
    end.

Definition lift {A : Type} (o : outcome A) : SM A := fun st => (o, st).

Definition get_issues : SM (list ValidationIssue) := fun st => (Ok (st_issues st), st).

(** [issues.append(i)] *)
Definition append (i : ValidationIssue) : SM unit :=
  fun st => (Ok tt, {| st_frame := st_frame st; st_heap := st_heap st;
                       st_issues := st_issues st ++ [i] |}).

(** [try: m except Exception as e: h e] *)
Definition try_except {A : Type} (m : SM A) (h : exn -> SM A) : SM A :=
  fun st =>
    match m st with
    | (Ok a, st') => (Ok a, st')
    | (Raise e, st') => h e st'
    end.

(** A pandas call that builds a series: a new object, and the reference to it. *)
Definition new (o : obj) : SM addr :=
  fun st => (Ok (List.length (st_heap st)),
             {| st_frame := st_frame st; st_heap := st_heap st ++ [o];
                st_issues := st_issues st |}).

Fixpoint set_nth {A : Type} (n : nat) (x : A) (l : list A) : list A :=
  match l, n with
  | [], _ => []
  | _ :: rest, O => x :: rest
  | y :: rest, S n' => y :: set_nth n' x rest
  end.

(** A write into an object that exists ([s[mask] = v], a call with
    [inplace=True]).  The store has it; no statement of [validate] does it. *)
Definition assign (a : addr) (o : obj) : SM unit :=
  fun st => (Ok tt, {| st_frame := st_frame st; st_heap := set_nth a o (st_heap st);
                       st_issues := st_issues st |}).

(** [df[col]]: the column object itself *)
Definition column (c : string) : SM (option addr) :=
  fun st => (Ok (lookup_addr (st_frame st) c), st).

Definition series (a : addr) : SM Series := fun st => (Ok (series_at (st_heap st) a), st).

Definition cells (a : addr) : SM (list pyobj) := fun st => (Ok (cells_at (st_heap st) a), st).

Definition mask (a : addr) : SM (list bool) := fun st => (Ok (mask_at (st_heap st) a), st).

Definition isna_of (a : addr) : SM (list bool) := fun st => (Ok (isna_at (st_heap st) a), st).

(** A read of [df] as a whole: its labels, its rows. *)
Definition get_table : SM DataFrame :=
  fun st => (Ok (snapshot (st_frame st) (st_heap st)), st).

Declare Scope store_scope.
Delimit Scope store_scope with S.
Notation "x <- m ;; k" := (bind m (fun x => k))
  (at level 61, m at next level, right associativity) : store_scope.
Notation "m ;;; k" := (bind m (fun _ => k))
  (at level 61, right associativity) : store_scope.

Fixpoint for_each {A : Type} (xs : list A) (body : A -> SM unit) : SM unit :=
  match xs with
  | [] => ret tt
  | x :: rest => (body x ;;; for_each rest body)%S
  end.

Definition when (c : bool) (m : SM unit) : SM unit := if c then m else ret tt.

Section Engine.

Variable rt : Runtime.

(** The store that evaluating an expression leaves. *)
Variable eval_store : list (string * addr) -> list obj -> string -> list obj.

(** [df.eval(expr, engine="python")] *)
Definition eval (expr : string) : SM eval_result :=
  fun st =>
    (Ok (rt_df_eval rt (snapshot (st_frame st) (st_heap st)) expr),
     {| st_frame := st_frame st;
        st_heap := eval_store (st_frame st) (st_heap st) expr;
        st_issues := st_issues st |}).

(** [_safe_eval_expr]: the reference to the boolean series *)
Definition safe_eval_expr (expr : string) : SM addr :=
  let failed (e : string) : SM addr :=
    lift (Raise (ValueError (fstr ["Failed to evaluate rule expr='"; expr; "': "; e]%string))) in
  (r <- eval expr ;;
   match r with
   | EvalRaise msg => failed msg
   | EvalOther => failed "Expression did not evaluate to a row-wise Series."%string
   | EvalSeries res =>
       out <- new (OSeries res) ;;
       o <- series out ;;
       if negb (String.eqb (dtype o) "bool") then new (OSeries (astype_bool o)) else ret out
   end)%S.

(** 1) Required columns present *)
Definition check_required (columns_spec : pydict) : SM unit :=
  (required <- lift (required_cols columns_spec) ;;
   df <- get_table ;;
   let missing := filter (fun c => negb (has_column df c)) required in
   when (py_truthy (PList (map PStr missing)))
     (append (mk_issue "ERROR" "MISSING_REQUIRED_COLUMNS"
                (fstr ["Missing required columns: ";
                       py_str rt (PList (map PStr missing))]%string)
                None (Some (len missing)) (Some (map PStr missing)))))%S.

(** 2) Unexpected columns (warn only) *)
Definition check_unexpected (schema columns_spec : pydict) : SM unit :=
  let allow_extra := py_truthy (get_default schema "allow_extra_columns" (PBool true)) in
  when (negb allow_extra)
    (df <- get_table ;;
     let unexpected := filter (fun c => negb (dict_has columns_spec c)) (column_names df) in
     when (py_truthy (PList (map PStr unexpected)))
       (append (mk_issue "WARN" "UNEXPECTED_COLUMNS"
                  (fstr ["Unexpected columns found (schema disallows extras): ";
                         py_str rt (PList (map PStr unexpected))]%string)
                  None (Some (len unexpected)) (Some (map PStr unexpected)))))%S.

(** 3a) Nullability, on the column object [s] *)
Definition check_nullability (col : string) (s : addr) (nullable : bool) : SM unit :=
  when (negb nullable)
    (sv <- series s ;;
     let n_null := count_true (isna (values sv)) in
     when (0 <? n_null)
       (append (mk_issue "ERROR" "NULLS_NOT_ALLOWED"
                  (fstr ["Column '"; col; "' contains "; py_str rt (PInt n_null);
                         " nulls but nullable=false."]%string)
                  (Some col) (Some n_null)
                  (Some (head 5 (select (isna (values sv)) (values sv)))))))%S.

(** 3b) Type checks; [coerced] is a new series *)
Definition check_dtype (col : string) (s : addr) (dtype_expected : pyobj) : SM unit :=
  when (py_truthy dtype_expected)
    (sv <- series s ;;
     let dtype_expected := strip (lower (py_str rt dtype_expected)) in
     let actual_norm := normalize_dtype_name (dtype sv) in
     if String.eqb dtype_expected "string" then
       when (negb (orb (String.eqb actual_norm "string") (String.eqb actual_norm "object")))
         (append (dtype_mismatch col ["dtype=string but got "; dtype sv; "."]%string))
     else if orb (String.eqb dtype_expected "int") (String.eqb dtype_expected "integer") then
       when (negb (String.eqb actual_norm "int"))
         (intlike <- (if String.eqb actual_norm "float"
                      then lift (all_is_integer (dropna (values sv)))
                      else ret false) ;;
          if (intlike : bool) then
            append (mk_issue "WARN" "DTYPE_INTLIKE_FLOAT"
                      (fstr ["Column '"; col;
                             "' is float but appears int-like; consider casting to int."]%string)
                      (Some col) None None)
          else
            append (dtype_mismatch col ["dtype=int but got "; dtype sv; "."]%string))
     else if String.eqb dtype_expected "float" then
       when (negb (orb (String.eqb actual_norm "float") (String.eqb actual_norm "int")))
         (append (dtype_mismatch col ["dtype=float but got "; dtype sv; "."]%string))
     else if String.eqb dtype_expected "bool" then
       when (negb (String.eqb actual_norm "bool"))
         (append (dtype_mismatch col ["dtype=bool but got "; dtype sv; "."]%string))
     else if String.eqb dtype_expected "datetime" then
       when (negb (String.eqb actual_norm "datetime"))
         (na <- lift (rt_to_datetime_isna rt sv) ;;
          coerced <- new (ODatetime na) ;;
          coerced_na <- isna_of coerced ;;
          when (negb (count_true coerced_na =? count_true (isna (values sv))))
            (append (dtype_mismatch col ["datetime; coercion failed for some values."]%string)))
     else ret tt)%S.

(** 3c) Range checks; [num], [valid] and [bad] are new series *)
Definition check_range (col : string) (s : addr) (spec : pydict) : SM unit :=
  when (orb (dict_has spec "min") (dict_has spec "max"))
    (sv <- series s ;;
     coerced <- lift (rt_to_numeric rt sv) ;;
     num <- new (OValues coerced) ;;
     numv <- cells num ;;
     valid <- new (OValues (dropna numv)) ;;
     match dict_get spec "min" with
     | Some v =>
         mn <- lift (py_float rt v) ;;
         validv <- cells valid ;;
         bad <- new (OValues (select (map (fun x => num_ltb x mn) validv) validv)) ;;
         badv <- cells bad ;;
         when (0 <? len badv) (append (range_issue rt "MIN_VIOLATION" col badv "< min(" mn))
     | None => ret tt
     end ;;;
     match dict_get spec "max" with
     | Some v =>
         mx <- lift (py_float rt v) ;;
         validv <- cells valid ;;
         bad <- new (OValues (select (map (fun x => num_gtb x mx) validv) validv)) ;;
         badv <- cells bad ;;
         when (0 <? len badv) (append (range_issue rt "MAX_VIOLATION" col badv "> max(" mx))
     | None => ret tt
     end)%S.

(** 3d) Allowed set checks; [ss] is a new series, or [s] itself *)
Definition check_allowed (col : string) (s : addr) (spec : pydict) : SM unit :=
  match get_default spec "allowed" PNone with
  | PNone => ret tt
  | allowed =>
      (allowed_set <- lift (py_set allowed) ;;
       as_string <- lift (declared_string spec) ;;
       ss <- (if (as_string : bool)
              then sv <- series s ;; new (OValues (coerce_string_series rt (values sv)))
              else ret s) ;;
       ssv <- cells ss ;;
       bad_mask <- new (OMask (mask_and (mask_not (isna ssv))
                                        (mask_not (rt_isin rt ssv allowed_set)))) ;;
       bad <- mask bad_mask ;;
       let n_bad := count_true bad in
       when (0 <? n_bad)
         (sv <- series s ;;
          append (mk_issue "ERROR" "ALLOWED_SET_VIOLATION"
                    (fstr ["Column '"; col; "' has "; py_str rt (PInt n_bad);
                           " values not in allowed set."]%string)
                    (Some col) (Some n_bad) (Some (head 5 (select bad (values sv)))))))%S
  end.

(** 3e) Regex checks; [ss] is a new series *)
Definition check_regex (col : string) (s : addr) (spec : pydict) : SM unit :=
  let pattern := get_default spec "regex" PNone in
  when (py_truthy pattern)
    (sv <- series s ;;
     ss <- new (OValues (coerce_string_series rt (values sv))) ;;
     ssv <- cells ss ;;
     matched <- lift (rt_str_match rt ssv pattern) ;;
     bad_mask <- new (OMask (mask_and (mask_not (isna ssv)) (mask_not matched))) ;;
     bad <- mask bad_mask ;;
     let n_bad := count_true bad in
     when (0 <? n_bad)
       (sv <- series s ;;
        append (mk_issue "ERROR" "REGEX_VIOLATION"
                  (fstr ["Column '"; col; "' has "; py_str rt (PInt n_bad);
                         " values not matching regex: "; py_str rt pattern]%string)
                  (Some col) (Some n_bad) (Some (head 5 (select bad (values sv)))))))%S.

(** 3f) Uniqueness checks; [dup_mask] is a new series *)
Definition check_unique (col : string) (s : addr) (spec : pydict) : SM unit :=
  when (py_truthy (get_default spec "unique" (PBool false)))
    (sv <- series s ;;
     dup_mask <- new (OMask (mask_and (rt_duplicated rt sv) (mask_not (isna (values sv))))) ;;
     dup <- mask dup_mask ;;
     let n_dup := count_true dup in
     when (0 <? n_dup)
       (sv <- series s ;;
        append (mk_issue "ERROR" "UNIQUE_VIOLATION"
                  (fstr ["Column '"; col; "' has "; py_str rt (PInt n_dup);
                         " duplicated entries but unique=true."]%string)
                  (Some col) (Some n_dup) (Some (head 5 (select dup (values sv)))))))%S.

Definition column_checks (col : string) (s : addr) (spec : pydict) : SM unit :=
  let dtype_expected := get_default spec "dtype" PNone in
  let nullable := py_truthy (get_default spec "nullable" (PBool true)) in
  (check_nullability col s nullable ;;;
   check_dtype col s dtype_expected ;;;
   check_range col s spec ;;;
   check_allowed col s spec ;;;
   check_regex col s spec ;;;
   check_unique col s spec)%S.

(** The body of [for col, spec in columns_spec.items()]; [s = df[col]] is a
    reference to the column of the table. *)
Definition check_column (item : string * pyobj) : SM unit :=
  let col := fst item in
  let spec := py_or (snd item) (PDict []) in
  (found <- column col ;;
   match found with
   | None => ret tt
   | Some s =>
       spec <- lift (as_mapping spec) ;;
       column_checks col s spec
   end)%S.

(** 4) Primary key uniqueness; [dup_rows] is a new series *)
Definition check_primary_key (schema : pydict) : SM unit :=
  let pk := get_default schema "primary_key" PNone in
  when (py_truthy pk)
    (match pk with
     | PList xs =>
         if forallb is_str xs then
           (df <- get_table ;;
            let pk_cols := map str_of xs in
            let missing_pk := filter (fun c => negb (has_column df c)) pk_cols in
            if py_truthy (PList (map PStr missing_pk)) then
              append (mk_issue "ERROR" "PRIMARY_KEY_MISSING_COLUMNS"
                        (fstr ["Primary key columns missing from table: ";
                               py_str rt (PList (map PStr missing_pk))]%string)
                        None None (Some (map PStr missing_pk)))
            else
              dup_rows <- new (OMask (rt_frame_duplicated rt df pk_cols)) ;;
              dup <- mask dup_rows ;;
              let n_dup := count_true dup in
              when (0 <? n_dup)
                (df <- get_table ;;
                 append (mk_issue "ERROR" "PRIMARY_KEY_NOT_UNIQUE"
                           (fstr ["Primary key "; py_str rt pk; " is not unique; ";
                                  py_str rt (PInt n_dup); " rows are duplicates."]%string)
                           None (Some n_dup) (Some (records df pk_cols dup 5)))))%S
         else
           append (mk_issue "ERROR" "SCHEMA_PRIMARY_KEY_INVALID"
                     "Schema 'primary_key' must be a list of column names." None None None)
     | _ =>
         append (mk_issue "ERROR" "SCHEMA_PRIMARY_KEY_INVALID"
                   "Schema 'primary_key' must be a list of column names." None None None)
     end).

(** The [try] block of one rule; [ok] and [bad_mask] are new series. *)
Definition eval_rule (name : pyobj) (expr : string) : SM unit :=
  (ok <- safe_eval_expr expr ;;
   okv <- series ok ;;
   bad_mask <- new (OMask (invert (fillna_false (values okv)))) ;;
   bad <- mask bad_mask ;;
   let n_bad := count_true bad in
   when (0 <? n_bad)
     (df <- get_table ;;
      append (mk_issue "ERROR" "TABLE_RULE_VIOLATION"
                (fstr ["Rule '"; py_str rt name; "' failed for "; py_str rt (PInt n_bad);
                       " rows. expr="; expr]%string)
                None (Some n_bad) (Some (records df (column_names df) bad 3)))))%S.

Definition check_rule (r : pyobj) : SM unit :=
  match r with
  | PDict rd =>
      let name := get_default rd "name" (PStr "unnamed_rule") in
      let expr := get_default rd "expr" PNone in
      if orb (negb (py_truthy expr)) (negb (is_str expr)) then
        append (mk_issue "ERROR" "SCHEMA_RULE_MISSING_EXPR"
                  (fstr ["Rule '"; py_str rt name; "' missing 'expr' string."]%string)
                  None None None)
      else
        try_except (eval_rule name (str_of expr))
          (fun e => append (mk_issue "ERROR" "TABLE_RULE_EVAL_ERROR" (exn_message e)
                              None None None))
  | _ =>
      append (mk_issue "ERROR" "SCHEMA_RULE_INVALID"
                (fstr ["Rule must be dict, got: "; type_repr r]%string) None None None)
  end.

Definition check_rules (schema : pydict) : SM unit :=
  let rules := py_or (get_default schema "rules" (PList [])) (PList []) in
  when (py_truthy rules)
    (match rules with
     | PList rs => for_each rs check_rule
     | _ =>
         append (mk_issue "ERROR" "SCHEMA_RULES_INVALID" "Schema 'rules' must be a list."
                   None None None)
     end).

Definition run_checks (schema columns_spec : pydict) : SM unit :=
  (check_required columns_spec ;;;
   check_unexpected schema columns_spec ;;;
   for_each columns_spec check_column ;;;
   check_primary_key schema ;;;
   check_rules schema)%S.

Definition validate_body (schema : pydict) : SM bool :=
  match py_or (get_default schema "columns" (PDict [])) (PDict []) with
  | PDict ((_ :: _) as columns_spec) =>
      (run_checks schema columns_spec ;;;
       issues <- get_issues ;;
       ret (negb (existsb is_error issues)))%S
  | _ => (append no_columns_issue ;;; ret false)%S
  end.

(** [validate(df, schema)] on the table [fr] in the store [h]: what the call
    returns, and the table and the store it leaves.  The issue list is a local
    of the call. *)
Definition validate (fr : list (string * addr)) (h : list obj) (schema : pydict)
  : outcome (bool * list ValidationIssue) * (list (string * addr) * list obj) :=
  let '(r, st) := validate_body schema {| st_frame := fr; st_heap := h; st_issues := [] |} in
  (match r with
   | Ok is_valid => Ok (is_valid, st_issues st)
   | Raise e => Raise e
   end, (st_frame st, st_heap st)).

End Engine.

End Store.

(** * A reference runtime

    A small executable instance of [Runtime], used to evaluate [validate] on
    concrete tables.  It renders integral floats below 1e16 in magnitude only
    in Python's form, reads signed decimal integers within 64 bits as numbers,
    matches literal patterns, resolves an expression that is a single column
    name, and takes integers as the only cells that coerce to a datetime. *)

Module Ref.

Definition string_of_Z (z : Z) : string := NilZero.string_of_int (Z.to_int z).

Definition Z_of_string (s : string) : option Z :=
  option_map Z.of_int (NilZero.int_of_string s).

Definition float_str (f : float) : string :=
  match Prim2SF f with
  | S754_nan => "nan"
  | S754_infinity s => if s then "-inf" else "inf"
  | S754_zero s => if s then "-0.0" else "0.0"
  | S754_finite s m e =>
      match float_int_value f with
      | Some z => fstr [string_of_Z z; ".0"]%string
      | None =>
          fstr [string_of_Z (if s then Z.neg m else Z.pos m); "*2**"; string_of_Z e]%string
      end
  end.

Fixpoint repr (o : pyobj) : string :=
  match o with
  | PNone => "None"
  | PBool b => if b then "True" else "False"
  | PInt z => string_of_Z z
  | PFloat f => float_str f
  | PStr s => fstr ["'"; s; "'"]%string
  | PList xs => fstr ["["; String.concat ", " (map repr xs); "]"]%string
  | PDict kvs =>
      fstr ["{";
            String.concat ", "
              (map (fun kv => match kv with
                              | (k, v) => fstr ["'"; k; "': "; repr v]%string
                              end) kvs);
            "}"]%string
  end.

(** The integer a numeric value equals, when it equals one. *)
Definition int_value (o : pyobj) : option Z :=
  match o with
  | PBool b => Some (if b then 1 else 0)
  | PInt z => Some z
  | PFloat f => float_int_value f
  | _ => None
  end.

(** [a == b] on scalars *)
Definition py_eqb (a b : pyobj) : bool :=
  match a, b with
  | PNone, PNone => true
  | PStr s, PStr t => String.eqb s t
  | PFloat f, PFloat g => PrimFloat.eqb f g
  | _, _ =>
      match int_value a, int_value b with
      | Some x, Some y => x =? y
      | _, _ => false
      end
  end.

Definition same_key (a b : pyobj) : bool :=
  orb (andb (is_null a) (is_null b)) (py_eqb a b).

Fixpoint same_keys (a b : list pyobj) : bool :=
  match a, b with
  | [], [] => true
  | x :: a', y :: b' => andb (same_key x y) (same_keys a' b')
  | _, _ => false
  end.

Definition occurrences {A : Type} (eqb : A -> A -> bool) (x : A) (xs : list A) : nat :=
  List.length (filter (eqb x) xs).

(** Every occurrence of a repeated value is marked. *)
Definition duplicated_mask {A : Type} (eqb : A -> A -> bool) (xs : list A) : list bool :=
  map (fun x => Nat.ltb 1 (occurrences eqb x xs)) xs.

Definition nrows (df : DataFrame) : nat :=
  match df_columns df with
  | [] => 0%nat
  | (_, s) :: _ => List.length (values s)
  end.

Definition key_rows (df : DataFrame) (names : list string) : list (list pyobj) :=
  map (fun i => map (fun c => cell df c i) names) (seq 0 (nrows df)).

Definition to_numeric_cell (v : pyobj) : pyobj :=
  match v with
  | PInt _ | PFloat _ => v
  | PBool b => PInt (if b then 1 else 0)
  | PStr s =>
      match Z_of_string s with
      | Some z => PInt z
      | None => PFloat nan
      end
  | _ => PFloat nan
  end.

Definition is_numeric_dtype (d : string) : bool :=
  let n := normalize_dtype_name d in
  orb (String.eqb n "int") (orb (String.eqb n "float") (String.eqb n "bool")).

Definition is_float (v : pyobj) : bool :=
  match v with
  | PFloat _ => true
  | _ => false
  end.

Definition to_float_cell (v : pyobj) : pyobj :=
  match v with
  | PInt z => PFloat (float_of_Z z)
  | _ => v
  end.

(** A float among the results, NaN for a failure among them, makes the whole
    result float64. *)
Definition to_numeric (s : Series) : outcome (list pyobj) :=
  if is_numeric_dtype (dtype s) then Ok (values s)
  else
    let cells := map to_numeric_cell (values s) in
    Ok (if existsb is_float cells then map to_float_cell cells else cells).

Definition to_datetime_isna (s : Series) : outcome (list bool) :=
  Ok (map (fun v => match v with PInt _ => false | _ => true end) (values s)).

Definition str_match (ss : list pyobj) (pattern : pyobj) : outcome (list bool) :=
  match pattern with
  | PStr p =>
      if existsb is_null ss then Raise (TypeError "bad operand type for unary ~: 'float'")
      else Ok (map (fun v => match v with PStr s => String.prefix p s | _ => false end) ss)
  | _ => Raise (TypeError "first argument must be string or compiled pattern")
  end.

Definition df_eval (df : DataFrame) (expr : string) : eval_result :=
  match get_column df expr with
  | Some s => EvalSeries s
  | None => EvalRaise (fstr ["name '"; expr; "' is not defined"]%string)
  end.

Definition runtime : Runtime :=
  {| rt_str := repr;
     rt_float_of_str := fun s => option_map float_of_Z (Z_of_string s);
     rt_to_numeric := to_numeric;
     rt_to_datetime_isna := to_datetime_isna;
     rt_isin := fun ss allowed => map (fun v => existsb (py_eqb v) allowed) ss;
     rt_str_match := str_match;
     rt_duplicated := fun s => duplicated_mask same_key (values s);
     rt_frame_duplicated := fun df pk => duplicated_mask same_keys (key_rows df pk);
     rt_df_eval := df_eval |}.

End Ref.

(** * Vocabulary of the statements *)

Definition fresh (df : DataFrame) : world := {| w_table := df; w_issues := [] |}.

(** The world [w] after [new] has been appended to its issue list. *)
Definition emit (w : world) (new : list ValidationIssue) : world :=
  {| w_table := w_table w; w_issues := w_issues w ++ new |}.

(** What [m] returns and which issues it adds when it starts on table [df]. *)
Definition run {A : Type} (m : M A) (df : DataFrame) : outcome A * list ValidationIssue :=
  (fst (m (fresh df)), w_issues (snd (m (fresh df)))).

(** On table [df] the action [m] leaves the table alone, only appends issues,
    behaves the same whatever was reported before, and every issue it appends
    satisfies [P]. *)
Definition emits_at {A : Type} (df : DataFrame) (P : ValidationIssue -> Prop) (m : M A) : Prop :=
  exists r new,
    Forall P new /\ forall w, w_table w = df -> m w = (r, emit w new).

Definition local_at {A : Type} (df : DataFrame) (m : M A) : Prop :=
  emits_at df (fun _ => True) m.

(** An issue with one of the codes [codes], attached to column [col]. *)
Definition reported (codes : list string) (col : option string) (i : ValidationIssue) : Prop :=
  In (code i) codes /\ column i = col.

Definition column_codes : list string :=
  ["NULLS_NOT_ALLOWED"; "DTYPE_MISMATCH"; "DTYPE_INTLIKE_FLOAT"; "MIN_VIOLATION";
   "MAX_VIOLATION"; "ALLOWED_SET_VIOLATION"; "REGEX_VIOLATION"; "UNIQUE_VIOLATION"]%string.

(** Every issue of a column's iteration names that column, which the table has. *)
Definition column_issue (df : DataFrame) (col : string) (i : ValidationIssue) : Prop :=
  reported column_codes (Some col) i /\ has_column df col = true.

Definition rule_codes : list string :=
  ["SCHEMA_RULE_INVALID"; "SCHEMA_RULE_MISSING_EXPR"; "TABLE_RULE_VIOLATION";
   "TABLE_RULE_EVAL_ERROR"]%string.

(** The schema declares the non-empty column mapping [cols]. *)
Definition declares_columns (schema cols : pydict) : Prop :=
  dict_get schema "columns" = Some (PDict cols) /\ cols <> [].

(** The schema has no usable [columns] entry: it is missing, is not a mapping,
    or is an empty mapping. *)
Definition no_columns (schema : pydict) : Prop :=
  dict_get schema "columns" = None \/
  (exists v, dict_get schema "columns" = Some v /\ forall d, v <> PDict d) \/
  dict_get schema "columns" = Some (PDict []).

Definition has_code (cd : string) (i : ValidationIssue) : bool := String.eqb (code i) cd.

Definition on_column (col : string) (i : ValidationIssue) : bool :=
  match column i with
  | Some c => String.eqb c col
  | None => false
  end.

(** [spec] marks its column as required. *)
Definition spec_required (spec : pyobj) : bool :=
  match py_or spec (PDict []) with
  | PDict d => py_truthy (get_default d "required" (PBool false))
  | _ => false
  end.

(** The required columns of the schema that the table lacks, in schema order. *)
Definition missing_required (df : DataFrame) (cols : pydict) : list string :=
  map fst (filter (fun item => andb (spec_required (snd item))
                                    (negb (has_column df (fst item)))) cols).

(** [spec] keeps the default nullability and carries none of the keys [banned]. *)
Definition unconstrained (banned : list string) (spec : pyobj) : bool :=
  match py_or spec (PDict []) with
  | PDict d =>
      andb (py_truthy (get_default d "nullable" (PBool true)))
           (forallb (fun k => negb (dict_has d k)) banned)
  | _ => false
  end.

Definition value_keys : list string := ["min"; "max"; "allowed"; "regex"; "unique"]%string.

(** No per-column check applies to [spec]. *)
Definition plain_spec (spec : pyobj) : bool := unconstrained ("dtype"%string :: value_keys) spec.

Definition primary_key_invalid_issue : ValidationIssue :=
  mk_issue "ERROR" "SCHEMA_PRIMARY_KEY_INVALID"
    "Schema 'primary_key' must be a list of column names." None None None.

Definition rules_invalid_issue : ValidationIssue :=
  mk_issue "ERROR" "SCHEMA_RULES_INVALID" "Schema 'rules' must be a list." None None None.

(** [isinstance(o, list) and all(isinstance(x, str) for x in o)] *)
Definition list_of_str (o : pyobj) : bool :=
  match o with
  | PList xs => forallb is_str xs
  | _ => false
  end.

Definition primary_key_codes : list string :=
  ["SCHEMA_PRIMARY_KEY_INVALID"; "PRIMARY_KEY_MISSING_COLUMNS"; "PRIMARY_KEY_NOT_UNIQUE"]%string.

Definition in_codes (codes : list string) (i : ValidationIssue) : bool :=
  existsb (String.eqb (code i)) codes.

(** [d] without its entry for [k]. *)
Fixpoint dict_remove (k : string) (d : pydict) : pydict :=
  match d with
  | [] => []
  | (k', v) :: rest =>
      if String.eqb k' k then dict_remove k rest else (k', v) :: dict_remove k rest
  end.

Definition rule_eval_error_issue (expr msg : string) : ValidationIssue :=
  mk_issue "ERROR" "TABLE_RULE_EVAL_ERROR"
    (fstr ["Failed to evaluate rule expr='"; expr; "': "; msg]%string) None None None.

(** The issues of one bound: one issue when some value is out of range. *)
Definition bound_issues (rt : Runtime) (cd rel : string) (out_of_range : pyobj -> float -> bool)
    (col : string) (valid : list pyobj) (bound : float) : list ValidationIssue :=
  match filter (fun x => out_of_range x bound) valid with
  | [] => []
  | bad => [range_issue rt cd col bad rel bound]
  end.

(** What the report says about one bound of column [col], given the values
    [bad] that are out of range. *)
Definition range_report (cd col : string) (bad : list pyobj)
    (issues : list ValidationIssue) : Prop :=
  let found := filter (fun i => andb (has_code cd i) (on_column col i)) issues in
  match bad with
  | [] => found = []
  | _ =>
      exists i, found = [i] /\ level i = "ERROR"%string /\
                n_rows i = Some (len bad) /\ examples i = Some (head 5 bad) /\
                (List.length (head 5 bad) <= 5)%nat
  end.

(** * Tables and schemas of the concrete runs *)

Definition readings : DataFrame :=
  {| df_columns := [("x"%string, {| dtype := "int64"; values := [PInt (-1); PInt 0; PInt 5] |})] |}.

Definition readings_schema : pydict :=
  [("columns"%string, PDict [("x"%string, PDict [("min"%string, PInt 0)])])].

Definition min_issue_of_readings : ValidationIssue :=
  mk_issue "ERROR" "MIN_VIOLATION" "Column 'x' has 1 values < min(0.0)."
    (Some "x"%string) (Some 1) (Some [PInt (-1)]).

(** A boolean column read with a gap: the missing cell is NaN. *)
Definition flags : DataFrame :=
  {| df_columns :=
       [("flag"%string,
         {| dtype := "object"; values := [PBool true; PFloat nan; PBool false] |})] |}.

Definition flag_rule : pyobj :=
  PDict [("name"%string, PStr "flag_set"); ("expr"%string, PStr "flag")].

Definition flag_rule_schema : pydict :=
  [("columns"%string, PDict [("flag"%string, PNone)]);
   ("rules"%string, PList [flag_rule])].

Definition flag_rule_issue : ValidationIssue :=
  mk_issue "ERROR" "TABLE_RULE_VIOLATION" "Rule 'flag_set' failed for 1 rows. expr=flag"
    None (Some 1) (Some [PDict [("flag"%string, PBool false)]]).

Definition typed_columns : pydict :=
  [("flag"%string, PDict [("nullable"%string, PBool true); ("dtype"%string, PStr "int")])].

Definition typed_schema : pydict := [("columns"%string, PDict typed_columns)].

Definition keyed_schema (pk : pyobj) : pydict :=
  [("columns"%string, PDict [("flag"%string, PDict [])]); ("primary_key"%string, pk)].

Definition ruled_schema (rules : pyobj) : pydict :=
  [("columns"%string, PDict [("flag"%string, PDict [])]); ("rules"%string, rules)].

Definition required_columns : pydict :=
  [("flag"%string, PDict [("required"%string, PBool true)]);
   ("onset"%string, PDict [("required"%string, PBool true); ("min"%string, PInt 0)]);
   ("note"%string, PNone)].

Definition broken_rule : pydict := [("expr"%string, PStr "nope")].

Definition ids : DataFrame :=
  {| df_columns :=
       [("id"%string, {| dtype := "int64"; values := [PInt 1; PInt 1; PInt 2] |});
        ("name"%string, {| dtype := "object"; values := [PStr "a"; PNone; PStr "c"] |})] |}.

Definition ids_schema : pydict :=
  [("columns"%string,
    PDict [("id"%string, PDict [("dtype"%string, PStr "int")]);
           ("name"%string, PDict [("dtype"%string, PStr "string");
                                  ("nullable"%string, PBool false)])]);
   ("primary_key"%string, PList [PStr "id"])].

Definition ids_columns : pydict :=
  [("id"%string, PDict [("dtype"%string, PStr "int")]);
   ("name"%string, PDict [("dtype"%string, PStr "string"); ("nullable"%string, PBool false)])].

Definition name_spec : pydict :=
  [("dtype"%string, PStr "string"); ("nullable"%string, PBool false)].

Definition name_series : Series :=
  {| dtype := "object"; values := [PStr "a"; PNone; PStr "c"] |}.

Definition null_name_issue : ValidationIssue :=
  mk_issue "ERROR" "NULLS_NOT_ALLOWED" "Column 'name' contains 1 nulls but nullable=false."
    (Some "name"%string) (Some 1) (Some [PNone]).

Definition duplicate_id_issue : ValidationIssue :=
  mk_issue "ERROR" "PRIMARY_KEY_NOT_UNIQUE"
    "Primary key ['id'] is not unique; 2 rows are duplicates."
    None (Some 2) (Some [PDict [("id"%string, PInt 1)]; PDict [("id"%string, PInt 1)]]).

Definition ids_report : list ValidationIssue := [null_name_issue; duplicate_id_issue].

Definition closed_schema : pydict :=
  [("columns"%string, PDict [("id"%string, PNone)]);
   ("allow_extra_columns"%string, PBool false)].

Definition extra_name_issue : ValidationIssue :=
  mk_issue "WARN" "UNEXPECTED_COLUMNS"
    "Unexpected columns found (schema disallows extras): ['name']"
    None (Some 1) (Some [PStr "name"]).

(** [ids] as objects: the table and the store its two columns live in. *)
Definition ids_frame : list (string * Store.addr) := [("id"%string, 0%nat); ("name"%string, 1%nat)].

Definition ids_store : list Store.obj :=
  [Store.OSeries {| dtype := "int64"; values := [PInt 1; PInt 1; PInt 2] |};
   Store.OSeries name_series].

(** An evaluation that leaves the store as it finds it. *)
Definition eval_reads_only (fr : list (string * Store.addr)) (h : list Store.obj)
    (expr : string) : list Store.obj := h.

(** * Vocabulary of the further properties *)

(** The report of a run: its issue list, empty when the run raised. *)
Definition issues_of (r : outcome (bool * list ValidationIssue) * DataFrame)
  : list ValidationIssue :=
  match fst r with
  | Ok (_, issues) => issues
  | Raise _ => []
  end.

Definition has_column_field (i : ValidationIssue) : bool :=
  match column i with
  | Some _ => true
  | None => false
  end.

(** Every kind of issue [validate] builds: level, code, and whether the issue
    names a column. *)
Definition issue_kinds : list (string * string * bool) :=
  [("ERROR", "SCHEMA_NO_COLUMNS", false);
   ("ERROR", "MISSING_REQUIRED_COLUMNS", false);
   ("WARN", "UNEXPECTED_COLUMNS", false);
   ("ERROR", "NULLS_NOT_ALLOWED", true);
   ("ERROR", "DTYPE_MISMATCH", true);
   ("WARN", "DTYPE_INTLIKE_FLOAT", true);
   ("ERROR", "MIN_VIOLATION", true);
   ("ERROR", "MAX_VIOLATION", true);
   ("ERROR", "ALLOWED_SET_VIOLATION", true);
   ("ERROR", "REGEX_VIOLATION", true);
   ("ERROR", "UNIQUE_VIOLATION", true);
   ("ERROR", "SCHEMA_PRIMARY_KEY_INVALID", false);
   ("ERROR", "PRIMARY_KEY_MISSING_COLUMNS", false);
   ("ERROR", "PRIMARY_KEY_NOT_UNIQUE", false);
   ("ERROR", "SCHEMA_RULES_INVALID", false);
   ("ERROR", "SCHEMA_RULE_INVALID", false);
   ("ERROR", "SCHEMA_RULE_MISSING_EXPR", false);
   ("ERROR", "TABLE_RULE_VIOLATION", false);
   ("ERROR", "TABLE_RULE_EVAL_ERROR", false)]%string.

Definition known_kind (i : ValidationIssue) : Prop :=
  In (level i, code i, has_column_field i) issue_kinds.

(** The rows a rule's outcome marks as violations: [~ok.fillna(False)] after the
    cast of [_safe_eval_expr]. *)
Definition violation_mask (out : Series) : list bool :=
  if String.eqb (dtype out) "bool"
  then map (fun v => orb (is_null v) (negb (py_truthy v))) (values out)
  else map (fun v => negb (py_truthy v)) (values out).

(** What one evaluated rule reports. *)
Definition rule_violation_issues (rt : Runtime) (df : DataFrame) (name : pyobj)
    (expr : string) (out : Series) : list ValidationIssue :=
  let bad_mask := violation_mask out in
  let n_bad := count_true bad_mask in
  if 0 <? n_bad then
    [mk_issue "ERROR" "TABLE_RULE_VIOLATION"
       (fstr ["Rule '"; py_str rt name; "' failed for "; py_str rt (PInt n_bad);
              " rows. expr="; expr]%string)
       None (Some n_bad) (Some (records df (column_names df) bad_mask 3))]
  else [].

(** A row count of a report is positive, and the issue carries no more examples
    than it counts. *)
Definition sound_count (i : ValidationIssue) : Prop :=
  match n_rows i with
  | Some k =>
      0 < k /\
      match examples i with
      | Some ex => len ex <= k
      | None => True
      end
  | None => True
  end.

(** The issue names no column, or one that the schema declares and the table has. *)
Definition names_checked_column (df : DataFrame) (schema : pydict) (i : ValidationIssue) : Prop :=
  forall c, column i = Some c ->
    has_column df c = true /\
    exists cols, dict_get schema "columns" = Some (PDict cols) /\ In c (keys cols).

(** The issues of a report that carry code [cd] and name column [col]. *)
Definition about (cd col : string) (issues : list ValidationIssue) : list ValidationIssue :=
  filter (fun i => andb (has_code cd i) (on_column col i)) issues.

(** What the nullability check reports on the cells [vals] of column [col]. *)
Definition null_issues (rt : Runtime) (col : string) (vals : list pyobj) (nullable : bool)
  : list ValidationIssue :=
  if nullable then []
  else
    match filter is_null vals with
    | [] => []
    | nulls =>
        [mk_issue "ERROR" "NULLS_NOT_ALLOWED"
           (fstr ["Column '"; col; "' contains "; py_str rt (PInt (len nulls));
                  " nulls but nullable=false."]%string)
           (Some col) (Some (len nulls)) (Some (head 5 nulls))]
    end.

(** The columns of the table that the schema does not declare, in table order. *)
Definition unexpected_columns (df : DataFrame) (cols : pydict) : list string :=
  filter (fun c => negb (dict_has cols c)) (column_names df).

(** What step 2) reports. *)
Definition unexpected_issues (rt : Runtime) (df : DataFrame) (schema cols : pydict)
  : list ValidationIssue :=
  if py_truthy (get_default schema "allow_extra_columns" (PBool true)) then []
  else
    match unexpected_columns df cols with
    | [] => []
    | extra =>
        [mk_issue "WARN" "UNEXPECTED_COLUMNS"
           (fstr ["Unexpected columns found (schema disallows extras): ";
                  py_str rt (PList (map PStr extra))]%string)
           None (Some (len extra)) (Some (map PStr extra))]
    end.

(** What step 4) reports for a primary key that is a non-empty list of names. *)
Definition key_issues (rt : Runtime) (df : DataFrame) (pk : list pyobj) : list ValidationIssue :=
  let pk_cols := map str_of pk in
  match filter (fun c => negb (has_column df c)) pk_cols with
  | [] =>
      let dup_rows := rt_frame_duplicated rt df pk_cols in
      if 0 <? count_true dup_rows then
        [mk_issue "ERROR" "PRIMARY_KEY_NOT_UNIQUE"
           (fstr ["Primary key "; py_str rt (PList pk); " is not unique; ";
                  py_str rt (PInt (count_true dup_rows)); " rows are duplicates."]%string)
           None (Some (count_true dup_rows)) (Some (records df pk_cols dup_rows 5))]
      else []
  | missing =>
      [mk_issue "ERROR" "PRIMARY_KEY_MISSING_COLUMNS"
         (fstr ["Primary key columns missing from table: ";
                py_str rt (PList (map PStr missing))]%string)
         None None (Some (map PStr missing))]
  end.

(** What one entry of [rules] reports. *)
Definition rule_issues (rt : Runtime) (df : DataFrame) (r : pyobj) : list ValidationIssue :=
  match r with
  | PDict rd =>
      let name := get_default rd "name" (PStr "unnamed_rule") in
      match get_default rd "expr" PNone with
      | PStr (String c rest) =>
          let expr := String c rest in
          match rt_df_eval rt df expr with
          | EvalSeries out => rule_violation_issues rt df name expr out
          | EvalOther =>
              [rule_eval_error_issue expr "Expression did not evaluate to a row-wise Series."]
          | EvalRaise msg => [rule_eval_error_issue expr msg]
          end
      | _ =>
          [mk_issue "ERROR" "SCHEMA_RULE_MISSING_EXPR"
             (fstr ["Rule '"; py_str rt name; "' missing 'expr' string."]%string)
             None None None]
      end
  | _ =>
      [mk_issue "ERROR" "SCHEMA_RULE_INVALID"
         (fstr ["Rule must be dict, got: "; type_repr r]%string) None None None]
  end.

(** Every column of the table [fr] is a series object of the store [h]. *)
Definition table_in_store (fr : list (string * Store.addr)) (h : list Store.obj) : Prop :=
  Forall (fun ca => exists s, nth_error h (snd ca) = Some (Store.OSeries s)) fr.

(** The references [B] point to these objects in [h]. *)
Definition known (B : list (Store.addr * Store.obj)) (h : list Store.obj) : Prop :=
  Forall (fun ao => nth_error h (fst ao) = Some (snd ao)) B.

(** On the table [fr], whose columns read as [df], and with the references [B]
    in hand, the action [m] on the store returns what [p] returns on the value
    [df] and reports the same issues; it leaves the table's labels and every
    object of the store as they are, and only adds new objects. *)
Definition sim {A : Type} (fr : list (string * Store.addr)) (df : DataFrame)
    (B : list (Store.addr * Store.obj)) (m : Store.SM A) (p : M A) : Prop :=
  forall h iss,
    Store.snapshot fr h = df -> table_in_store fr h -> known B h ->
    exists new,
      m {| Store.st_frame := fr; Store.st_heap := h; Store.st_issues := iss |}
      = (fst (run p df),
         {| Store.st_frame := fr; Store.st_heap := h ++ new;
            Store.st_issues := iss ++ snd (run p df) |}).

(** Evaluating an expression alters no object of the store; it may add some. *)
Definition eval_adds_only
    (eval_store : list (string * Store.addr) -> list Store.obj -> string -> list Store.obj)
  : Prop :=
  forall fr h expr, exists new, eval_store fr h expr = h ++ new.

(** A host whose parser and readers hand back fixed values. *)
Definition fixed_host (obj : pyobj) (df : DataFrame) : Host :=
  {| yaml_available := true;
     safe_load := fun _ => Ok obj;
     read_csv := fun _ => Ok df;
     read_parquet := fun _ => Raise (LibraryError "FileNotFoundError" "parquet");
     read_excel := fun _ => Raise (LibraryError "FileNotFoundError" "excel") |}.

(** * Reasoning about runs *)

Lemma emit_nil (w : world) : emit w [] = w.
Proof. destruct w; unfold emit; simpl. now rewrite app_nil_r. Qed.

Lemma emit_emit (w : world) (a b : list ValidationIssue) :
  emit (emit w a) b = emit w (a ++ b).
Proof. unfold emit; simpl. now rewrite app_assoc. Qed.

Lemma emits_at_run {A : Type} df P (m : M A) :
  emits_at df P m ->
  Forall P (snd (run m df)) /\
  forall w, w_table w = df -> m w = (fst (run m df), emit w (snd (run m df))).
Proof.
  intros (r & new & HP & Hm). unfold run.
  rewrite (Hm (fresh df) eq_refl). simpl. split; [assumption|].
  intros w Hw. now apply Hm.
Qed.

Lemma emits_at_weaken {A : Type} df (P Q : ValidationIssue -> Prop) (m : M A) :
  (forall i, P i -> Q i) -> emits_at df P m -> emits_at df Q m.
Proof.
  intros HPQ (r & new & HP & Hm). exists r, new. split; [|assumption].
  eapply Forall_impl; eauto.
Qed.

Lemma emits_at_ret {A : Type} df P (a : A) : emits_at df P (ret a).
Proof.
  exists (Ok a), []. split; [constructor|]. intros w _. now rewrite emit_nil.
Qed.

Lemma emits_at_lift {A : Type} df P (o : outcome A) : emits_at df P (lift o).
Proof.
  exists o, []. split; [constructor|]. intros w _. now rewrite emit_nil.
Qed.

Lemma emits_at_get_table df P : emits_at df P get_table.
Proof.
  exists (Ok df), []. split; [constructor|]. intros w Hw.
  unfold get_table. now rewrite emit_nil, Hw.
Qed.

Lemma emits_at_append df (P : ValidationIssue -> Prop) i : P i -> emits_at df P (append i).
Proof.
  intros Hi. exists (Ok tt), [i]. split; [now constructor|]. intros w _. reflexivity.
Qed.

Lemma emits_at_bind {A B : Type} df P (m : M A) (k : A -> M B) :
  emits_at df P m ->
  (forall a, fst (run m df) = Ok a -> emits_at df P (k a)) ->
  emits_at df P (bind m k).
Proof.
  intros Hm Hk. destruct (emits_at_run Hm) as [HP Hrun].
  destruct (fst (run m df)) as [a|e] eqn:Hr.
  - destruct (Hk a eq_refl) as (r2 & new2 & HP2 & Hk2).
    exists r2, (snd (run m df) ++ new2). split; [now apply Forall_app|].
    intros w Hw. unfold bind. rewrite (Hrun w Hw).
    rewrite Hk2 by (simpl; assumption). now rewrite emit_emit.
  - exists (Raise e), (snd (run m df)). split; [assumption|].
    intros w Hw. unfold bind. now rewrite (Hrun w Hw).
Qed.

Lemma emits_at_when df P (c : bool) (m : M unit) :
  (c = true -> emits_at df P m) -> emits_at df P (when c m).
Proof. destruct c; simpl; intros H; [now apply H | apply emits_at_ret]. Qed.

Lemma emits_at_for_each {A : Type} df P (xs : list A) (body : A -> M unit) :
  (forall x, In x xs -> emits_at df P (body x)) -> emits_at df P (for_each xs body).
Proof.
  induction xs as [|x xs IH]; intros H; simpl.
  - apply emits_at_ret.
  - apply emits_at_bind.
    + apply H. now left.
    + intros _ _. apply IH. intros y Hy. apply H. now right.
Qed.

Lemma emits_at_try_except {A : Type} df P (m : M A) (h : exn -> M A) :
  emits_at df P m ->
  (forall e, fst (run m df) = Raise e -> emits_at df P (h e)) ->
  emits_at df P (try_except m h).
Proof.
  intros Hm Hh. destruct (emits_at_run Hm) as [HP Hrun].
  destruct (fst (run m df)) as [a|e] eqn:Hr.
  - exists (Ok a), (snd (run m df)). split; [assumption|].
    intros w Hw. unfold try_except. now rewrite (Hrun w Hw).
  - destruct (Hh e eq_refl) as (r2 & new2 & HP2 & Hh2).
    exists r2, (snd (run m df) ++ new2). split; [now apply Forall_app|].
    intros w Hw. unfold try_except. rewrite (Hrun w Hw).
    rewrite Hh2 by (simpl; assumption). now rewrite emit_emit.
Qed.

Lemma run_fst_lift {A : Type} (o : outcome A) df : fst (run (lift o) df) = o.
Proof. reflexivity. Qed.

Lemma run_fst_get_table df : fst (run get_table df) = Ok df.
Proof. reflexivity. Qed.

(** One structural step of a proof that an action is [emits_at]. *)
Ltac emits_step :=
  lazymatch goal with
  | |- emits_at _ _ (bind get_table _) =>
      apply emits_at_bind;
      [ apply emits_at_get_table
      | let a := fresh "df'" in let H := fresh "Hdf" in
        intros a H; rewrite run_fst_get_table in H; injection H as <- ]
  | |- emits_at _ _ (bind (lift _) _) =>
      apply emits_at_bind;
      [ apply emits_at_lift
      | let a := fresh "a" in let H := fresh "Hlift" in
        intros a H; rewrite run_fst_lift in H ]
  | |- emits_at _ _ (bind _ _) =>
      apply emits_at_bind; [ | let a := fresh "a" in intros a _ ]
  | |- emits_at _ _ (when _ _) =>
      apply emits_at_when; let H := fresh "Hwhen" in intros H
  | |- emits_at _ _ (lift _) => apply emits_at_lift
  | |- emits_at _ _ (ret _) => apply emits_at_ret
  | |- emits_at _ _ get_table => apply emits_at_get_table
  | |- emits_at _ _ (append _) => apply emits_at_append
  | |- emits_at _ _ (try_except _ _) =>
      apply emits_at_try_except; [ | let e := fresh "e" in intros e _ ]
  | |- emits_at _ _ (match ?x with _ => _ end) =>
      let E := fresh "Ecase" in destruct x eqn:E
  | |- emits_at _ _ (let _ := _ in _) => cbv zeta
  end.

(** ** What each check can report *)

Ltac reported_goal :=
  unfold reported, dtype_mismatch, range_issue, mk_issue; simpl;
  repeat split; auto 12.

Ltac emits_auto := repeat emits_step; try solve [reported_goal].

Lemma get_column_has (df : DataFrame) (c : string) (s : Series) :
  get_column df c = Some s -> has_column df c = true.
Proof.
  unfold get_column, has_column, column_names. destruct df as [cols]. simpl.
  induction cols as [|[c' s'] cols IH]; simpl; [discriminate|].
  destruct (String.eqb c c'); [reflexivity|]. exact IH.
Qed.

Section Checks.

Variable rt : Runtime.
Variable df : DataFrame.

Lemma check_required_emits cols :
  emits_at df (reported ["MISSING_REQUIRED_COLUMNS"%string] None) (check_required rt cols).
Proof. unfold check_required. emits_auto. Qed.

Lemma check_unexpected_emits schema cols :
  emits_at df (reported ["UNEXPECTED_COLUMNS"%string] None) (check_unexpected rt schema cols).
Proof. unfold check_unexpected. emits_auto. Qed.

Lemma check_nullability_emits col s nullable :
  emits_at df (reported ["NULLS_NOT_ALLOWED"%string] (Some col))
    (check_nullability rt col s nullable).
Proof. unfold check_nullability. emits_auto. Qed.

Lemma check_dtype_emits col s expected :
  emits_at df (reported ["DTYPE_MISMATCH"; "DTYPE_INTLIKE_FLOAT"]%string (Some col))
    (check_dtype rt col s expected).
Proof. unfold check_dtype. emits_auto. Qed.

Lemma check_range_emits col s spec :
  emits_at df (reported ["MIN_VIOLATION"; "MAX_VIOLATION"]%string (Some col))
    (check_range rt col s spec).
Proof. unfold check_range. emits_auto. Qed.

Lemma check_allowed_emits col s spec :
  emits_at df (reported ["ALLOWED_SET_VIOLATION"%string] (Some col))
    (check_allowed rt col s spec).
Proof. unfold check_allowed. emits_auto. Qed.

Lemma check_regex_emits col s spec :
  emits_at df (reported ["REGEX_VIOLATION"%string] (Some col)) (check_regex rt col s spec).
Proof. unfold check_regex. emits_auto. Qed.

Lemma check_unique_emits col s spec :
  emits_at df (reported ["UNIQUE_VIOLATION"%string] (Some col)) (check_unique rt col s spec).
Proof. unfold check_unique. emits_auto. Qed.

Ltac widen :=
  let i := fresh "i" in let H := fresh "H" in
  intros i H; unfold column_issue, reported, column_codes in *;
  simpl in *; intuition auto 12.

Lemma check_column_emits item :
  emits_at df (column_issue df (fst item)) (check_column rt item).
Proof.
  unfold check_column. cbv zeta. emits_step.
  destruct (get_column df (fst item)) as [s|] eqn:Hcol; [|apply emits_at_ret].
  pose proof (get_column_has _ _ Hcol) as Hhas.
  emits_step. unfold column_checks. cbv zeta.
  repeat emits_step.
  - eapply emits_at_weaken; [|apply check_nullability_emits]. widen.
  - eapply emits_at_weaken; [|apply check_dtype_emits]. widen.
  - eapply emits_at_weaken; [|apply check_range_emits]. widen.
  - eapply emits_at_weaken; [|apply check_allowed_emits]. widen.
  - eapply emits_at_weaken; [|apply check_regex_emits]. widen.
  - eapply emits_at_weaken; [|apply check_unique_emits]. widen.
Qed.

Lemma check_primary_key_emits schema :
  emits_at df
    (reported ["SCHEMA_PRIMARY_KEY_INVALID"; "PRIMARY_KEY_MISSING_COLUMNS";
               "PRIMARY_KEY_NOT_UNIQUE"]%string None)
    (check_primary_key rt schema).
Proof. unfold check_primary_key. emits_auto. Qed.

Lemma check_rule_emits r : emits_at df (reported rule_codes None) (check_rule rt r).
Proof. unfold check_rule, eval_rule, rule_codes. emits_auto. Qed.

Lemma check_rules_emits schema :
  emits_at df (reported ("SCHEMA_RULES_INVALID"%string :: rule_codes) None)
    (check_rules rt schema).
Proof.
  unfold check_rules. cbv zeta. emits_step.
  destruct (py_or _ _); try solve [emits_auto].
  apply emits_at_for_each. intros r _.
  eapply emits_at_weaken; [|apply check_rule_emits].
  unfold reported. simpl. intuition.
Qed.

End Checks.

(** ** Runs of composed actions *)

Lemma emits_at_local {A : Type} df P (m : M A) : emits_at df P m -> local_at df m.
Proof. apply emits_at_weaken. trivial. Qed.

Lemma local_at_run {A : Type} df (m : M A) w :
  local_at df m -> w_table w = df -> m w = (fst (run m df), emit w (snd (run m df))).
Proof. intros Hm Hw. now apply (emits_at_run Hm). Qed.

Lemma run_bind {A B : Type} df (m : M A) (k : A -> M B) :
  local_at df m -> (forall a, local_at df (k a)) ->
  run (bind m k) df =
  match run m df with
  | (Ok a, n1) => (fst (run (k a) df), n1 ++ snd (run (k a) df))
  | (Raise e, n1) => (Raise e, n1)
  end.
Proof.
  intros Hm Hk. unfold run at 1 2. unfold bind.
  rewrite (local_at_run (fresh df) Hm eq_refl).
  destruct (run m df) as [[a|e] n1]; simpl; [|reflexivity].
  rewrite (local_at_run (emit (fresh df) n1) (Hk a) eq_refl). reflexivity.
Qed.

Lemma run_bind_ok {A B : Type} df (m : M A) (k : A -> M B) b n :
  local_at df m -> (forall a, local_at df (k a)) ->
  run (bind m k) df = (Ok b, n) ->
  exists a n1 n2, run m df = (Ok a, n1) /\ run (k a) df = (Ok b, n2) /\ n = n1 ++ n2.
Proof.
  intros Hm Hk. rewrite run_bind by assumption.
  destruct (run m df) as [[a|e] n1]; [|discriminate].
  intros H. exists a, n1, (snd (run (k a) df)).
  destruct (run (k a) df) as [r n2]. simpl in *. inversion H; subst. auto.
Qed.

Lemma local_at_for_each {A : Type} df (xs : list A) (body : A -> M unit) :
  (forall x, local_at df (body x)) -> local_at df (for_each xs body).
Proof. intros H. apply emits_at_for_each. intros x _. apply H. Qed.

Lemma run_for_each_app {A : Type} df (xs ys : list A) (body : A -> M unit) n :
  (forall x, local_at df (body x)) ->
  run (for_each (xs ++ ys) body) df = (Ok tt, n) ->
  exists n1 n2,
    run (for_each xs body) df = (Ok tt, n1) /\
    run (for_each ys body) df = (Ok tt, n2) /\ n = n1 ++ n2.
Proof.
  intros Hb. revert n. induction xs as [|x xs IH]; intros n H.
  - exists [], n. repeat split; assumption.
  - simpl in H.
    apply run_bind_ok in H; [|apply Hb|intros _; apply local_at_for_each, Hb].
    destruct H as ([] & n1 & n2 & H1 & H2 & ->).
    destruct (IH _ H2) as (m1 & m2 & Hx & Hy & ->).
    exists (n1 ++ m1), m2. repeat split; [|assumption|now rewrite app_assoc].
    simpl. rewrite run_bind; [|apply Hb|intros _; apply local_at_for_each, Hb].
    rewrite H1, Hx. reflexivity.
Qed.

Lemma run_for_each_cons {A : Type} df (x : A) (ys : list A) (body : A -> M unit) n :
  (forall x, local_at df (body x)) ->
  run (for_each (x :: ys) body) df = (Ok tt, n) ->
  exists n1 n2,
    run (body x) df = (Ok tt, n1) /\
    run (for_each ys body) df = (Ok tt, n2) /\ n = n1 ++ n2.
Proof.
  intros Hb H. simpl in H.
  apply run_bind_ok in H; [|apply Hb|intros _; apply local_at_for_each, Hb].
  destruct H as ([] & n1 & n2 & H1 & H2 & ->). eauto.
Qed.

Lemma run_forall {A : Type} df P (m : M A) r n :
  emits_at df P m -> run m df = (r, n) -> Forall P n.
Proof.
  intros Hm Hr. destruct (emits_at_run Hm) as [HP _].
  rewrite Hr in HP. exact HP.
Qed.

(** ** The shape of a validation run *)

Section Shape.

Variable rt : Runtime.
Variable df : DataFrame.

Lemma check_column_local item : local_at df (check_column rt item).
Proof. eapply emits_at_local, check_column_emits. Qed.

Lemma columns_loop_local cols : local_at df (for_each cols (check_column rt)).
Proof. apply local_at_for_each, check_column_local. Qed.

Lemma run_checks_local schema cols : local_at df (run_checks rt schema cols).
Proof.
  unfold run_checks, local_at. repeat emits_step.
  - eapply emits_at_local, check_required_emits.
  - eapply emits_at_local, check_unexpected_emits.
  - apply columns_loop_local.
  - eapply emits_at_local, check_primary_key_emits.
  - eapply emits_at_local, check_rules_emits.
Qed.

Lemma declares_columns_or schema cols :
  declares_columns schema cols ->
  py_or (get_default schema "columns" (PDict [])) (PDict []) = PDict cols.
Proof.
  intros [Hget Hne]. unfold get_default. rewrite Hget.
  destruct cols; [contradiction|reflexivity].
Qed.

(** [validate] in terms of the run of the five steps. *)
Lemma validate_eq schema cols :
  declares_columns schema cols ->
  validate rt df schema =
  (match run (run_checks rt schema cols) df with
   | (Ok _, issues) => Ok (negb (existsb is_error issues), issues)
   | (Raise e, _) => Raise e
   end, df).
Proof.
  intros Hc. unfold validate, validate_body.
  rewrite (declares_columns_or Hc). destruct Hc as [_ Hne].
  destruct cols as [|item cols']; [contradiction|].
  unfold bind at 1.
  rewrite (local_at_run {| w_table := df; w_issues := [] |}
             (run_checks_local schema (item :: cols')) eq_refl).
  destruct (run (run_checks rt schema (item :: cols')) df) as [[[]|e] n]; reflexivity.
Qed.

(** A run that returns went through the five steps, each of which returned. *)
Lemma validate_phases schema cols v issues df' :
  declares_columns schema cols ->
  validate rt df schema = (Ok (v, issues), df') ->
  df' = df /\ v = negb (existsb is_error issues) /\
  exists n1 n2 n3 n4 n5,
    issues = n1 ++ n2 ++ n3 ++ n4 ++ n5 /\
    run (check_required rt cols) df = (Ok tt, n1) /\
    run (check_unexpected rt schema cols) df = (Ok tt, n2) /\
    run (for_each cols (check_column rt)) df = (Ok tt, n3) /\
    run (check_primary_key rt schema) df = (Ok tt, n4) /\
    run (check_rules rt schema) df = (Ok tt, n5).
Proof.
  intros Hc Hv. rewrite (validate_eq Hc) in Hv.
  destruct (run (run_checks rt schema cols) df) as [[[]|e] n] eqn:Hrun;
    [|discriminate].
  injection Hv as <- <- <-. split; [reflexivity|]. split; [reflexivity|].
  unfold run_checks in Hrun.
  apply run_bind_ok in Hrun;
    [|eapply emits_at_local, check_required_emits
     |intros _; unfold local_at; repeat emits_step;
      [eapply emits_at_local, check_unexpected_emits | apply columns_loop_local
      |eapply emits_at_local, check_primary_key_emits
      |eapply emits_at_local, check_rules_emits]].
  destruct Hrun as ([] & n1 & r1 & H1 & Hrun & ->).
  apply run_bind_ok in Hrun;
    [|eapply emits_at_local, check_unexpected_emits
     |intros _; unfold local_at; repeat emits_step;
      [apply columns_loop_local
      |eapply emits_at_local, check_primary_key_emits
      |eapply emits_at_local, check_rules_emits]].
  destruct Hrun as ([] & n2 & r2 & H2 & Hrun & ->).
  apply run_bind_ok in Hrun;
    [|apply columns_loop_local
     |intros _; unfold local_at; repeat emits_step;
      [eapply emits_at_local, check_primary_key_emits
      |eapply emits_at_local, check_rules_emits]].
  destruct Hrun as ([] & n3 & r3 & H3 & Hrun & ->).
  apply run_bind_ok in Hrun;
    [|eapply emits_at_local, check_primary_key_emits
     |intros _; eapply emits_at_local, check_rules_emits].
  destruct Hrun as ([] & n4 & n5 & H4 & H5 & ->).
  exists n1, n2, n3, n4, n5. repeat split; assumption.
Qed.

Lemma validate_no_columns schema :
  no_columns schema -> validate rt df schema = (Ok (false, [no_columns_issue]), df).
Proof.
  unfold validate, validate_body, get_default.
  intros [H|[(v & H & Hv)|H]]; rewrite H; try reflexivity.
  unfold py_or. destruct (py_truthy v); [|reflexivity].
  destruct v; try reflexivity. now contradiction (Hv kvs).
Qed.

End Shape.

(** * Properties of the report *)

Lemma filter_nothing {A : Type} (sel : A -> bool) (xs : list A) :
  Forall (fun x => sel x = false) xs -> filter sel xs = [].
Proof.
  induction 1 as [|x xs Hx _ IH]; simpl; [reflexivity|]. now rewrite Hx.
Qed.

Lemma reported_other_code codes col cd i :
  reported codes col i -> ~ In cd codes -> has_code cd i = false.
Proof.
  intros [Hin _] Hnot. unfold has_code.
  destruct (String.eqb_spec (code i) cd) as [<-|]; [contradiction|reflexivity].
Qed.

Lemma with_code_nothing codes col cd issues :
  Forall (reported codes col) issues -> ~ In cd codes -> filter (has_code cd) issues = [].
Proof.
  intros H Hnot. apply filter_nothing.
  eapply Forall_impl; [|exact H]. intros i Hi. eapply reported_other_code; eauto.
Qed.

Ltac not_in_codes :=
  unfold column_codes, rule_codes; simpl;
  intuition discriminate.

Lemma required_cols_missing df cols required :
  required_cols cols = Ok required ->
  filter (fun c => negb (has_column df c)) required = missing_required df cols.
Proof.
  unfold missing_required. revert required.
  induction cols as [|[c spec] cols IH]; intros required H; simpl in H.
  - injection H as <-. reflexivity.
  - simpl. unfold spec_required at 1.
    destruct (py_or spec (PDict [])) as [| | | | | |d]; simpl in H; try discriminate.
    destruct (required_cols cols) as [rs|] eqn:Hrs; simpl in H; [|discriminate].
    injection H as <-. specialize (IH rs eq_refl).
    destruct (py_truthy (get_default d "required" (PBool false))); simpl.
    + destruct (has_column df c); simpl; now rewrite IH.
    + exact IH.
Qed.

Lemma check_required_run rt df cols n :
  run (check_required rt cols) df = (Ok tt, n) ->
  let missing := missing_required df cols in
  n = if py_truthy (PList (map PStr missing))
      then [mk_issue "ERROR" "MISSING_REQUIRED_COLUMNS"
              (fstr ["Missing required columns: "; py_str rt (PList (map PStr missing))]%string)
              None (Some (len missing)) (Some (map PStr missing))]
      else [].
Proof.
  unfold check_required, run, bind, lift, get_table. simpl.
  destruct (required_cols cols) as [required|] eqn:Hreq; simpl; [|discriminate].
  rewrite (@required_cols_missing df cols required Hreq).
  destruct (missing_required df cols); simpl; intros H; injection H as <-; reflexivity.
Qed.

Lemma columns_loop_emits rt df (items : pydict) :
  emits_at df (fun i => exists c, In c (keys items) /\ column_issue df c i)
    (for_each items (check_column rt)).
Proof.
  apply emits_at_for_each. intros item Hin.
  eapply emits_at_weaken; [|apply check_column_emits].
  intros i Hi. exists (fst item). split; [|exact Hi].
  unfold keys. now apply in_map.
Qed.

(** C1. A schema whose [columns] entry is missing, is not a mapping or is an
    empty mapping is rejected: the run returns invalid with exactly one issue,
    an ERROR with code SCHEMA_NO_COLUMNS, and nothing else is reported. *)
Theorem validate_rejects_schema_without_columns rt df schema :
  no_columns schema ->
  exists i,
    validate rt df schema = (Ok (false, [i]), df) /\
    level i = "ERROR"%string /\ code i = "SCHEMA_NO_COLUMNS"%string.
Proof.
  intros H. exists no_columns_issue. split; [|split; reflexivity].
  now apply validate_no_columns.
Qed.

(** C2. When the table lacks a required column of a schema that declares
    columns, the report has exactly one MISSING_REQUIRED_COLUMNS issue, an
    ERROR whose examples are the missing required names and whose [n_rows] is
    their number; and no issue is attached to a schema column that the table
    lacks. *)
Theorem missing_required_columns_reported_once rt df schema cols v issues df' :
  declares_columns schema cols ->
  missing_required df cols <> [] ->
  validate rt df schema = (Ok (v, issues), df') ->
  (exists i,
     filter (has_code "MISSING_REQUIRED_COLUMNS") issues = [i] /\
     level i = "ERROR"%string /\
     examples i = Some (map PStr (missing_required df cols)) /\
     n_rows i = Some (len (missing_required df cols))) /\
  (forall c i, In c (keys cols) -> has_column df c = false ->
               In i issues -> column i <> Some c).
Proof.
  intros Hc Hmiss Hv.
  destruct (validate_phases rt df Hc Hv) as (_ & _ & n1 & n2 & n3 & n4 & n5 & -> & H1 & H2 & H3 & H4 & H5).
  pose proof (run_forall (check_unexpected_emits rt df schema cols) H2) as F2.
  pose proof (run_forall (columns_loop_emits rt df cols) H3) as F3.
  pose proof (run_forall (check_primary_key_emits rt df schema) H4) as F4.
  pose proof (run_forall (check_rules_emits rt df schema) H5) as F5.
  pose proof (run_forall (check_required_emits rt df cols) H1) as F1.
  apply check_required_run in H1. cbv zeta in H1.
  destruct (missing_required df cols) as [|m ms] eqn:Hm; [contradiction|].
  simpl in H1. subst n1. split.
  - eexists. split.
    + rewrite !filter_app.
      rewrite (with_code_nothing _ F2) by not_in_codes.
      rewrite (with_code_nothing _ F4) by not_in_codes.
      rewrite (with_code_nothing _ F5) by not_in_codes.
      rewrite (filter_nothing (has_code "MISSING_REQUIRED_COLUMNS") (xs := n3)).
      * simpl. reflexivity.
      * eapply Forall_impl; [|exact F3]. intros i (c & _ & Hi & _).
        eapply reported_other_code; [exact Hi | not_in_codes].
    + simpl. repeat split; reflexivity.
  - intros c i _ Hhas Hin Hcol.
    rewrite !in_app_iff in Hin.
    assert (Hnone : forall codes l, Forall (reported codes None) l -> In i l -> False).
    { intros codes l F Hl. rewrite Forall_forall in F.
      destruct (F i Hl) as [_ Hn]. congruence. }
    destruct Hin as [Hin|[Hin|[Hin|[Hin|Hin]]]]; eauto.
    rewrite Forall_forall in F3. destruct (F3 i Hin) as (c' & _ & [_ Hc'] & Hhas').
      congruence.
Qed.

(** ** Schemas without constraints *)

Lemma dict_has_false_get d k : dict_has d k = false -> dict_get d k = None.
Proof. unfold dict_has. destruct (dict_get d k); [discriminate|reflexivity]. Qed.

Lemma plain_spec_inv spec :
  plain_spec spec = true ->
  exists d, py_or spec (PDict []) = PDict d /\
    py_truthy (get_default d "nullable" (PBool true)) = true /\
    dict_get d "dtype" = None /\ dict_get d "min" = None /\ dict_get d "max" = None /\
    dict_get d "allowed" = None /\ dict_get d "regex" = None /\ dict_get d "unique" = None.
Proof.
  unfold plain_spec, unconstrained, value_keys.
  destruct (py_or spec (PDict [])) as [| | | | | |d]; try discriminate.
  simpl. rewrite !andb_true_iff, !negb_true_iff.
  intros (Hn & H1 & H2 & H3 & H4 & H5 & H6 & _).
  exists d. repeat split; auto using dict_has_false_get.
Qed.

Lemma check_column_plain rt item w :
  plain_spec (snd item) = true -> check_column rt item w = (Ok tt, w).
Proof.
  intros H. destruct (plain_spec_inv _ H) as (d & Hd & Hn & H1 & H2 & H3 & H4 & H5 & H6).
  unfold check_column, bind, get_table, lift. simpl.
  destruct (get_column (w_table w) (fst item)) as [s|]; [|reflexivity].
  rewrite Hd. simpl.
  unfold column_checks, check_nullability, check_dtype, check_range, check_allowed,
    check_regex, check_unique, get_default, dict_has.
  rewrite H1, H2, H3, H4, H5, H6. unfold get_default in Hn. rewrite Hn. reflexivity.
Qed.

Lemma columns_loop_plain rt cols w :
  Forall (fun item => plain_spec (snd item) = true) cols ->
  for_each cols (check_column rt) w = (Ok tt, w).
Proof.
  induction 1 as [|item cols Hitem _ IH]; simpl; [reflexivity|].
  unfold bind. now rewrite (check_column_plain rt item w Hitem).
Qed.

Lemma plain_required_cols cols :
  Forall (fun item => plain_spec (snd item) = true) cols ->
  exists required, required_cols cols = Ok required.
Proof.
  induction 1 as [|[c spec] cols Hitem _ (rs & IH)]; simpl; [eauto|].
  destruct (plain_spec_inv _ Hitem) as (d & Hd & _). simpl in Hd.
  rewrite Hd, IH. simpl. eauto.
Qed.

(** C4, as amended. A schema that declares columns, whose every column spec
    keeps nullable true and has no dtype, min, max, allowed, regex or unique,
    that declares no (truthy) primary key and no (truthy) rules, and whose
    [allow_extra_columns] entry is absent or truthy, validates every table
    holding its required columns as VALID with no issue at all. *)
Theorem plain_schema_validates rt df schema cols :
  declares_columns schema cols ->
  Forall (fun item => plain_spec (snd item) = true) cols ->
  py_truthy (get_default schema "primary_key" PNone) = false ->
  py_truthy (get_default schema "rules" (PList [])) = false ->
  py_truthy (get_default schema "allow_extra_columns" (PBool true)) = true ->
  missing_required df cols = [] ->
  validate rt df schema = (Ok (true, []), df).
Proof.
  intros Hc Hplain Hpk Hrules Hextra Hmiss.
  unfold validate, validate_body. rewrite (declares_columns_or Hc).
  destruct Hc as [_ Hne]. destruct cols as [|item cols']; [contradiction|].
  destruct (plain_required_cols Hplain) as (required & Hreq).
  unfold run_checks, bind at 1 2.
  unfold check_required at 1. unfold bind at 1 2, lift, get_table.
  rewrite Hreq. cbv beta iota zeta.
  unfold w_table at 1.
  rewrite (@required_cols_missing df (item :: cols') required Hreq), Hmiss.
  simpl py_truthy. unfold when at 1, ret at 1. cbv beta iota.
  unfold bind at 1. unfold check_unexpected at 1. rewrite Hextra. simpl negb.
  unfold when at 1, ret at 1. cbv beta iota.
  unfold bind at 1. rewrite (columns_loop_plain rt _ Hplain).
  unfold bind at 1. unfold check_primary_key at 1. rewrite Hpk.
  unfold when at 1, ret at 1. cbv beta iota.
  unfold bind at 1. unfold check_rules at 1. unfold py_or. rewrite Hrules.
  reflexivity.
Qed.

(** ** Schema defects outside [columns] *)

Lemma dict_get_remove_other k k' d :
  k <> k' -> dict_get (dict_remove k d) k' = dict_get d k'.
Proof.
  intros Hne. induction d as [|[k0 v] d IH]; simpl; [reflexivity|].
  destruct (String.eqb_spec k0 k) as [->|Hk0].
  - rewrite IH. destruct (String.eqb_spec k k'); [contradiction|reflexivity].
  - simpl. now rewrite IH.
Qed.

Lemma dict_get_remove_same k d : dict_get (dict_remove k d) k = None.
Proof.
  induction d as [|[k0 v] d IH]; simpl; [reflexivity|].
  destruct (String.eqb_spec k0 k) as [->|Hk0]; [exact IH|].
  simpl. destruct (String.eqb_spec k0 k); [contradiction|exact IH].
Qed.

Lemma run_seq {A B : Type} df (m : M A) (k : A -> M B) a n1 r n2 :
  local_at df m -> (forall x, local_at df (k x)) ->
  run m df = (Ok a, n1) -> run (k a) df = (r, n2) ->
  run (bind m k) df = (r, n1 ++ n2).
Proof.
  intros Hm Hk H1 H2. rewrite run_bind by assumption. now rewrite H1, H2.
Qed.

Lemma run_checks_ok rt df schema cols n1 n2 n3 n4 n5 :
  run (check_required rt cols) df = (Ok tt, n1) ->
  run (check_unexpected rt schema cols) df = (Ok tt, n2) ->
  run (for_each cols (check_column rt)) df = (Ok tt, n3) ->
  run (check_primary_key rt schema) df = (Ok tt, n4) ->
  run (check_rules rt schema) df = (Ok tt, n5) ->
  run (run_checks rt schema cols) df = (Ok tt, n1 ++ n2 ++ n3 ++ n4 ++ n5).
Proof.
  intros H1 H2 H3 H4 H5. unfold run_checks.
  assert (L1 := emits_at_local (check_required_emits rt df cols)).
  assert (L2 := emits_at_local (check_unexpected_emits rt df schema cols)).
  assert (L3 := columns_loop_local rt df cols).
  assert (L4 := emits_at_local (check_primary_key_emits rt df schema)).
  assert (L5 := emits_at_local (check_rules_emits rt df schema)).
  eapply run_seq; [exact L1| |exact H1|].
  { intros _. unfold local_at. repeat emits_step; assumption. }
  eapply run_seq; [exact L2| |exact H2|].
  { intros _. unfold local_at. repeat emits_step; assumption. }
  eapply run_seq; [exact L3| |exact H3|].
  { intros _. unfold local_at. repeat emits_step; assumption. }
  eapply run_seq; [exact L4| |exact H4|exact H5].
  intros _. exact L5.
Qed.

Lemma check_primary_key_run rt df schema n :
  run (check_primary_key rt schema) df = (Ok tt, n) ->
  let pk := get_default schema "primary_key" PNone in
  (py_truthy pk = false -> n = []) /\
  (py_truthy pk = true -> list_of_str pk = false -> n = [primary_key_invalid_issue]).
Proof.
  unfold check_primary_key. cbv zeta.
  destruct (py_truthy (get_default schema "primary_key" PNone)) eqn:Ht; simpl.
  - intros H. split; [discriminate|]. intros _ Hl.
    destruct (get_default schema "primary_key" PNone); simpl in Hl;
      try (injection H as <-; reflexivity).
    rewrite Hl in H. injection H as <-. reflexivity.
  - intros H. split; [|discriminate]. intros _. injection H as <-. reflexivity.
Qed.

Lemma check_rules_run rt df schema rules n :
  dict_get schema "rules" = Some rules -> py_truthy rules = true ->
  (forall rs, rules <> PList rs) ->
  run (check_rules rt schema) df = (Ok tt, n) -> n = [rules_invalid_issue].
Proof.
  intros Hget Ht Hnl. unfold check_rules, get_default, py_or. rewrite Hget, Ht.
  cbv zeta. rewrite Ht. simpl.
  destruct rules; try (intros H; injection H as <-; reflexivity).
  now contradiction (Hnl xs).
Qed.

Lemma in_codes_nothing codes target issues :
  Forall (fun i => In (code i) codes) issues ->
  (forall cd, In cd codes -> ~ In cd target) ->
  filter (in_codes target) issues = [].
Proof.
  intros F Hd. apply filter_nothing. eapply Forall_impl; [|exact F].
  intros i Hi. unfold in_codes.
  destruct (existsb (String.eqb (code i)) target) eqn:E; [|reflexivity].
  apply existsb_exists in E. destruct E as (cd & Hcd & Heq).
  apply String.eqb_eq in Heq. subst cd. now contradiction (Hd _ Hi).
Qed.

Lemma reported_codes codes col issues :
  Forall (reported codes col) issues -> Forall (fun i => In (code i) codes) issues.
Proof. apply Forall_impl. now intros i [Hi _]. Qed.

Lemma column_issue_codes df (cols : pydict) issues :
  Forall (fun i => exists c, In c (keys cols) /\ column_issue df c i) issues ->
  Forall (fun i => In (code i) column_codes) issues.
Proof. apply Forall_impl. now intros i (c & _ & [Hi _] & _). Qed.

Ltac disjoint_codes :=
  unfold primary_key_codes, column_codes, rule_codes; simpl;
  intuition (subst; discriminate).

(** C6, as amended. In a schema that declares columns, a [primary_key] that is
    truthy but is not a list of strings is reported by exactly one ERROR with
    code SCHEMA_PRIMARY_KEY_INVALID, whatever the table holds; a falsy
    [primary_key] (an empty list among them) is taken as absent and no
    primary-key issue of any kind is reported. *)
Theorem invalid_primary_key_reported rt df schema cols v issues df' :
  declares_columns schema cols ->
  validate rt df schema = (Ok (v, issues), df') ->
  let pk := get_default schema "primary_key" PNone in
  (py_truthy pk = true -> list_of_str pk = false ->
   filter (has_code "SCHEMA_PRIMARY_KEY_INVALID") issues = [primary_key_invalid_issue] /\
   level primary_key_invalid_issue = "ERROR"%string) /\
  (py_truthy pk = false -> filter (in_codes primary_key_codes) issues = []).
Proof.
  intros Hc Hv.
  destruct (validate_phases rt df Hc Hv)
    as (_ & _ & n1 & n2 & n3 & n4 & n5 & -> & H1 & H2 & H3 & H4 & H5).
  pose proof (run_forall (check_required_emits rt df cols) H1) as F1.
  pose proof (run_forall (check_unexpected_emits rt df schema cols) H2) as F2.
  pose proof (run_forall (columns_loop_emits rt df cols) H3) as F3.
  apply column_issue_codes in F3.
  pose proof (run_forall (check_rules_emits rt df schema) H5) as F5.
  apply check_primary_key_run in H4. cbv zeta in H4. destruct H4 as [Hfalsy Htruthy].
  cbv zeta. split.
  - intros Ht Hl. split; [|reflexivity]. rewrite (Htruthy Ht Hl), !filter_app.
    rewrite (with_code_nothing _ F1) by not_in_codes.
    rewrite (with_code_nothing _ F2) by not_in_codes.
    rewrite (with_code_nothing _ F5) by not_in_codes.
    rewrite (filter_nothing (has_code "SCHEMA_PRIMARY_KEY_INVALID") (xs := n3)).
    + reflexivity.
    + eapply Forall_impl; [|exact F3]. intros i Hi. unfold has_code.
      destruct (String.eqb_spec (code i) "SCHEMA_PRIMARY_KEY_INVALID") as [E|]; [|reflexivity].
      cbv beta in Hi. rewrite E in Hi. exfalso. revert Hi. disjoint_codes.
  - intros Ht. rewrite (Hfalsy Ht), !filter_app. simpl.
    assert (E1 : filter (in_codes primary_key_codes) n1 = [])
      by (eapply in_codes_nothing; [eapply reported_codes; exact F1 | disjoint_codes]).
    assert (E2 : filter (in_codes primary_key_codes) n2 = [])
      by (eapply in_codes_nothing; [eapply reported_codes; exact F2 | disjoint_codes]).
    assert (E3 : filter (in_codes primary_key_codes) n3 = [])
      by (eapply in_codes_nothing; [exact F3 | disjoint_codes]).
    assert (E5 : filter (in_codes primary_key_codes) n5 = [])
      by (eapply in_codes_nothing; [eapply reported_codes; exact F5 | disjoint_codes]).
    now rewrite E1, E2, E3, E5.
Qed.

Lemma declares_columns_remove_rules schema cols :
  declares_columns schema cols -> declares_columns (dict_remove "rules" schema) cols.
Proof.
  intros [Hget Hne]. split; [|assumption].
  rewrite dict_get_remove_other by discriminate. exact Hget.
Qed.

Lemma get_default_remove_other k k' d dflt :
  k <> k' -> get_default (dict_remove k d) k' dflt = get_default d k' dflt.
Proof. intros H. unfold get_default. now rewrite dict_get_remove_other. Qed.

Lemma check_rules_absent rt schema w :
  dict_get schema "rules" = None -> check_rules rt schema w = (Ok tt, w).
Proof. intros H. unfold check_rules, get_default. rewrite H. reflexivity. Qed.

(** C9, as amended. In a schema that declares columns, a [rules] entry that is
    truthy but is not a list is reported by exactly one ERROR with code
    SCHEMA_RULES_INVALID, no rule is evaluated (no issue carries a rule code),
    and every other check reports what it reports for the schema without
    [rules]. *)
Theorem non_list_rules_reported_once rt df schema cols rules v issues df' :
  declares_columns schema cols ->
  dict_get schema "rules" = Some rules ->
  py_truthy rules = true ->
  (forall rs, rules <> PList rs) ->
  validate rt df schema = (Ok (v, issues), df') ->
  filter (has_code "SCHEMA_RULES_INVALID") issues = [rules_invalid_issue] /\
  level rules_invalid_issue = "ERROR"%string /\
  filter (in_codes rule_codes) issues = [] /\
  exists v0 others,
    validate rt df (dict_remove "rules" schema) = (Ok (v0, others), df) /\
    issues = others ++ [rules_invalid_issue].
Proof.
  intros Hc Hget Ht Hnl Hv.
  destruct (validate_phases rt df Hc Hv)
    as (_ & _ & n1 & n2 & n3 & n4 & n5 & -> & H1 & H2 & H3 & H4 & H5).
  pose proof (run_forall (check_required_emits rt df cols) H1) as F1.
  pose proof (run_forall (check_unexpected_emits rt df schema cols) H2) as F2.
  pose proof (run_forall (columns_loop_emits rt df cols) H3) as F3.
  apply column_issue_codes in F3.
  pose proof (run_forall (check_primary_key_emits rt df schema) H4) as F4.
  eapply check_rules_run in H5; eauto. subst n5.
  split; [|split; [reflexivity|split]].
  - rewrite !filter_app.
    rewrite (with_code_nothing _ F1) by not_in_codes.
    rewrite (with_code_nothing _ F2) by not_in_codes.
    rewrite (with_code_nothing _ F4) by not_in_codes.
    rewrite (filter_nothing (has_code "SCHEMA_RULES_INVALID") (xs := n3)).
    + reflexivity.
    + eapply Forall_impl; [|exact F3]. intros i Hi. unfold has_code.
      destruct (String.eqb_spec (code i) "SCHEMA_RULES_INVALID") as [E|]; [|reflexivity].
      cbv beta in Hi. rewrite E in Hi. exfalso. revert Hi. disjoint_codes.
  - rewrite !filter_app.
    assert (E1 : filter (in_codes rule_codes) n1 = [])
      by (eapply in_codes_nothing; [eapply reported_codes; exact F1 | disjoint_codes]).
    assert (E2 : filter (in_codes rule_codes) n2 = [])
      by (eapply in_codes_nothing; [eapply reported_codes; exact F2 | disjoint_codes]).
    assert (E3 : filter (in_codes rule_codes) n3 = [])
      by (eapply in_codes_nothing; [exact F3 | disjoint_codes]).
    assert (E4 : filter (in_codes rule_codes) n4 = [])
      by (eapply in_codes_nothing; [eapply reported_codes; exact F4 | disjoint_codes]).
    now rewrite E1, E2, E3, E4.
  - exists (negb (existsb is_error (n1 ++ n2 ++ n3 ++ n4))), (n1 ++ n2 ++ n3 ++ n4).
    split; [|now rewrite <- !app_assoc].
    erewrite validate_eq by (apply declares_columns_remove_rules; exact Hc).
    assert (Hrun : run (run_checks rt (dict_remove "rules" schema) cols) df
                   = (Ok tt, n1 ++ n2 ++ n3 ++ n4 ++ [])).
    { apply run_checks_ok; [exact H1| |exact H3| |].
      - unfold check_unexpected in *.
        rewrite get_default_remove_other by discriminate. exact H2.
      - unfold check_primary_key in *.
        rewrite get_default_remove_other by discriminate. exact H4.
      - unfold run. rewrite check_rules_absent by apply dict_get_remove_same. reflexivity. }
    rewrite Hrun, !app_nil_r. reflexivity.
Qed.

(** ** Table rules *)

(** The loop over the rules never raises: every failure is caught inside. *)
Lemma check_rule_returns rt df r : fst (run (check_rule rt r) df) = Ok tt.
Proof.
  unfold check_rule. destruct r; try reflexivity.
  destruct (orb _ _); [reflexivity|].
  unfold run, try_except, eval_rule, bind, get_table, lift. simpl.
  destruct (safe_eval_expr rt df _) as [ok|e]; simpl; [|reflexivity].
  destruct (0 <? _); reflexivity.
Qed.

Lemma check_rule_eval_error rt df rd expr msg :
  get_default rd "expr" PNone = PStr expr ->
  expr <> EmptyString ->
  rt_df_eval rt df expr = EvalRaise msg ->
  run (check_rule rt (PDict rd)) df = (Ok tt, [rule_eval_error_issue expr msg]).
Proof.
  intros Hexpr Hne Heval. unfold check_rule. rewrite Hexpr. simpl.
  destruct (String.eqb_spec expr EmptyString) as [|_]; [contradiction|]. simpl.
  unfold run, try_except, eval_rule, bind, get_table, lift, safe_eval_expr. simpl.
  rewrite Heval. reflexivity.
Qed.

(** C7. When the evaluation of one rule's expression raises, the report holds an
    ERROR with code TABLE_RULE_EVAL_ERROR whose message carries the failure's
    own message, the rules before it and after it are evaluated all the same,
    and the later ones report exactly what they report on their own. *)
Theorem rule_eval_error_keeps_later_rules
    rt df schema cols pre rd post expr msg v issues df' :
  declares_columns schema cols ->
  dict_get schema "rules" = Some (PList (pre ++ PDict rd :: post)) ->
  get_default rd "expr" PNone = PStr expr ->
  expr <> EmptyString ->
  rt_df_eval rt df expr = EvalRaise msg ->
  validate rt df schema = (Ok (v, issues), df') ->
  exists before n_pre n_post,
    issues = before ++ n_pre ++ [rule_eval_error_issue expr msg] ++ n_post /\
    run (for_each pre (check_rule rt)) df = (Ok tt, n_pre) /\
    run (for_each post (check_rule rt)) df = (Ok tt, n_post) /\
    level (rule_eval_error_issue expr msg) = "ERROR"%string /\
    code (rule_eval_error_issue expr msg) = "TABLE_RULE_EVAL_ERROR"%string /\
    message (rule_eval_error_issue expr msg)
    = fstr ["Failed to evaluate rule expr='"; expr; "': "; msg]%string /\
    v = false.
Proof.
  intros Hc Hrules Hexpr Hne Heval Hv.
  destruct (validate_phases rt df Hc Hv)
    as (_ & Hverdict & n1 & n2 & n3 & n4 & n5 & -> & H1 & H2 & H3 & H4 & H5).
  unfold check_rules, get_default in H5. rewrite Hrules in H5.
  assert (Hor : py_or (PList (pre ++ PDict rd :: post)) (PList [])
                = PList (pre ++ PDict rd :: post)) by (destruct pre; reflexivity).
  cbv zeta in H5. rewrite Hor in H5.
  assert (Htruthy : py_truthy (PList (pre ++ PDict rd :: post)) = true)
    by (destruct pre; reflexivity).
  rewrite Htruthy in H5. simpl when in H5.
  assert (Hlocal : forall r, local_at df (check_rule rt r))
    by (intros r; eapply emits_at_local, check_rule_emits).
  apply run_for_each_app in H5; [|exact Hlocal].
  destruct H5 as (n_pre & n_rest & Hpre & Hrest & ->).
  apply run_for_each_cons in Hrest; [|exact Hlocal].
  destruct Hrest as (n_r & n_post & Hr & Hpost & ->).
  rewrite (check_rule_eval_error rt df rd Hexpr Hne Heval) in Hr.
  injection Hr as <-.
  exists (n1 ++ n2 ++ n3 ++ n4), n_pre, n_post.
  repeat split; try assumption.
  - now rewrite <- !app_assoc.
  - rewrite Hverdict, !existsb_app. simpl. now rewrite !orb_true_r.
Qed.

(** ** A column spec that is [None] *)

Lemma dict_get_set_same k v d : dict_get (dict_set k v d) k = Some v.
Proof.
  induction d as [|[k0 v0] d IH]; simpl.
  - now rewrite String.eqb_refl.
  - destruct (String.eqb k0 k) eqn:E; simpl; rewrite E; [reflexivity|exact IH].
Qed.

Lemma dict_get_set_other k k' v d :
  k <> k' -> dict_get (dict_set k v d) k' = dict_get d k'.
Proof.
  intros Hne. induction d as [|[k0 v0] d IH]; simpl.
  - destruct (String.eqb_spec k k'); [contradiction|reflexivity].
  - destruct (String.eqb_spec k0 k) as [->|]; simpl.
    + destruct (String.eqb_spec k k'); [contradiction|reflexivity].
    + now rewrite IH.
Qed.

Lemma bind_ext {A B : Type} (m m' : M A) (k k' : A -> M B) w :
  m w = m' w -> (forall a w1, k a w1 = k' a w1) -> bind m k w = bind m' k' w.
Proof.
  intros Hm Hk. unfold bind. rewrite Hm.
  destruct (m' w) as [[a|e] w1]; [apply Hk|reflexivity].
Qed.

Section NoneSpec.

Variables (pre post : pydict) (col : string).

Lemma required_cols_none_spec :
  required_cols (pre ++ (col, PDict []) :: post)
  = required_cols (pre ++ (col, PNone) :: post).
Proof.
  induction pre as [|[c spec] pre' IH]; simpl.
  - reflexivity.
  - now rewrite IH.
Qed.

Lemma dict_get_none_spec c :
  dict_has (pre ++ (col, PDict []) :: post) c = dict_has (pre ++ (col, PNone) :: post) c.
Proof.
  unfold dict_has.
  induction pre as [|[c0 spec] pre' IH]; simpl.
  - destruct (String.eqb col c); reflexivity.
  - destruct (String.eqb c0 c); [reflexivity|exact IH].
Qed.

Lemma columns_loop_none_spec rt w :
  for_each (pre ++ (col, PDict []) :: post) (check_column rt) w
  = for_each (pre ++ (col, PNone) :: post) (check_column rt) w.
Proof.
  revert w.
  induction pre as [|item pre' IH]; intros w; simpl.
  - reflexivity.
  - apply bind_ext; [reflexivity|]. intros _ w1. apply IH.
Qed.

(** C10. A column whose spec is [None] is validated exactly as if its spec were
    the empty mapping: the two schemas give the same outcome, issue list and
    verdict on every table; the column is not required, and its iteration
    reports nothing and does not fail. *)
Theorem none_spec_is_empty_spec rt df schema :
  dict_get schema "columns" = Some (PDict (pre ++ (col, PNone) :: post)) ->
  validate rt df (dict_set "columns" (PDict (pre ++ (col, PDict []) :: post)) schema)
  = validate rt df schema /\
  spec_required PNone = false /\
  forall w, check_column rt (col, PNone) w = (Ok tt, w).
Proof.
  intros Hget. split; [|split; [reflexivity|intros w; now apply check_column_plain]].
  assert (Hbody : forall w,
    validate_body rt (dict_set "columns" (PDict (pre ++ (col, PDict []) :: post)) schema) w
    = validate_body rt schema w).
  { intros w. unfold validate_body, get_default.
    rewrite dict_get_set_same, Hget.
    assert (E1 : py_or (PDict (pre ++ (col, PDict []) :: post)) (PDict [])
                 = PDict (pre ++ (col, PDict []) :: post))
      by (destruct pre; reflexivity).
    assert (E2 : py_or (PDict (pre ++ (col, PNone) :: post)) (PDict [])
                 = PDict (pre ++ (col, PNone) :: post))
      by (destruct pre; reflexivity).
    rewrite E1, E2.
    assert (Hchecks : forall w0,
      run_checks rt (dict_set "columns" (PDict (pre ++ (col, PDict []) :: post)) schema)
        (pre ++ (col, PDict []) :: post) w0
      = run_checks rt schema (pre ++ (col, PNone) :: post) w0).
    { intros w0. unfold run_checks.
      apply bind_ext.
      { unfold check_required. now rewrite required_cols_none_spec. }
      intros _ w1. apply bind_ext.
      { unfold check_unexpected, get_default.
        rewrite dict_get_set_other by discriminate.
        destruct (negb _); [|reflexivity]. simpl.
        unfold bind, get_table.
        rewrite (filter_ext _ (fun c => negb (dict_has (pre ++ (col, PNone) :: post) c)));
          [reflexivity|].
        intros c. now rewrite dict_get_none_spec. }
      intros _ w2. apply bind_ext; [apply columns_loop_none_spec|].
      intros _ w3. apply bind_ext.
      { unfold check_primary_key, get_default.
        now rewrite dict_get_set_other by discriminate. }
      intros _ w4. unfold check_rules, get_default.
      now rewrite dict_get_set_other by discriminate. }
    destruct pre as [|item pre']; simpl app in *;
      (apply bind_ext; [apply Hchecks|reflexivity]). }
  unfold validate. now rewrite Hbody.
Qed.

End NoneSpec.

(** ** Range checks *)

Lemma select_map_filter {A : Type} (f : A -> bool) (xs : list A) :
  select (map f xs) xs = filter f xs.
Proof.
  induction xs as [|x xs IH]; simpl; [reflexivity|].
  destruct (f x); now rewrite IH.
Qed.

Lemma when_nonempty {A : Type} (bad : list A) (m : M unit) :
  when (0 <? len bad) m = match bad with [] => ret tt | _ => m end.
Proof. destruct bad; reflexivity. Qed.

Lemma check_range_run rt df col s spec n :
  run (check_range rt col s spec) df = (Ok tt, n) ->
  exists nmin nmax, n = nmin ++ nmax /\
    match dict_get spec "min" with
    | Some v =>
        exists num mn, rt_to_numeric rt s = Ok num /\ py_float rt v = Ok mn /\
          nmin = bound_issues rt "MIN_VIOLATION" "< min(" num_ltb col (dropna num) mn
    | None => nmin = []
    end /\
    match dict_get spec "max" with
    | Some v =>
        exists num mx, rt_to_numeric rt s = Ok num /\ py_float rt v = Ok mx /\
          nmax = bound_issues rt "MAX_VIOLATION" "> max(" num_gtb col (dropna num) mx
    | None => nmax = []
    end.
Proof.
  unfold check_range, dict_has, bound_issues.
  destruct (dict_get spec "min") as [vmin|] eqn:Hmin;
    destruct (dict_get spec "max") as [vmax|] eqn:Hmax; simpl;
    unfold run, bind, lift; simpl.
  4: { intros H. injection H as <-. exists [], []. auto. }
  all: destruct (rt_to_numeric rt s) as [num|e]; simpl; [|discriminate].
  all: intros H.
  all: repeat match type of H with
       | context [py_float ?r ?v] =>
           destruct (py_float r v) eqn:?; simpl in H;
           rewrite ?select_map_filter, ?when_nonempty in H
       | context [filter ?f (dropna ?xs)] =>
           destruct (filter f (dropna xs)) eqn:?; simpl in H
       end.
  all: try discriminate H.
  all: injection H as <-.
  all: repeat match goal with
       | |- exists _, _ => eexists
       | |- _ /\ _ => split
       end.
  all: try reflexivity.
  all: repeat match goal with
       | E : filter _ _ = _ |- _ => rewrite E
       end.
  all: try reflexivity.
Qed.

Lemma check_column_present rt df col spec0 spec s :
  get_column df col = Some s ->
  py_or spec0 (PDict []) = PDict spec ->
  run (check_column rt (col, spec0)) df = run (column_checks rt col s spec) df.
Proof.
  intros Hcol Hspec. unfold run, check_column, bind, get_table, lift. simpl.
  rewrite Hcol, Hspec. reflexivity.
Qed.

Lemma column_checks_run rt df col s spec n :
  run (column_checks rt col s spec) df = (Ok tt, n) ->
  exists b1 b2 b3 b4 b5 b6,
    n = b1 ++ b2 ++ b3 ++ b4 ++ b5 ++ b6 /\
    Forall (reported ["NULLS_NOT_ALLOWED"%string] (Some col)) b1 /\
    Forall (reported ["DTYPE_MISMATCH"; "DTYPE_INTLIKE_FLOAT"]%string (Some col)) b2 /\
    run (check_range rt col s spec) df = (Ok tt, b3) /\
    Forall (reported ["ALLOWED_SET_VIOLATION"%string] (Some col)) b4 /\
    Forall (reported ["REGEX_VIOLATION"%string] (Some col)) b5 /\
    Forall (reported ["UNIQUE_VIOLATION"%string] (Some col)) b6.
Proof.
  unfold column_checks. cbv zeta. intros H.
  set (nullable := py_truthy (get_default spec "nullable" (PBool true))) in *.
  set (expected := get_default spec "dtype" PNone) in *.
  assert (L1 := check_nullability_emits rt df col s nullable).
  assert (L2 := check_dtype_emits rt df col s expected).
  assert (L3 := check_range_emits rt df col s spec).
  assert (L4 := check_allowed_emits rt df col s spec).
  assert (L5 := check_regex_emits rt df col s spec).
  assert (L6 := check_unique_emits rt df col s spec).
  apply run_bind_ok in H;
    [|eapply emits_at_local; exact L1
     |intros _; unfold local_at; repeat emits_step; eapply emits_at_local; eassumption].
  destruct H as ([] & b1 & r1 & H1 & H & ->).
  apply run_bind_ok in H;
    [|eapply emits_at_local; exact L2
     |intros _; unfold local_at; repeat emits_step; eapply emits_at_local; eassumption].
  destruct H as ([] & b2 & r2 & H2 & H & ->).
  apply run_bind_ok in H;
    [|eapply emits_at_local; exact L3
     |intros _; unfold local_at; repeat emits_step; eapply emits_at_local; eassumption].
  destruct H as ([] & b3 & r3 & H3 & H & ->).
  apply run_bind_ok in H;
    [|eapply emits_at_local; exact L4
     |intros _; unfold local_at; repeat emits_step; eapply emits_at_local; eassumption].
  destruct H as ([] & b4 & r4 & H4 & H & ->).
  apply run_bind_ok in H;
    [|eapply emits_at_local; exact L5|intros _; eapply emits_at_local; exact L6].
  destruct H as ([] & b5 & b6 & H5 & H6 & ->).
  exists b1, b2, b3, b4, b5, b6.
  repeat split; try assumption; eapply run_forall; eassumption.
Qed.

Lemma on_column_none codes col issues :
  Forall (reported codes None) issues ->
  forall cd, filter (fun i => andb (has_code cd i) (on_column col i)) issues = [].
Proof.
  intros F cd. apply filter_nothing. eapply Forall_impl; [|exact F].
  intros i [_ Hnone]. unfold on_column. rewrite Hnone. apply andb_false_r.
Qed.

Lemma on_column_other df (items : pydict) col issues :
  ~ In col (keys items) ->
  Forall (fun i => exists c, In c (keys items) /\ column_issue df c i) issues ->
  forall cd, filter (fun i => andb (has_code cd i) (on_column col i)) issues = [].
Proof.
  intros Hnot F cd. apply filter_nothing. eapply Forall_impl; [|exact F].
  intros i (c & Hin & [[_ Hcol] _]). unfold on_column. rewrite Hcol.
  destruct (String.eqb_spec c col) as [->|]; [contradiction|apply andb_false_r].
Qed.

Lemma other_code_on_column codes col cd issues :
  Forall (reported codes (Some col)) issues -> ~ In cd codes ->
  filter (fun i => andb (has_code cd i) (on_column col i)) issues = [].
Proof.
  intros F Hnot. apply filter_nothing. eapply Forall_impl; [|exact F].
  intros i Hi. now rewrite (reported_other_code cd Hi Hnot).
Qed.

Lemma bound_issues_report rt cd rel out col valid bound other :
  (forall i, In i other -> andb (has_code cd i) (on_column col i) = false) ->
  range_report cd col (filter (fun x => out x bound) valid)
    (bound_issues rt cd rel out col valid bound ++ other) /\
  range_report cd col (filter (fun x => out x bound) valid)
    (other ++ bound_issues rt cd rel out col valid bound).
Proof.
  intros Hother.
  assert (Eo : filter (fun i => andb (has_code cd i) (on_column col i)) other = []).
  { apply filter_nothing. now apply Forall_forall. }
  unfold range_report, bound_issues. cbv zeta. rewrite !filter_app, Eo.
  destruct (filter (fun x => out x bound) valid) as [|b bad] eqn:Eb.
  - split; reflexivity.
  - assert (Hsel : andb (has_code cd (range_issue rt cd col (b :: bad) rel bound))
                        (on_column col (range_issue rt cd col (b :: bad) rel bound)) = true).
    { unfold has_code, on_column, range_issue, mk_issue. cbn [code column].
      now rewrite !String.eqb_refl. }
    cbn [filter app]. rewrite Hsel. cbn [app].
    split; eexists; (split; [reflexivity|]); repeat split;
      unfold head; apply firstn_le_length.
Qed.

Lemma range_issues_of_column rt df schema cols col spec0 spec s v issues df' :
  declares_columns schema cols ->
  NoDup (keys cols) ->
  In (col, spec0) cols ->
  py_or spec0 (PDict []) = PDict spec ->
  get_column df col = Some s ->
  validate rt df schema = (Ok (v, issues), df') ->
  exists b3,
    run (check_range rt col s spec) df = (Ok tt, b3) /\
    forall cd, In cd ["MIN_VIOLATION"; "MAX_VIOLATION"]%string ->
      filter (fun i => andb (has_code cd i) (on_column col i)) issues
      = filter (fun i => andb (has_code cd i) (on_column col i)) b3.
Proof.
  intros Hc Hnodup Hin Hspec Hcol Hv.
  destruct (validate_phases rt df Hc Hv)
    as (_ & _ & n1 & n2 & n3 & n4 & n5 & -> & H1 & H2 & H3 & H4 & H5).
  pose proof (run_forall (check_required_emits rt df cols) H1) as F1.
  pose proof (run_forall (check_unexpected_emits rt df schema cols) H2) as F2.
  pose proof (run_forall (check_primary_key_emits rt df schema) H4) as F4.
  pose proof (run_forall (check_rules_emits rt df schema) H5) as F5.
  destruct (in_split _ _ Hin) as (pre & post & ->).
  assert (Hpre : ~ In col (keys pre) /\ ~ In col (keys post)).
  { unfold keys in *. rewrite map_app in Hnodup. simpl in Hnodup.
    apply NoDup_remove_2 in Hnodup. rewrite in_app_iff in Hnodup. tauto. }
  destruct Hpre as [Hpre Hpost].
  apply run_for_each_app in H3; [|apply check_column_local].
  destruct H3 as (a & rest & Ha & Hrest & ->).
  apply run_for_each_cons in Hrest; [|apply check_column_local].
  destruct Hrest as (b & c & Hb & Hc' & ->).
  pose proof (run_forall (columns_loop_emits rt df pre) Ha) as Fa.
  pose proof (run_forall (columns_loop_emits rt df post) Hc') as Fc.
  rewrite (check_column_present rt df col spec0 Hcol Hspec) in Hb.
  apply column_checks_run in Hb.
  destruct Hb as (b1 & b2 & b3 & b4 & b5 & b6 & -> & G1 & G2 & G3 & G4 & G5 & G6).
  exists b3. split; [exact G3|].
  intros cd Hcd.
  assert (Hcd' : cd = "MIN_VIOLATION"%string \/ cd = "MAX_VIOLATION"%string)
    by (destruct Hcd as [<-|[<-|[]]]; auto).
  set (sel := fun i => andb (has_code cd i) (on_column col i)).
  assert (E1 : filter sel n1 = []) by (eapply on_column_none; exact F1).
  assert (E2 : filter sel n2 = []) by (eapply on_column_none; exact F2).
  assert (E4 : filter sel n4 = []) by (eapply on_column_none; exact F4).
  assert (E5 : filter sel n5 = []) by (eapply on_column_none; exact F5).
  assert (Ea : filter sel a = []) by (eapply on_column_other; [exact Hpre|exact Fa]).
  assert (Ec : filter sel c = []) by (eapply on_column_other; [exact Hpost|exact Fc]).
  assert (B1 : filter sel b1 = [])
    by (eapply other_code_on_column; [exact G1|simpl; intuition (subst; discriminate)]).
  assert (B2 : filter sel b2 = [])
    by (eapply other_code_on_column; [exact G2|simpl; intuition (subst; discriminate)]).
  assert (B4 : filter sel b4 = [])
    by (eapply other_code_on_column; [exact G4|simpl; intuition (subst; discriminate)]).
  assert (B5 : filter sel b5 = [])
    by (eapply other_code_on_column; [exact G5|simpl; intuition (subst; discriminate)]).
  assert (B6 : filter sel b6 = [])
    by (eapply other_code_on_column; [exact G6|simpl; intuition (subst; discriminate)]).
  rewrite !filter_app, E1, E2, E4, E5, Ea, Ec, B1, B2, B4, B5, B6.
  simpl. rewrite !app_nil_r. reflexivity.
Qed.


(** * Concrete runs *)

(** Witness of C1: a schema with rules but no [columns] entry. *)
Lemma validate_rejects_schema_without_columns_witness :
  no_columns [("rules"%string, PList [flag_rule])] /\
  exists i,
    validate Ref.runtime flags [("rules"%string, PList [flag_rule])]
    = (Ok (false, [i]), flags) /\
    level i = "ERROR"%string /\ code i = "SCHEMA_NO_COLUMNS"%string.
Proof.
  split; [left; reflexivity|].
  apply validate_rejects_schema_without_columns. left. reflexivity.
Defined.

(** Witness of C2: the table lacks the required column [onset]. *)
Lemma missing_required_columns_reported_once_witness :
  missing_required flags required_columns = ["onset"%string] /\
  exists v issues df',
    validate Ref.runtime flags [("columns"%string, PDict required_columns)]
    = (Ok (v, issues), df') /\
    (exists i,
       filter (has_code "MISSING_REQUIRED_COLUMNS") issues = [i] /\
       level i = "ERROR"%string /\
       examples i = Some (map PStr (missing_required flags required_columns)) /\
       n_rows i = Some (len (missing_required flags required_columns))) /\
    (forall c i, In c (keys required_columns) -> has_column flags c = false ->
                 In i issues -> column i <> Some c).
Proof.
  split; [reflexivity|].
  eexists. eexists. eexists. split; [vm_compute; reflexivity|].
  eapply (@missing_required_columns_reported_once Ref.runtime flags
            [("columns"%string, PDict required_columns)] required_columns).
  - split; [reflexivity|discriminate].
  - discriminate.
  - vm_compute. reflexivity.
Defined.

(** C3. On a table whose column [flag] holds True, NaN and False, the rule
    [flag] is reported with [n_rows] 1: the cast to [bool] that precedes
    [fillna(False)] turns the missing outcome into True, so that row is counted
    as a pass and only the False row is a violation. *)
Theorem missing_rule_outcome_counted_as_pass :
  rt_df_eval Ref.runtime flags "flag"
  = EvalSeries {| dtype := "object"; values := [PBool true; PFloat nan; PBool false] |} /\
  map is_null [PBool true; PFloat nan; PBool false] = [false; true; false] /\
  validate Ref.runtime flags flag_rule_schema = (Ok (false, [flag_rule_issue]), flags).
Proof. repeat split; vm_compute; reflexivity. Qed.

(** Counterexample to C4 as stated: a column spec with nullable true and no
    min, max, allowed, regex or unique, on a table that has the column, still
    fails on its dtype. *)
Lemma dtype_defeats_unconstrained_schema :
  declares_columns typed_schema typed_columns /\
  forallb (fun item => unconstrained value_keys (snd item)) typed_columns = true /\
  missing_required flags typed_columns = [] /\
  validate Ref.runtime flags typed_schema
  = (Ok (false, [dtype_mismatch "flag" ["dtype=int but got "; "object"; "."]%string]), flags).
Proof.
  split; [split; [reflexivity|discriminate]|].
  repeat split; vm_compute; reflexivity.
Qed.

(** Witness of C4 as amended. *)
Lemma plain_schema_validates_witness :
  validate Ref.runtime flags [("columns"%string, PDict [("flag"%string, PNone)])]
  = (Ok (true, []), flags).
Proof.
  apply (@plain_schema_validates Ref.runtime flags
           [("columns"%string, PDict [("flag"%string, PNone)])] [("flag"%string, PNone)]).
  - split; [reflexivity|discriminate].
  - repeat constructor.
  - reflexivity.
  - reflexivity.
  - reflexivity.
  - reflexivity.
Defined.


(** Counterexample to C6 as stated: an empty [primary_key] sequence is present
    and is not a non-empty sequence of strings, yet nothing is reported. *)
Lemma empty_primary_key_is_not_reported :
  dict_get (keyed_schema (PList [])) "primary_key" = Some (PList []) /\
  validate Ref.runtime flags (keyed_schema (PList [])) = (Ok (true, []), flags) /\
  filter (has_code "SCHEMA_PRIMARY_KEY_INVALID") [] = [].
Proof. repeat split; vm_compute; reflexivity. Qed.

(** Witness of C6 as amended: a string where the list of names should be. *)
Lemma invalid_primary_key_reported_witness :
  validate Ref.runtime flags (keyed_schema (PStr "flag"))
  = (Ok (false, [primary_key_invalid_issue]), flags) /\
  filter (has_code "SCHEMA_PRIMARY_KEY_INVALID") [primary_key_invalid_issue]
  = [primary_key_invalid_issue] /\
  level primary_key_invalid_issue = "ERROR"%string.
Proof.
  assert (Hrun : validate Ref.runtime flags (keyed_schema (PStr "flag"))
                 = (Ok (false, [primary_key_invalid_issue]), flags))
    by (vm_compute; reflexivity).
  split; [exact Hrun|].
  assert (Hc : declares_columns (keyed_schema (PStr "flag")) [("flag"%string, PDict [])])
    by (split; [reflexivity|discriminate]).
  exact (proj1 (@invalid_primary_key_reported Ref.runtime flags (keyed_schema (PStr "flag"))
                  [("flag"%string, PDict [])] false [primary_key_invalid_issue] flags Hc Hrun)
           eq_refl eq_refl).
Defined.

(** Witness of C7: the first rule names an unknown column, the second one is
    still evaluated and reports its violation. *)
Lemma rule_eval_error_keeps_later_rules_witness :
  exists v issues before n_pre n_post,
    validate Ref.runtime flags (ruled_schema (PList [PDict broken_rule; flag_rule]))
    = (Ok (v, issues), flags) /\
    issues = before ++ n_pre
             ++ [rule_eval_error_issue "nope" "name 'nope' is not defined"] ++ n_post /\
    run (for_each [] (check_rule Ref.runtime)) flags = (Ok tt, n_pre) /\
    run (for_each [flag_rule] (check_rule Ref.runtime)) flags = (Ok tt, n_post) /\
    n_post = [flag_rule_issue] /\
    v = false.
Proof.
  assert (Hrun : validate Ref.runtime flags (ruled_schema (PList [PDict broken_rule; flag_rule]))
                 = (Ok (false, [rule_eval_error_issue "nope" "name 'nope' is not defined";
                                flag_rule_issue]), flags))
    by (vm_compute; reflexivity).
  assert (Hc : declares_columns (ruled_schema (PList [PDict broken_rule; flag_rule]))
                 [("flag"%string, PDict [])])
    by (split; [reflexivity|discriminate]).
  assert (Hne : "nope"%string <> EmptyString) by discriminate.
  destruct (@rule_eval_error_keeps_later_rules Ref.runtime flags
              (ruled_schema (PList [PDict broken_rule; flag_rule]))
              [("flag"%string, PDict [])] [] broken_rule [flag_rule] "nope"%string
              "name 'nope' is not defined"%string false _ flags
              Hc eq_refl eq_refl Hne eq_refl Hrun)
    as (before & n_pre & n_post & Hissues & Hpre & Hpost & _ & _ & _ & Hv).
  exists false, [rule_eval_error_issue "nope" "name 'nope' is not defined"; flag_rule_issue],
    before, n_pre, n_post.
  repeat split; try assumption.
  vm_compute in Hpost. now injection Hpost as <-.
Defined.

(** Counterexample to C9 as stated: [rules] is a string, but the schema declares
    no columns, so the only issue is SCHEMA_NO_COLUMNS. *)
Lemma non_list_rules_without_columns_not_reported :
  dict_get [("rules"%string, PStr "flag")] "rules" = Some (PStr "flag") /\
  py_truthy (PStr "flag") = true /\
  validate Ref.runtime flags [("rules"%string, PStr "flag")]
  = (Ok (false, [no_columns_issue]), flags) /\
  filter (has_code "SCHEMA_RULES_INVALID") [no_columns_issue] = [].
Proof. repeat split; vm_compute; reflexivity. Qed.

(** Witness of C9 as amended. *)
Lemma non_list_rules_reported_once_witness :
  validate Ref.runtime flags (ruled_schema (PStr "flag"))
  = (Ok (false, [rules_invalid_issue]), flags) /\
  filter (has_code "SCHEMA_RULES_INVALID") [rules_invalid_issue] = [rules_invalid_issue] /\
  level rules_invalid_issue = "ERROR"%string /\
  filter (in_codes rule_codes) [rules_invalid_issue] = [] /\
  exists v0 others,
    validate Ref.runtime flags (dict_remove "rules" (ruled_schema (PStr "flag")))
    = (Ok (v0, others), flags) /\
    [rules_invalid_issue] = others ++ [rules_invalid_issue].
Proof.
  assert (Hrun : validate Ref.runtime flags (ruled_schema (PStr "flag"))
                 = (Ok (false, [rules_invalid_issue]), flags))
    by (vm_compute; reflexivity).
  split; [exact Hrun|].
  assert (Hc : declares_columns (ruled_schema (PStr "flag")) [("flag"%string, PDict [])])
    by (split; [reflexivity|discriminate]).
  assert (Hnl : forall rs, PStr "flag" <> PList rs) by discriminate.
  exact (@non_list_rules_reported_once Ref.runtime flags (ruled_schema (PStr "flag"))
           [("flag"%string, PDict [])] (PStr "flag") false [rules_invalid_issue] flags
           Hc eq_refl eq_refl Hnl Hrun).
Defined.

(** Witness of C10: the column [flag] with spec [None]. *)
Lemma none_spec_is_empty_spec_witness :
  validate Ref.runtime flags
    (dict_set "columns" (PDict ([] ++ ("flag"%string, PDict []) :: []))
       [("columns"%string, PDict [("flag"%string, PNone)])])
  = validate Ref.runtime flags [("columns"%string, PDict [("flag"%string, PNone)])] /\
  spec_required PNone = false /\
  forall w, check_column Ref.runtime ("flag"%string, PNone) w = (Ok tt, w).
Proof.
  exact (@none_spec_is_empty_spec [] [] "flag"%string Ref.runtime flags
           [("columns"%string, PDict [("flag"%string, PNone)])] eq_refl).
Defined.

(** * Further runs of the reference instance *)

(** Both rows that share the key 1 are counted, and the null name is reported. *)
Example duplicate_key_and_null_reported :
  validate Ref.runtime ids ids_schema
  = (Ok (false,
         [mk_issue "ERROR" "NULLS_NOT_ALLOWED"
            "Column 'name' contains 1 nulls but nullable=false."
            (Some "name"%string) (Some 1) (Some [PNone]);
          mk_issue "ERROR" "PRIMARY_KEY_NOT_UNIQUE"
            "Primary key ['id'] is not unique; 2 rows are duplicates."
            None (Some 2)
            (Some [PDict [("id"%string, PInt 1)]; PDict [("id"%string, PInt 1)]])]),
     ids).
Proof. vm_compute. reflexivity. Qed.

(** A warning alone leaves the verdict valid. *)
Example extra_column_only_warns :
  validate Ref.runtime ids
    [("columns"%string, PDict [("id"%string, PNone)]);
     ("allow_extra_columns"%string, PBool false)]
  = (Ok (true,
         [mk_issue "WARN" "UNEXPECTED_COLUMNS"
            "Unexpected columns found (schema disallows extras): ['name']"
            None (Some 1) (Some [PStr "name"])]),
     ids).
Proof. vm_compute. reflexivity. Qed.

(** A column spec that is not a mapping makes [validate] raise. *)
Example non_mapping_spec_raises :
  validate Ref.runtime ids [("columns"%string, PDict [("id"%string, PStr "int")])]
  = (Raise (AttributeError "'str' object has no attribute 'get'"), ids).
Proof. vm_compute. reflexivity. Qed.

(** * Further properties of the code *)

(** ** The helpers *)

(** X1. [_normalize_dtype_name] is idempotent and never answers "object": a
    normalised name is one of int, float, string, datetime, bool, or a name it
    leaves alone. *)
Theorem normalize_dtype_name_idempotent (s : string) :
  normalize_dtype_name (normalize_dtype_name s) = normalize_dtype_name s /\
  normalize_dtype_name s <> "object"%string.
Proof.
  unfold normalize_dtype_name at 2 3 4.
  destruct (String.prefix "int" s) eqn:E1; [split; [reflexivity|discriminate]|].
  destruct (String.prefix "float" s) eqn:E2; [split; [reflexivity|discriminate]|].
  destruct (orb (String.eqb s "object") (String.eqb s "string")) eqn:E3;
    [split; [reflexivity|discriminate]|].
  destruct (String.prefix "datetime" s) eqn:E4; [split; [reflexivity|discriminate]|].
  destruct (String.eqb s "bool") eqn:E5; [split; [reflexivity|discriminate]|].
  split.
  - unfold normalize_dtype_name. now rewrite E1, E2, E3, E4, E5.
  - apply orb_false_elim in E3. destruct E3 as [E3 _].
    now apply String.eqb_neq in E3.
Qed.

(** X2. [_coerce_string_series] keeps the length and the null mask of the
    column, leaves every non-null cell a [str], and is idempotent. *)
Theorem coerce_string_series_keeps_nulls (rt : Runtime) (vals : list pyobj) :
  List.length (coerce_string_series rt vals) = List.length vals /\
  isna (coerce_string_series rt vals) = isna vals /\
  Forall (fun v => is_null v = false -> is_str v = true) (coerce_string_series rt vals) /\
  coerce_string_series rt (coerce_string_series rt vals) = coerce_string_series rt vals.
Proof.
  unfold coerce_string_series, isna. induction vals as [|v vals (IH1 & IH2 & IH3 & IH4)].
  - repeat split. constructor.
  - simpl. rewrite IH1, IH2, IH4. repeat split.
    + destruct (is_null v) eqn:E; [now rewrite E|reflexivity].
    + constructor; [|exact IH3]. destruct (is_null v) eqn:E; [congruence|reflexivity].
    + destruct (is_null v) eqn:E; [now rewrite E|reflexivity].
Qed.


(** ** Invariants of the report *)

Lemma columns_or_not (schema : pydict) :
  (exists cols, declares_columns schema cols) \/ no_columns schema.
Proof.
  unfold declares_columns, no_columns.
  destruct (dict_get schema "columns") as [v|]; [|auto].
  destruct v as [| | | | | |d];
    try (right; right; left; eexists; split; [reflexivity|discriminate]).
  destruct d as [|item d]; [auto|].
  left. eexists. split; [reflexivity|discriminate].
Qed.

Lemma validate_verdict rt df schema v issues df' :
  validate rt df schema = (Ok (v, issues), df') -> v = negb (existsb is_error issues).
Proof.
  intros Hv. destruct (columns_or_not schema) as [(cols & Hc)|Hno].
  - now destruct (validate_phases rt df Hc Hv) as (_ & Hverdict & _).
  - rewrite (validate_no_columns rt df Hno) in Hv. injection Hv as <- <- _. reflexivity.
Qed.

(** X4. Whatever the schema, the verdict of a run that returns is valid exactly
    when no issue of its report has level ERROR; warnings never change it. *)
Theorem verdict_valid_iff_no_error rt df schema v issues df' :
  validate rt df schema = (Ok (v, issues), df') ->
  (v = true <-> Forall (fun i => level i <> "ERROR"%string) issues).
Proof.
  intros Hv. rewrite (validate_verdict _ _ _ Hv), negb_true_iff.
  rewrite Forall_forall. split.
  - intros Hnone i Hin Hlevel.
    assert (existsb is_error issues = true); [|congruence].
    apply existsb_exists. exists i. split; [exact Hin|].
    unfold is_error. now rewrite Hlevel.
  - intros Hall. destruct (existsb is_error issues) eqn:E; [|reflexivity].
    apply existsb_exists in E. destruct E as (i & Hin & Herr).
    unfold is_error in Herr. apply String.eqb_eq in Herr. now contradiction (Hall i Hin).
Qed.

(** Witness of X4: a report that holds a warning only. *)
Lemma verdict_valid_iff_no_error_witness :
  validate Ref.runtime ids
    [("columns"%string, PDict [("id"%string, PNone)]);
     ("allow_extra_columns"%string, PBool false)]
  = (Ok (true,
         [mk_issue "WARN" "UNEXPECTED_COLUMNS"
            "Unexpected columns found (schema disallows extras): ['name']"
            None (Some 1) (Some [PStr "name"])]),
     ids) /\
  (true = true <->
   Forall (fun i => level i <> "ERROR"%string)
     [mk_issue "WARN" "UNEXPECTED_COLUMNS"
        "Unexpected columns found (schema disallows extras): ['name']"
        None (Some 1) (Some [PStr "name"])]).
Proof.
  assert (Hrun : validate Ref.runtime ids
                   [("columns"%string, PDict [("id"%string, PNone)]);
                    ("allow_extra_columns"%string, PBool false)]
                 = (Ok (true,
                        [mk_issue "WARN" "UNEXPECTED_COLUMNS"
                           "Unexpected columns found (schema disallows extras): ['name']"
                           None (Some 1) (Some [PStr "name"])]),
                    ids))
    by (vm_compute; reflexivity).
  split; [exact Hrun|].
  exact (@verdict_valid_iff_no_error Ref.runtime ids _ true _ ids Hrun).
Defined.

Ltac kind_goal :=
  unfold known_kind, has_column_field, dtype_mismatch, range_issue, mk_issue,
    no_columns_issue; cbn [level code column];
  unfold issue_kinds; repeat (first [left; reflexivity | right]).

Section Kinds.

Variable rt : Runtime.
Variable df : DataFrame.

Lemma check_column_kinds item : emits_at df known_kind (check_column rt item).
Proof.
  unfold check_column, column_checks, check_nullability, check_dtype, check_range,
    check_allowed, check_regex, check_unique.
  repeat emits_step; kind_goal.
Qed.

Lemma check_rule_kinds r : emits_at df known_kind (check_rule rt r).
Proof. unfold check_rule, eval_rule. repeat emits_step; kind_goal. Qed.

Lemma run_checks_kinds schema cols : emits_at df known_kind (run_checks rt schema cols).
Proof.
  unfold run_checks. repeat emits_step.
  - unfold check_required. repeat emits_step; kind_goal.
  - unfold check_unexpected. repeat emits_step; kind_goal.
  - apply emits_at_for_each. intros item _. apply check_column_kinds.
  - unfold check_primary_key. repeat emits_step; kind_goal.
  - unfold check_rules. cbv zeta. emits_step.
    destruct (py_or _ _); try solve [repeat emits_step; kind_goal].
    apply emits_at_for_each. intros r _. apply check_rule_kinds.
Qed.

End Kinds.

(** X5. Every issue [validate] reports is of one of the nineteen kinds of the
    code: its level is WARN for UNEXPECTED_COLUMNS and DTYPE_INTLIKE_FLOAT and
    ERROR for every other code, and it names a column exactly when its code is
    one of the eight per-column codes. *)
Theorem issues_are_of_known_kinds rt df schema :
  Forall known_kind (issues_of (validate rt df schema)).
Proof.
  unfold issues_of. destruct (columns_or_not schema) as [(cols & Hc)|Hno].
  - rewrite (validate_eq rt df Hc). cbn [fst].
    destruct (run (run_checks rt schema cols) df) as [[[]|e] n] eqn:Hrun; [|constructor].
    eapply run_forall; [apply run_checks_kinds|exact Hrun].
  - rewrite (validate_no_columns rt df Hno). cbn [fst]. constructor; [kind_goal|constructor].
Qed.

(** ** What raises and what does not *)

Lemma rules_loop_returns rt df rs : fst (run (for_each rs (check_rule rt)) df) = Ok tt.
Proof.
  induction rs as [|r rs IH]; [reflexivity|]. cbn [for_each].
  rewrite run_bind;
    [|eapply emits_at_local, check_rule_emits
     |intros _; apply local_at_for_each; intros x; eapply emits_at_local, check_rule_emits].
  pose proof (check_rule_returns rt df r) as Hr.
  destruct (run (check_rule rt r) df) as [[[]|e] n]; simpl in *; [exact IH|discriminate].
Qed.

Lemma check_rules_returns rt df schema : fst (run (check_rules rt schema) df) = Ok tt.
Proof.
  unfold check_rules. cbv zeta.
  destruct (py_truthy _); [|reflexivity]. simpl.
  destruct (py_or _ _); try reflexivity. apply rules_loop_returns.
Qed.

Lemma run_checks_outcome rt df schema cols :
  fst (run (run_checks rt schema cols) df) =
  match fst (run (check_required rt cols) df) with
  | Raise e => Raise e
  | Ok _ =>
      match fst (run (check_unexpected rt schema cols) df) with
      | Raise e => Raise e
      | Ok _ =>
          match fst (run (for_each cols (check_column rt)) df) with
          | Raise e => Raise e
          | Ok _ => fst (run (check_primary_key rt schema) df)
          end
      end
  end.
Proof.
  assert (L1 := emits_at_local (check_required_emits rt df cols)).
  assert (L2 := emits_at_local (check_unexpected_emits rt df schema cols)).
  assert (L3 := columns_loop_local rt df cols).
  assert (L4 := emits_at_local (check_primary_key_emits rt df schema)).
  assert (L5 := emits_at_local (check_rules_emits rt df schema)).
  unfold run_checks.
  rewrite run_bind; [|exact L1|intros _; unfold local_at; repeat emits_step; assumption].
  destruct (run (check_required rt cols) df) as [[[]|e] n1]; [|reflexivity]. cbn [fst].
  rewrite run_bind; [|exact L2|intros _; unfold local_at; repeat emits_step; assumption].
  destruct (run (check_unexpected rt schema cols) df) as [[[]|e] n2]; [|reflexivity]. cbn [fst].
  rewrite run_bind; [|exact L3|intros _; unfold local_at; repeat emits_step; assumption].
  destruct (run (for_each cols (check_column rt)) df) as [[[]|e] n3]; [|reflexivity]. cbn [fst].
  rewrite run_bind; [|exact L4|intros _; exact L5].
  pose proof (check_rules_returns rt df schema) as H5.
  destruct (run (check_primary_key rt schema) df) as [[[]|e] n4]; [|reflexivity]. cbn [fst].
  exact H5.
Qed.

Lemma validate_raises_iff rt df schema cols e :
  declares_columns schema cols ->
  (fst (validate rt df schema) = Raise e <-> fst (run (run_checks rt schema cols) df) = Raise e).
Proof.
  intros Hc. rewrite (validate_eq rt df Hc). cbn [fst].
  destruct (run (run_checks rt schema cols) df) as [[[]|e'] n]; cbn [fst];
    split; intros H; try discriminate; congruence.
Qed.


Lemma required_cols_non_mapping cols c spec :
  In (c, spec) cols -> py_truthy spec = true -> (forall d, spec <> PDict d) ->
  exists msg, required_cols cols = Raise (AttributeError msg).
Proof.
  intros Hin Ht Hnd. induction cols as [|[c0 spec0] cols IH]; [contradiction|].
  simpl. destruct (as_mapping (py_or spec0 (PDict []))) as [d|e] eqn:Emap.
  - destruct Hin as [Heq|Hin].
    + injection Heq as -> ->. unfold py_or in Emap. rewrite Ht in Emap.
      destruct spec; try discriminate. now contradiction (Hnd kvs).
    + destruct (IH Hin) as (msg & ->). simpl. eauto.
  - simpl. unfold as_mapping in Emap.
    destruct (py_or spec0 (PDict [])); try discriminate; injection Emap as <-; eauto.
Qed.

(** X7. A column spec that is truthy but is not a mapping is not reported as a
    schema defect: [validate] raises AttributeError while it collects the
    required columns and returns no report at all. *)
Theorem non_mapping_spec_raises_attribute_error rt df schema cols c spec :
  declares_columns schema cols ->
  In (c, spec) cols ->
  py_truthy spec = true ->
  (forall d, spec <> PDict d) ->
  exists msg, validate rt df schema = (Raise (AttributeError msg), df).
Proof.
  intros Hc Hin Ht Hnd.
  destruct (@required_cols_non_mapping cols c spec Hin Ht Hnd) as (msg & Hreq).
  exists msg. rewrite (validate_eq rt df Hc).
  assert (Hrun : fst (run (run_checks rt schema cols) df) = Raise (AttributeError msg)).
  { rewrite run_checks_outcome. unfold check_required, run, bind, lift. rewrite Hreq.
    reflexivity. }
  destruct (run (run_checks rt schema cols) df) as [[[]|e] n]; simpl in Hrun;
    [discriminate|]. now injection Hrun as ->.
Qed.

(** Witness of X7: the spec of [id] is the string "int". *)
Lemma non_mapping_spec_raises_attribute_error_witness :
  exists msg,
    validate Ref.runtime ids [("columns"%string, PDict [("id"%string, PStr "int")])]
    = (Raise (AttributeError msg), ids).
Proof.
  apply (@non_mapping_spec_raises_attribute_error Ref.runtime ids
           [("columns"%string, PDict [("id"%string, PStr "int")])]
           [("id"%string, PStr "int")] "id"%string (PStr "int")).
  - split; [reflexivity|discriminate].
  - left. reflexivity.
  - reflexivity.
  - discriminate.
Defined.

(** ** Columns and counts of the report *)

Lemma run_checks_names rt df schema cols :
  emits_at df
    (fun i => forall c, column i = Some c -> has_column df c = true /\ In c (keys cols))
    (run_checks rt schema cols).
Proof.
  assert (Hnone : forall codes i, reported codes None i ->
            forall c, column i = Some c -> has_column df c = true /\ In c (keys cols)).
  { intros codes i [_ Hn] c Hc. congruence. }
  unfold run_checks. repeat emits_step.
  - eapply emits_at_weaken; [apply Hnone|apply check_required_emits].
  - eapply emits_at_weaken; [apply Hnone|apply check_unexpected_emits].
  - eapply emits_at_weaken; [|apply columns_loop_emits].
    intros i (c' & Hin & [[_ Hcol] Hhas]) c Hc.
    rewrite Hcol in Hc. injection Hc as <-. auto.
  - eapply emits_at_weaken; [apply Hnone|apply check_primary_key_emits].
  - eapply emits_at_weaken; [apply Hnone|apply check_rules_emits].
Qed.

(** X8. Every issue of a report that names a column names one that the schema
    declares and the table has: a declared column that is absent from the
    table is never checked, and no check speaks of an undeclared column. *)
Theorem column_issues_name_checked_columns rt df schema :
  Forall (names_checked_column df schema) (issues_of (validate rt df schema)).
Proof.
  unfold issues_of. destruct (columns_or_not schema) as [(cols & Hc)|Hno].
  - rewrite (validate_eq rt df Hc). cbn [fst].
    destruct (run (run_checks rt schema cols) df) as [[[]|e] n] eqn:Hrun; [|constructor].
    eapply Forall_impl; [|eapply run_forall; [apply run_checks_names|exact Hrun]].
    intros i Hi c Hcol. destruct (Hi c Hcol) as [Hhas Hin].
    split; [exact Hhas|]. exists cols. split; [apply Hc|exact Hin].
  - rewrite (validate_no_columns rt df Hno). cbn [fst].
    constructor; [|constructor]. intros c Hcol. discriminate.
Qed.

Lemma len_head_le {A : Type} (n : nat) (xs : list A) : len (head n xs) <= len xs.
Proof. unfold len, head. rewrite length_firstn. lia. Qed.

Lemma len_select_le {A : Type} (mask : list bool) (xs : list A) :
  len (select mask xs) <= count_true mask.
Proof.
  unfold count_true, len. apply inj_le. revert xs.
  induction mask as [|b mask IH]; intros xs; [destruct xs; apply Nat.le_refl|].
  destruct xs as [|x xs]; [apply Nat.le_0_l|].
  specialize (IH xs). destruct b; simpl; lia.
Qed.

Lemma length_mask_positions (i : nat) (mask : list bool) :
  List.length (mask_positions i mask) = List.length (filter (fun b => b) mask).
Proof.
  revert i. induction mask as [|b mask IH]; intros i; [reflexivity|].
  destruct b; simpl; now rewrite IH.
Qed.

Lemma len_records_le df names mask n : len (records df names mask n) <= count_true mask.
Proof.
  unfold records, count_true, len, head. rewrite length_map.
  rewrite <- length_mask_positions with (i := 0%nat).
  rewrite length_firstn. lia.
Qed.

Lemma len_map {A B : Type} (f : A -> B) (xs : list A) : len (map f xs) = len xs.
Proof. unfold len. now rewrite length_map. Qed.

Lemma truthy_list_len {A : Type} (f : A -> pyobj) (xs : list A) :
  py_truthy (PList (map f xs)) = true -> 0 < len xs.
Proof. destruct xs; [discriminate|]. intros _. unfold len. simpl. lia. Qed.

Ltac count_goal :=
  unfold sound_count, dtype_mismatch, range_issue, mk_issue, no_columns_issue;
  cbn [n_rows examples];
  first
    [ exact I
    | repeat match goal with
             | H : (0 <? _) = true |- _ => apply Z.ltb_lt in H
             | H : py_truthy (PList (map _ _)) = true |- _ => apply truthy_list_len in H
             end;
      split;
      [ assumption
      | rewrite ?len_map;
        first [ apply Z.le_refl
              | apply len_records_le
              | eapply Z.le_trans;
                [apply len_head_le | first [apply Z.le_refl | apply len_select_le]] ] ] ].

Section Counts.

Variable rt : Runtime.
Variable df : DataFrame.

Lemma check_column_counts item : emits_at df sound_count (check_column rt item).
Proof.
  unfold check_column, column_checks, check_nullability, check_dtype, check_range,
    check_allowed, check_regex, check_unique.
  repeat emits_step; count_goal.
Qed.

Lemma check_rule_counts r : emits_at df sound_count (check_rule rt r).
Proof. unfold check_rule, eval_rule. repeat emits_step; count_goal. Qed.

Lemma run_checks_counts schema cols : emits_at df sound_count (run_checks rt schema cols).
Proof.
  unfold run_checks. repeat emits_step.
  - unfold check_required. repeat emits_step; count_goal.
  - unfold check_unexpected. repeat emits_step; count_goal.
  - apply emits_at_for_each. intros item _. apply check_column_counts.
  - unfold check_primary_key. repeat emits_step; count_goal.
  - unfold check_rules. cbv zeta. emits_step.
    destruct (py_or _ _); try solve [repeat emits_step; count_goal].
    apply emits_at_for_each. intros r _. apply check_rule_counts.
Qed.

End Counts.

(** X9. Whatever the schema and the table, a row count in the report is never
    zero or negative, and an issue that carries a count carries at most that
    many examples. *)
Theorem reported_counts_are_positive rt df schema :
  Forall sound_count (issues_of (validate rt df schema)).
Proof.
  unfold issues_of. destruct (columns_or_not schema) as [(cols & Hc)|Hno].
  - rewrite (validate_eq rt df Hc). cbn [fst].
    destruct (run (run_checks rt schema cols) df) as [[[]|e] n] eqn:Hrun; [|constructor].
    eapply run_forall; [apply run_checks_counts|exact Hrun].
  - rewrite (validate_no_columns rt df Hno). cbn [fst]. constructor; [exact I|constructor].
Qed.

(** ** The report, step by step *)

Lemma filter_everything {A : Type} (sel : A -> bool) (xs : list A) :
  Forall (fun x => sel x = true) xs -> filter sel xs = xs.
Proof.
  induction 1 as [|x xs Hx _ IH]; simpl; [reflexivity|]. now rewrite Hx, IH.
Qed.

Lemma count_true_map {A : Type} (f : A -> bool) (xs : list A) :
  count_true (map f xs) = len (filter f xs).
Proof.
  unfold count_true, len. f_equal.
  induction xs as [|x xs IH]; simpl; [reflexivity|].
  destruct (f x); simpl; now rewrite IH.
Qed.

Lemma column_checks_parts rt df col s spec n :
  run (column_checks rt col s spec) df = (Ok tt, n) ->
  exists b1 b2 b3 b4 b5 b6,
    n = b1 ++ b2 ++ b3 ++ b4 ++ b5 ++ b6 /\
    run (check_nullability rt col s (py_truthy (get_default spec "nullable" (PBool true)))) df
    = (Ok tt, b1) /\
    run (check_dtype rt col s (get_default spec "dtype" PNone)) df = (Ok tt, b2) /\
    run (check_range rt col s spec) df = (Ok tt, b3) /\
    run (check_allowed rt col s spec) df = (Ok tt, b4) /\
    run (check_regex rt col s spec) df = (Ok tt, b5) /\
    run (check_unique rt col s spec) df = (Ok tt, b6).
Proof.
  unfold column_checks. cbv zeta. intros H.
  set (nullable := py_truthy (get_default spec "nullable" (PBool true))) in *.
  set (expected := get_default spec "dtype" PNone) in *.
  assert (L1 := check_nullability_emits rt df col s nullable).
  assert (L2 := check_dtype_emits rt df col s expected).
  assert (L3 := check_range_emits rt df col s spec).
  assert (L4 := check_allowed_emits rt df col s spec).
  assert (L5 := check_regex_emits rt df col s spec).
  assert (L6 := check_unique_emits rt df col s spec).
  apply run_bind_ok in H;
    [|eapply emits_at_local; exact L1
     |intros _; unfold local_at; repeat emits_step; eapply emits_at_local; eassumption].
  destruct H as ([] & b1 & r1 & H1 & H & ->).
  apply run_bind_ok in H;
    [|eapply emits_at_local; exact L2
     |intros _; unfold local_at; repeat emits_step; eapply emits_at_local; eassumption].
  destruct H as ([] & b2 & r2 & H2 & H & ->).
  apply run_bind_ok in H;
    [|eapply emits_at_local; exact L3
     |intros _; unfold local_at; repeat emits_step; eapply emits_at_local; eassumption].
  destruct H as ([] & b3 & r3 & H3 & H & ->).
  apply run_bind_ok in H;
    [|eapply emits_at_local; exact L4
     |intros _; unfold local_at; repeat emits_step; eapply emits_at_local; eassumption].
  destruct H as ([] & b4 & r4 & H4 & H & ->).
  apply run_bind_ok in H;
    [|eapply emits_at_local; exact L5|intros _; eapply emits_at_local; exact L6].
  destruct H as ([] & b5 & b6 & H5 & H6 & ->).
  exists b1, b2, b3, b4, b5, b6. repeat split; assumption.
Qed.

Lemma off_column_none codes col issues :
  Forall (reported codes None) issues -> Forall (fun i => on_column col i = false) issues.
Proof. apply Forall_impl. intros i [_ Hnone]. unfold on_column. now rewrite Hnone. Qed.

Lemma off_column_other df (items : pydict) col issues :
  ~ In col (keys items) ->
  Forall (fun i => exists c, In c (keys items) /\ column_issue df c i) issues ->
  Forall (fun i => on_column col i = false) issues.
Proof.
  intros Hnot. apply Forall_impl.
  intros i (c & Hin & [[_ Hcol] _]). unfold on_column. rewrite Hcol.
  destruct (String.eqb_spec c col) as [->|]; [contradiction|reflexivity].
Qed.

(** The report splits around the issues of one declared column of the table. *)
Lemma column_part_of_report rt df schema cols col spec0 spec s v issues df' :
  declares_columns schema cols ->
  NoDup (keys cols) ->
  In (col, spec0) cols ->
  py_or spec0 (PDict []) = PDict spec ->
  get_column df col = Some s ->
  validate rt df schema = (Ok (v, issues), df') ->
  exists before b after,
    issues = before ++ b ++ after /\
    run (column_checks rt col s spec) df = (Ok tt, b) /\
    Forall (fun i => on_column col i = false) before /\
    Forall (fun i => on_column col i = false) after /\
    Forall (fun i => column i = Some col) b.
Proof.
  intros Hc Hnodup Hin Hspec Hcol Hv.
  destruct (validate_phases rt df Hc Hv)
    as (_ & _ & n1 & n2 & n3 & n4 & n5 & -> & H1 & H2 & H3 & H4 & H5).
  pose proof (run_forall (check_required_emits rt df cols) H1) as F1.
  pose proof (run_forall (check_unexpected_emits rt df schema cols) H2) as F2.
  pose proof (run_forall (check_primary_key_emits rt df schema) H4) as F4.
  pose proof (run_forall (check_rules_emits rt df schema) H5) as F5.
  destruct (in_split _ _ Hin) as (pre & post & ->).
  assert (Hpre : ~ In col (keys pre) /\ ~ In col (keys post)).
  { unfold keys in *. rewrite map_app in Hnodup. simpl in Hnodup.
    apply NoDup_remove_2 in Hnodup. rewrite in_app_iff in Hnodup. tauto. }
  destruct Hpre as [Hpre Hpost].
  apply run_for_each_app in H3; [|apply check_column_local].
  destruct H3 as (a & rest & Ha & Hrest & ->).
  apply run_for_each_cons in Hrest; [|apply check_column_local].
  destruct Hrest as (b & c & Hb & Hc' & ->).
  pose proof (run_forall (columns_loop_emits rt df pre) Ha) as Fa.
  pose proof (run_forall (columns_loop_emits rt df post) Hc') as Fc.
  pose proof (run_forall (check_column_emits rt df (col, spec0)) Hb) as Fb.
  rewrite (check_column_present rt df col spec0 Hcol Hspec) in Hb.
  exists (n1 ++ n2 ++ a), b, (c ++ n4 ++ n5).
  split; [now rewrite <- !app_assoc|]. split; [exact Hb|].
  repeat split.
  - repeat (apply Forall_app; split).
    + eapply off_column_none; exact F1.
    + eapply off_column_none; exact F2.
    + eapply off_column_other; [exact Hpre|exact Fa].
  - repeat (apply Forall_app; split).
    + eapply off_column_other; [exact Hpost|exact Fc].
    + eapply off_column_none; exact F4.
    + eapply off_column_none; exact F5.
  - eapply Forall_impl; [|exact Fb]. now intros i [[_ Hi] _].
Qed.

(** X10. What a report says about a declared column of the table is exactly
    what the six column checks give on that column and its spec alone, in the
    order of the checks: no other column, no key and no rule adds to it or
    takes from it.  The spec keys are taken as distinct, as those of a mapping
    are. *)
Theorem column_report_depends_on_column_only rt df schema cols col spec0 spec s v issues df' :
  declares_columns schema cols ->
  NoDup (keys cols) ->
  In (col, spec0) cols ->
  py_or spec0 (PDict []) = PDict spec ->
  get_column df col = Some s ->
  validate rt df schema = (Ok (v, issues), df') ->
  run (column_checks rt col s spec) df = (Ok tt, filter (on_column col) issues).
Proof.
  intros Hc Hnodup Hin Hspec Hcol Hv.
  destruct (@column_part_of_report rt df schema cols col spec0 spec s v issues df'
              Hc Hnodup Hin Hspec Hcol Hv)
    as (before & b & after & -> & Hrun & Fbefore & Fafter & Fb).
  rewrite !filter_app, (filter_nothing _ Fbefore), (filter_nothing _ Fafter).
  rewrite filter_everything, app_nil_r; [exact Hrun|].
  eapply Forall_impl; [|exact Fb]. intros i Hi. unfold on_column. rewrite Hi.
  apply String.eqb_refl.
Qed.

Lemma check_nullability_run rt df col s nullable :
  run (check_nullability rt col s nullable) df = (Ok tt, null_issues rt col (values s) nullable).
Proof.
  unfold check_nullability, null_issues, isna. cbv zeta.
  rewrite count_true_map, select_map_filter.
  destruct nullable; [reflexivity|]. cbn [negb when].
  rewrite when_nonempty. destruct (filter is_null (values s)); reflexivity.
Qed.

Lemma about_nothing cd col issues :
  Forall (fun i => on_column col i = false) issues -> about cd col issues = [].
Proof.
  intros F. apply filter_nothing. eapply Forall_impl; [|exact F].
  intros i Hi. rewrite Hi. apply andb_false_r.
Qed.

(** X11. In a report on a declared column of the table, the nulls of the column
    are reported exactly when the spec sets [nullable] to a falsy value and the
    column holds a null: then by one NULLS_NOT_ALLOWED error that counts all
    the null cells and shows the first five; otherwise not at all. *)
Theorem nulls_reported rt df schema cols col spec0 spec s v issues df' :
  declares_columns schema cols ->
  NoDup (keys cols) ->
  In (col, spec0) cols ->
  py_or spec0 (PDict []) = PDict spec ->
  get_column df col = Some s ->
  validate rt df schema = (Ok (v, issues), df') ->
  about "NULLS_NOT_ALLOWED" col issues
  = null_issues rt col (values s) (py_truthy (get_default spec "nullable" (PBool true))).
Proof.
  intros Hc Hnodup Hin Hspec Hcol Hv.
  destruct (@column_part_of_report rt df schema cols col spec0 spec s v issues df'
              Hc Hnodup Hin Hspec Hcol Hv)
    as (before & b & after & -> & Hrun & Fbefore & Fafter & _).
  apply column_checks_parts in Hrun.
  destruct Hrun as (b1 & b2 & b3 & b4 & b5 & b6 & -> & G1 & G2 & G3 & G4 & G5 & G6).
  pose proof (run_forall (check_dtype_emits rt df col s _) G2) as F2.
  pose proof (run_forall (check_range_emits rt df col s spec) G3) as F3.
  pose proof (run_forall (check_allowed_emits rt df col s spec) G4) as F4.
  pose proof (run_forall (check_regex_emits rt df col s spec) G5) as F5.
  pose proof (run_forall (check_unique_emits rt df col s spec) G6) as F6.
  rewrite check_nullability_run in G1. injection G1 as <-.
  unfold about at 1. rewrite !filter_app.
  fold (about "NULLS_NOT_ALLOWED" col before). fold (about "NULLS_NOT_ALLOWED" col after).
  rewrite (@about_nothing "NULLS_NOT_ALLOWED" col before Fbefore).
  rewrite (@about_nothing "NULLS_NOT_ALLOWED" col after Fafter).
  rewrite (@other_code_on_column _ col "NULLS_NOT_ALLOWED" b2 F2)
    by (simpl; intuition discriminate).
  rewrite (@other_code_on_column _ col "NULLS_NOT_ALLOWED" b3 F3)
    by (simpl; intuition discriminate).
  rewrite (@other_code_on_column _ col "NULLS_NOT_ALLOWED" b4 F4)
    by (simpl; intuition discriminate).
  rewrite (@other_code_on_column _ col "NULLS_NOT_ALLOWED" b5 F5)
    by (simpl; intuition discriminate).
  rewrite (@other_code_on_column _ col "NULLS_NOT_ALLOWED" b6 F6)
    by (simpl; intuition discriminate).
  cbn [app]. rewrite !app_nil_r.
  apply filter_everything. unfold null_issues.
  destruct (py_truthy (get_default spec "nullable" (PBool true))); [constructor|].
  destruct (filter is_null (values s)); constructor; [|constructor].
  unfold has_code, on_column, mk_issue. cbn [code column]. now rewrite !String.eqb_refl.
Qed.

Lemma check_unexpected_run rt df schema cols :
  run (check_unexpected rt schema cols) df = (Ok tt, unexpected_issues rt df schema cols).
Proof.
  unfold check_unexpected, unexpected_issues, unexpected_columns. cbv zeta.
  destruct (py_truthy (get_default schema "allow_extra_columns" (PBool true)));
    [reflexivity|].
  unfold run, when, bind, get_table. cbn [negb fst snd fresh w_table].
  destruct (filter (fun c => negb (dict_has cols c)) (column_names df)); reflexivity.
Qed.

(** X12. Columns of the table that the schema does not declare are reported
    only when [allow_extra_columns] is set to a falsy value, and then by one
    UNEXPECTED_COLUMNS warning that lists them in table order and counts them;
    with the entry absent or truthy the report never mentions them. *)
Theorem unexpected_columns_warned rt df schema cols v issues df' :
  declares_columns schema cols ->
  validate rt df schema = (Ok (v, issues), df') ->
  filter (has_code "UNEXPECTED_COLUMNS") issues = unexpected_issues rt df schema cols.
Proof.
  intros Hc Hv.
  destruct (validate_phases rt df Hc Hv)
    as (_ & _ & n1 & n2 & n3 & n4 & n5 & -> & H1 & H2 & H3 & H4 & H5).
  pose proof (run_forall (check_required_emits rt df cols) H1) as F1.
  pose proof (run_forall (columns_loop_emits rt df cols) H3) as F3.
  pose proof (run_forall (check_primary_key_emits rt df schema) H4) as F4.
  pose proof (run_forall (check_rules_emits rt df schema) H5) as F5.
  rewrite check_unexpected_run in H2. injection H2 as <-.
  rewrite !filter_app.
  rewrite (with_code_nothing _ F1) by not_in_codes.
  rewrite (with_code_nothing _ F4) by not_in_codes.
  rewrite (with_code_nothing _ F5) by not_in_codes.
  rewrite (filter_nothing (has_code "UNEXPECTED_COLUMNS") (xs := n3)).
  - cbn [app]. rewrite app_nil_r. apply filter_everything. unfold unexpected_issues.
    destruct (py_truthy _); [constructor|].
    destruct (unexpected_columns df cols); constructor; [reflexivity|constructor].
  - eapply Forall_impl; [|exact F3]. intros i (c & _ & Hi & _).
    eapply reported_other_code; [exact Hi | not_in_codes].
Qed.

Lemma check_primary_key_list_run rt df schema pk :
  get_default schema "primary_key" PNone = PList pk ->
  pk <> [] -> forallb is_str pk = true ->
  run (check_primary_key rt schema) df = (Ok tt, key_issues rt df pk).
Proof.
  intros Hpk Hne Hstr. unfold check_primary_key, key_issues. cbv zeta. rewrite Hpk.
  destruct pk as [|x pk]; [contradiction|].
  cbn [py_truthy when]. rewrite Hstr.
  unfold run, bind, get_table. cbn [fst snd fresh w_table].
  destruct (filter (fun c => negb (has_column df c)) (map str_of (x :: pk))); [|reflexivity].
  cbn [map py_truthy]. destruct (0 <? _); reflexivity.
Qed.

(** X13. For a primary key that is a non-empty list of column names, the key
    issues of the report are: when some key column is absent from the table,
    one PRIMARY_KEY_MISSING_COLUMNS error that lists the absent names, and
    uniqueness is then not looked at; otherwise one PRIMARY_KEY_NOT_UNIQUE
    error that counts the duplicated rows and shows at most five of them, or
    nothing when no row is duplicated. *)
Theorem primary_key_columns_checked_before_uniqueness rt df schema cols pk v issues df' :
  declares_columns schema cols ->
  get_default schema "primary_key" PNone = PList pk ->
  pk <> [] ->
  forallb is_str pk = true ->
  validate rt df schema = (Ok (v, issues), df') ->
  filter (in_codes primary_key_codes) issues = key_issues rt df pk.
Proof.
  intros Hc Hpk Hne Hstr Hv.
  destruct (validate_phases rt df Hc Hv)
    as (_ & _ & n1 & n2 & n3 & n4 & n5 & -> & H1 & H2 & H3 & H4 & H5).
  pose proof (run_forall (check_required_emits rt df cols) H1) as F1.
  pose proof (run_forall (check_unexpected_emits rt df schema cols) H2) as F2.
  pose proof (run_forall (columns_loop_emits rt df cols) H3) as F3.
  apply column_issue_codes in F3.
  pose proof (run_forall (check_rules_emits rt df schema) H5) as F5.
  pose proof (run_forall (check_primary_key_emits rt df schema) H4) as F4.
  rewrite (check_primary_key_list_run rt df schema Hpk Hne Hstr) in H4. injection H4 as <-.
  rewrite !filter_app.
  assert (E1 : filter (in_codes primary_key_codes) n1 = [])
    by (eapply in_codes_nothing; [eapply reported_codes; exact F1 | disjoint_codes]).
  assert (E2 : filter (in_codes primary_key_codes) n2 = [])
    by (eapply in_codes_nothing; [eapply reported_codes; exact F2 | disjoint_codes]).
  assert (E3 : filter (in_codes primary_key_codes) n3 = [])
    by (eapply in_codes_nothing; [exact F3 | disjoint_codes]).
  assert (E5 : filter (in_codes primary_key_codes) n5 = [])
    by (eapply in_codes_nothing; [eapply reported_codes; exact F5 | disjoint_codes]).
  rewrite E1, E2, E3, E5. cbn [app]. rewrite app_nil_r.
  apply filter_everything. eapply Forall_impl; [|exact F4].
  intros i [Hi _]. unfold in_codes, primary_key_codes.
  apply existsb_exists. exists (code i). split; [exact Hi|apply String.eqb_refl].
Qed.

Lemma bad_mask_of_outcome (out : Series) :
  invert (fillna_false
            (values (if negb (String.eqb (dtype out) "bool") then astype_bool out else out)))
  = violation_mask out.
Proof.
  unfold violation_mask, invert, fillna_false.
  destruct (String.eqb (dtype out) "bool"); cbn [negb astype_bool values];
    rewrite !map_map; apply map_ext; intros v.
  - destruct (is_null v); reflexivity.
  - reflexivity.
Qed.

Lemma check_rule_run rt df r : run (check_rule rt r) df = (Ok tt, rule_issues rt df r).
Proof.
  unfold check_rule, rule_issues. destruct r as [| | | | | |rd]; try reflexivity.
  cbv zeta.
  destruct (get_default rd "expr" PNone) as [|b|z|f|e|xs|kvs];
    try (cbn [is_str negb]; rewrite orb_true_r; reflexivity).
  destruct e as [|c rest]; [reflexivity|].
  cbn [py_truthy is_str str_of negb orb String.eqb].
  unfold run, try_except, eval_rule, bind, get_table, lift, safe_eval_expr.
  cbn [fresh w_table fst snd].
  destruct (rt_df_eval rt df (String c rest)) as [out| |msg]; try reflexivity.
  assert (E := bad_mask_of_outcome out).
  unfold rule_violation_issues.
  destruct (negb (String.eqb (dtype out) "bool")); cbn [fst snd]; rewrite E;
    unfold when; destruct (0 <? count_true (violation_mask out)); reflexivity.
Qed.

Lemma rules_loop_run rt df rs :
  run (for_each rs (check_rule rt)) df = (Ok tt, flat_map (rule_issues rt df) rs).
Proof.
  induction rs as [|r rs IH]; [reflexivity|]. cbn [for_each flat_map].
  rewrite run_bind;
    [|eapply emits_at_local, check_rule_emits
     |intros _; apply local_at_for_each; intros x; eapply emits_at_local, check_rule_emits].
  now rewrite check_rule_run, IH.
Qed.

Lemma check_rules_list_run rt df schema rs :
  get_default schema "rules" (PList []) = PList rs ->
  run (check_rules rt schema) df = (Ok tt, flat_map (rule_issues rt df) rs).
Proof.
  intros Hrules. unfold check_rules. cbv zeta. rewrite Hrules.
  destruct rs as [|r rs]; [reflexivity|].
  unfold py_or. cbn [py_truthy when]. apply rules_loop_run.
Qed.


(** ** Loading and reporting *)

Lemma length_append (a b : string) :
  String.length (a ++ b)%string = (String.length a + String.length b)%nat.
Proof. induction a as [|c a IH]; simpl; [reflexivity|now rewrite IH]. Qed.

Lemma lower_append (a b : string) : lower (a ++ b)%string = (lower a ++ lower b)%string.
Proof. induction a as [|c a IH]; simpl; [reflexivity|now rewrite IH]. Qed.

Lemma substring_full (s : string) : substring 0 (String.length s) s = s.
Proof. induction s as [|c s IH]; simpl; [reflexivity|now rewrite IH]. Qed.

Lemma ends_with_refl (s : string) : ends_with s s = true.
Proof.
  unfold ends_with. cbv zeta.
  rewrite Nat.leb_refl, Nat.sub_diag, substring_full. apply String.eqb_refl.
Qed.

Lemma ends_with_skip (c : ascii) (a t : string) :
  (String.length t <= String.length a)%nat -> ends_with (String c a) t = ends_with a t.
Proof.
  intros Hle. unfold ends_with. cbv zeta. cbn [String.length].
  replace (S (String.length a) - String.length t)%nat
    with (S (String.length a - String.length t)) by lia.
  cbn [substring].
  rewrite (proj2 (Nat.leb_le _ _) Hle).
  rewrite (proj2 (Nat.leb_le _ _) (Nat.le_le_succ_r _ _ Hle)). reflexivity.
Qed.

Lemma ends_with_append (a s : string) : ends_with (a ++ s) s = true.
Proof.
  induction a as [|c a IH]; [apply ends_with_refl|]. cbn [String.append].
  rewrite ends_with_skip; [exact IH|]. rewrite length_append. lia.
Qed.

(** A suffix that neither ends the other nor is ended by it stays unmatched
    whatever is put in front. *)
Lemma ends_with_other (a s t : string) :
  ends_with s t = false -> ends_with t s = false -> ends_with (a ++ s) t = false.
Proof.
  intros Hst Hts. induction a as [|c a IH]; [exact Hst|]. cbn [String.append].
  destruct (Nat.leb (String.length t) (String.length (a ++ s))) eqn:Hle.
  - apply Nat.leb_le in Hle. rewrite ends_with_skip by exact Hle. exact IH.
  - apply Nat.leb_gt in Hle.
    destruct (ends_with (String c (a ++ s)) t) eqn:E; [|reflexivity]. exfalso.
    unfold ends_with in E. cbv zeta in E. apply andb_true_iff in E. destruct E as [E1 E2].
    apply Nat.leb_le in E1. cbn [String.length] in E1, E2.
    assert (Hlen : String.length t = S (String.length (a ++ s))) by lia.
    rewrite Hlen, Nat.sub_diag in E2.
    change (S (String.length (a ++ s))) with (String.length (String c (a ++ s))) in E2.
    rewrite substring_full in E2. apply String.eqb_eq in E2. subst t.
    change (String c (a ++ s))%string with (String c a ++ s)%string in Hts.
    rewrite ends_with_append in Hts. discriminate.
Qed.

(** X15. [_read_table] picks the reader by the extension of the path alone,
    whatever the case of its letters and whatever precedes it (another
    extension among them), and hands the reader the path as it was given, not
    the lower-cased one. *)
Theorem read_table_dispatches_on_extension (host : Host) (stem ext : string) :
  In (lower ext) [".csv"; ".parquet"; ".xlsx"; ".xls"]%string ->
  read_table host (stem ++ ext)
  = (if String.eqb (lower ext) ".csv" then read_csv host
     else if String.eqb (lower ext) ".parquet" then read_parquet host
     else read_excel host) (stem ++ ext)%string.
Proof.
  intros Hext. unfold read_table. cbv zeta. rewrite lower_append.
  destruct Hext as [E|[E|[E|[E|[]]]]]; rewrite <- E.
  - now rewrite ends_with_append.
  - rewrite (@ends_with_other (lower stem) ".parquet" ".csv") by reflexivity.
    now rewrite ends_with_append.
  - rewrite (@ends_with_other (lower stem) ".xlsx" ".csv") by reflexivity.
    rewrite (@ends_with_other (lower stem) ".xlsx" ".parquet") by reflexivity.
    now rewrite ends_with_append.
  - rewrite (@ends_with_other (lower stem) ".xls" ".csv") by reflexivity.
    rewrite (@ends_with_other (lower stem) ".xls" ".parquet") by reflexivity.
    now rewrite ends_with_append, orb_true_r.
Qed.

Lemma validate_issues_leveled rt df schema v issues :
  fst (validate rt df schema) = Ok (v, issues) ->
  Forall (fun i => orb (is_error i) (is_warn i) = true) issues.
Proof.
  intros Hv. assert (K : Forall known_kind issues).
  { destruct (columns_or_not schema) as [(cols & Hc)|Hno].
    - rewrite (validate_eq rt df Hc) in Hv. cbn [fst] in Hv.
      destruct (run (run_checks rt schema cols) df) as [[[]|e] n] eqn:Hrun; [|discriminate].
      injection Hv as _ <-. eapply run_forall; [apply run_checks_kinds|exact Hrun].
    - rewrite (validate_no_columns rt df Hno) in Hv. cbn [fst] in Hv. injection Hv as _ <-.
      constructor; [kind_goal|constructor]. }
  eapply Forall_impl; [|exact K]. intros i Hi. unfold known_kind, issue_kinds in Hi.
  unfold is_error, is_warn.
  repeat (destruct Hi as [Hi|Hi]; [injection Hi as <- _ _; reflexivity|]). contradiction.
Qed.

Lemma group_lines_in rt heading group i line :
  In i group -> In line (issue_lines rt i) -> In line (group_lines rt heading group).
Proof.
  intros Hi Hl. unfold group_lines. destruct group as [|g group]; [contradiction|].
  right. apply in_flat_map. eauto.
Qed.

(** X16. The printed report leaves out nothing that [validate] found: every
    line of every issue of a run's report is printed by [_print_report], which
    sorts the issues under the two levels that [validate] uses. *)
Theorem report_prints_every_issue rt df schema v issues i :
  fst (validate rt df schema) = Ok (v, issues) ->
  In i issues ->
  incl (issue_lines rt i) (print_report rt v issues).
Proof.
  intros Hv Hin. pose proof (validate_issues_leveled rt df schema Hv) as L.
  rewrite Forall_forall in L. specialize (L i Hin).
  unfold print_report. cbv zeta.
  destruct issues as [|i0 rest] eqn:E; [contradiction|]. rewrite <- E in *.
  intros line Hline. right.
  apply orb_true_iff in L. destruct L as [L|L].
  - apply in_or_app. left. eapply group_lines_in; [|exact Hline].
    apply filter_In. auto.
  - apply in_or_app. right. apply in_or_app. left. eapply group_lines_in; [|exact Hline].
    apply filter_In. auto.
Qed.

Lemma no_error_iff (issues : list ValidationIssue) :
  existsb is_error issues = false <-> Forall (fun i => level i <> "ERROR"%string) issues.
Proof.
  rewrite Forall_forall. split.
  - intros Hnone i Hin Hlevel.
    assert (existsb is_error issues = true); [|congruence].
    apply existsb_exists. exists i. split; [exact Hin|].
    unfold is_error. now rewrite Hlevel.
  - intros Hall. destruct (existsb is_error issues) eqn:E; [|reflexivity].
    apply existsb_exists in E. destruct E as (i & Hin & Herr).
    unfold is_error in Herr. apply String.eqb_eq in Herr. now contradiction (Hall i Hin).
Qed.

(** X17. When [main] returns, the schema was loaded as a mapping, the table was
    read, and [validate] returned; what was printed is the report of that run;
    and the exit status is 0 when no issue of the report is an ERROR and 2
    otherwise, never anything else. *)
Theorem main_exit_status rt host input schema_path status out :
  main rt host input schema_path = (Ok status, out) ->
  exists schema df v issues,
    load_yaml host schema_path = Ok schema /\
    read_table host input = Ok df /\
    fst (validate rt df schema) = Ok (v, issues) /\
    out = print_report rt v issues /\
    (status = 0 \/ status = 2) /\
    (status = 0 <-> v = true) /\
    (status = 0 <-> Forall (fun i => level i <> "ERROR"%string) issues).
Proof.
  unfold main. intros Hmain.
  destruct (load_yaml host schema_path) as [schema|e]; [|discriminate].
  destruct (read_table host input) as [df|e]; [|discriminate].
  destruct (validate rt df schema) as [r df'] eqn:Hv. cbn [fst] in Hmain.
  destruct r as [[v issues]|e]; [|discriminate].
  injection Hmain as <- <-.
  exists schema, df, v, issues. rewrite Hv. repeat split; try reflexivity.
  - destruct v; auto.
  - destruct v; [reflexivity|discriminate].
  - destruct v; [reflexivity|discriminate].
  - intros Hs. apply no_error_iff. rewrite (validate_verdict _ _ _ Hv) in Hs.
    destruct (existsb is_error issues); [discriminate|reflexivity].
  - intros Hall. apply no_error_iff in Hall.
    rewrite (validate_verdict _ _ _ Hv), Hall. reflexivity.
Qed.

(** ** Runs that meet the hypotheses *)

(** Witness of X10: the column [name] of [ids]. *)
Lemma column_report_depends_on_column_only_witness :
  validate Ref.runtime ids ids_schema = (Ok (false, ids_report), ids) /\
  run (column_checks Ref.runtime "name" name_series name_spec) ids
  = (Ok tt, filter (on_column "name") ids_report).
Proof.
  assert (Hrun : validate Ref.runtime ids ids_schema = (Ok (false, ids_report), ids))
    by (vm_compute; reflexivity).
  split; [exact Hrun|].
  assert (Hc : declares_columns ids_schema ids_columns)
    by (split; [reflexivity|discriminate]).
  assert (Hnd : NoDup (keys ids_columns))
    by (repeat constructor; simpl; intuition discriminate).
  exact (@column_report_depends_on_column_only Ref.runtime ids ids_schema ids_columns
           "name"%string (PDict name_spec) name_spec name_series false ids_report ids
           Hc Hnd (or_intror (or_introl eq_refl)) eq_refl eq_refl Hrun).
Defined.

(** Witness of X11: the one null of the column [name] of [ids]. *)
Lemma nulls_reported_witness :
  validate Ref.runtime ids ids_schema = (Ok (false, ids_report), ids) /\
  about "NULLS_NOT_ALLOWED" "name" ids_report = [null_name_issue].
Proof.
  assert (Hrun : validate Ref.runtime ids ids_schema = (Ok (false, ids_report), ids))
    by (vm_compute; reflexivity).
  split; [exact Hrun|].
  assert (Hc : declares_columns ids_schema ids_columns)
    by (split; [reflexivity|discriminate]).
  assert (Hnd : NoDup (keys ids_columns))
    by (repeat constructor; simpl; intuition discriminate).
  exact (@nulls_reported Ref.runtime ids ids_schema ids_columns
           "name"%string (PDict name_spec) name_spec name_series false ids_report ids
           Hc Hnd (or_intror (or_introl eq_refl)) eq_refl eq_refl Hrun).
Defined.

(** Witness of X12: [ids] under a schema that declares [id] only and disallows
    extras. *)
Lemma unexpected_columns_warned_witness :
  validate Ref.runtime ids closed_schema = (Ok (true, [extra_name_issue]), ids) /\
  filter (has_code "UNEXPECTED_COLUMNS") [extra_name_issue] = [extra_name_issue].
Proof.
  assert (Hrun : validate Ref.runtime ids closed_schema
                 = (Ok (true, [extra_name_issue]), ids))
    by (vm_compute; reflexivity).
  split; [exact Hrun|].
  assert (Hc : declares_columns closed_schema [("id"%string, PNone)])
    by (split; [reflexivity|discriminate]).
  exact (@unexpected_columns_warned Ref.runtime ids closed_schema [("id"%string, PNone)]
           true [extra_name_issue] ids Hc Hrun).
Defined.

(** Witness of X13: the key [id] of [ids], which two rows share. *)
Lemma primary_key_columns_checked_before_uniqueness_witness :
  validate Ref.runtime ids ids_schema = (Ok (false, ids_report), ids) /\
  filter (in_codes primary_key_codes) ids_report = [duplicate_id_issue].
Proof.
  assert (Hrun : validate Ref.runtime ids ids_schema = (Ok (false, ids_report), ids))
    by (vm_compute; reflexivity).
  split; [exact Hrun|].
  assert (Hc : declares_columns ids_schema ids_columns)
    by (split; [reflexivity|discriminate]).
  assert (Hne : [PStr "id"] <> []) by discriminate.
  exact (@primary_key_columns_checked_before_uniqueness Ref.runtime ids ids_schema
           ids_columns [PStr "id"] false ids_report ids Hc eq_refl Hne eq_refl Hrun).
Defined.


(** Witness of X15: an upper-case extension after a directory and a stem. *)
Lemma read_table_dispatches_on_extension_witness :
  In (lower ".CSV") [".csv"; ".parquet"; ".xlsx"; ".xls"]%string /\
  read_table (fixed_host (PDict ids_schema) ids) "Data/Table.CSV" = Ok ids.
Proof.
  assert (Hext : In (lower ".CSV") [".csv"; ".parquet"; ".xlsx"; ".xls"]%string)
    by (left; reflexivity).
  split; [exact Hext|].
  exact (@read_table_dispatches_on_extension (fixed_host (PDict ids_schema) ids)
           "Data/Table" ".CSV" Hext).
Defined.

(** Witness of X16: the null of [name] in the printed report of [ids]. *)
Lemma report_prints_every_issue_witness :
  fst (validate Ref.runtime ids ids_schema) = Ok (false, ids_report) /\
  incl (issue_lines Ref.runtime null_name_issue) (print_report Ref.runtime false ids_report).
Proof.
  assert (Hrun : fst (validate Ref.runtime ids ids_schema) = Ok (false, ids_report))
    by (vm_compute; reflexivity).
  split; [exact Hrun|].
  exact (@report_prints_every_issue Ref.runtime ids ids_schema false ids_report
           null_name_issue Hrun (or_introl eq_refl)).
Defined.

(** Witness of X17: [ids] read from a CSV file and checked against [ids_schema]. *)
Lemma main_exit_status_witness :
  main Ref.runtime (fixed_host (PDict ids_schema) ids) "Table.CSV" "schema.yaml"
  = (Ok 2, print_report Ref.runtime false ids_report) /\
  exists schema df v issues,
    load_yaml (fixed_host (PDict ids_schema) ids) "schema.yaml" = Ok schema /\
    read_table (fixed_host (PDict ids_schema) ids) "Table.CSV" = Ok df /\
    fst (validate Ref.runtime df schema) = Ok (v, issues) /\
    print_report Ref.runtime false ids_report = print_report Ref.runtime v issues /\
    (2 = 0 \/ 2 = 2) /\
    (2 = 0 <-> v = true) /\
    (2 = 0 <-> Forall (fun i => level i <> "ERROR"%string) issues).
Proof.
  assert (Hrun : main Ref.runtime (fixed_host (PDict ids_schema) ids) "Table.CSV" "schema.yaml"
                 = (Ok 2, print_report Ref.runtime false ids_report))
    by (vm_compute; reflexivity).
  split; [exact Hrun|].
  exact (@main_exit_status Ref.runtime (fixed_host (PDict ids_schema) ids)
           "Table.CSV" "schema.yaml" 2 (print_report Ref.runtime false ids_report) Hrun).
Defined.

(** * The engine on shared objects *)

(** ** Reads of a store that grows *)

Lemma nth_error_grow {A : Type} (h new : list A) (a : nat) (o : A) :
  nth_error h a = Some o -> nth_error (h ++ new) a = Some o.
Proof.
  intros H. rewrite nth_error_app1; [exact H|].
  apply nth_error_Some. congruence.
Qed.

Lemma nth_error_fresh {A : Type} (h : list A) (o : A) :
  nth_error (h ++ [o]) (List.length h) = Some o.
Proof. rewrite nth_error_app2, Nat.sub_diag by apply Nat.le_refl. reflexivity. Qed.

Lemma known_grow B h new : known B h -> known B (h ++ new).
Proof. apply Forall_impl. intros [a o]. apply nth_error_grow. Qed.

Lemma table_in_store_grow fr h new : table_in_store fr h -> table_in_store fr (h ++ new).
Proof.
  apply Forall_impl. intros [c a] (s & Hs). exists s. now apply nth_error_grow.
Qed.

Lemma snapshot_grow fr h new :
  table_in_store fr h -> Store.snapshot fr (h ++ new) = Store.snapshot fr h.
Proof.
  intros Hw. unfold Store.snapshot. f_equal. apply map_ext_in.
  intros [c a] Hin. unfold table_in_store in Hw. rewrite Forall_forall in Hw.
  destruct (Hw _ Hin) as (s & Hs). cbn [fst snd] in *. unfold Store.series_at.
  now rewrite (@nth_error_grow _ h new a _ Hs), Hs.
Qed.

Lemma known_in B h a o : known B h -> In (a, o) B -> nth_error h a = Some o.
Proof. intros K Hin. unfold known in K. rewrite Forall_forall in K. exact (K _ Hin). Qed.

Lemma snapshot_column fr h c :
  get_column (Store.snapshot fr h) c
  = option_map (Store.series_at h) (Store.lookup_addr fr c).
Proof.
  unfold get_column, Store.snapshot. cbn [df_columns].
  induction fr as [|[c' a] fr IH]; [reflexivity|].
  cbn [map lookup_column Store.lookup_addr fst snd].
  destruct (String.eqb c c'); [reflexivity|exact IH].
Qed.

Lemma lookup_addr_in fr c a : Store.lookup_addr fr c = Some a -> exists c', In (c', a) fr.
Proof.
  induction fr as [|[c' a'] fr IH]; [discriminate|]. cbn [Store.lookup_addr].
  destruct (String.eqb c c').
  - intros H. injection H as ->. exists c'. now left.
  - intros H. destruct (IH H) as (c'' & Hin). exists c''. now right.
Qed.

(** ** The store action against the value action *)

Section Sim.

Variable rt : Runtime.
Variable eval_store : list (string * Store.addr) -> list Store.obj -> string -> list Store.obj.
Hypothesis eval_adds : eval_adds_only eval_store.
Variable fr : list (string * Store.addr).
Variable df : DataFrame.

Lemma sim_pure {A : Type} B (m : Store.SM A) (p p' : M A) :
  run p df = run p' df -> sim fr df B m p' -> sim fr df B m p.
Proof. intros E H h iss Hs Hw K. rewrite E. now apply H. Qed.

Lemma sim_ret {A : Type} B (a : A) : sim fr df B (Store.ret a) (ret a).
Proof. intros h iss _ _ _. exists []. unfold Store.ret. cbn. now rewrite !app_nil_r. Qed.

Lemma sim_lift {A : Type} B (o : outcome A) : sim fr df B (Store.lift o) (lift o).
Proof. intros h iss _ _ _. exists []. unfold Store.lift. cbn. now rewrite !app_nil_r. Qed.

Lemma sim_append B i : sim fr df B (Store.append i) (append i).
Proof. intros h iss _ _ _. exists []. unfold Store.append. cbn. now rewrite app_nil_r. Qed.

Lemma sim_bind {A C : Type} B (m : Store.SM A) (k : A -> Store.SM C) (p : M A) (q : A -> M C) :
  sim fr df B m p -> (forall a, sim fr df B (k a) (q a)) ->
  local_at df p -> (forall a, local_at df (q a)) ->
  sim fr df B (Store.bind m k) (bind p q).
Proof.
  intros Hm Hk Lp Lq h iss Hs Hw K.
  destruct (Hm h iss Hs Hw K) as (new1 & E1). unfold Store.bind. rewrite E1.
  rewrite run_bind by assumption.
  destruct (run p df) as [[a|e] n1]; cbn [fst snd].
  - destruct (Hk a (h ++ new1) (iss ++ n1)) as (new2 & E2).
    + now rewrite snapshot_grow.
    + now apply table_in_store_grow.
    + now apply known_grow.
    + rewrite E2. exists (new1 ++ new2). now rewrite !app_assoc.
  - exists new1. reflexivity.
Qed.

Lemma sim_lift_both {A C : Type} B (o : outcome A) (k : A -> Store.SM C) (q : A -> M C) :
  (forall a, o = Ok a -> sim fr df B (k a) (q a)) ->
  sim fr df B (Store.bind (Store.lift o) k) (bind (lift o) q).
Proof.
  intros Hk. destruct o as [a|e].
  - eapply sim_pure; [|exact (Hk a eq_refl)]. reflexivity.
  - intros h iss _ _ _. exists []. cbn. now rewrite !app_nil_r.
Qed.

Lemma sim_when B c (m : Store.SM unit) (p : M unit) :
  (c = true -> sim fr df B m p) -> sim fr df B (Store.when c m) (when c p).
Proof. destruct c; intros H; [now apply H|apply sim_ret]. Qed.

Lemma sim_for_each {A : Type} B (xs : list A) (body : A -> Store.SM unit) (body' : A -> M unit) :
  (forall x, sim fr df B (body x) (body' x)) -> (forall x, local_at df (body' x)) ->
  sim fr df B (Store.for_each xs body) (for_each xs body').
Proof.
  intros Hb Lb. induction xs as [|x xs IH]; [apply sim_ret|].
  cbn [Store.for_each for_each]. apply sim_bind; auto.
  intros _. now apply local_at_for_each.
Qed.

Lemma run_try_except {A : Type} (p : M A) (h : exn -> M A) :
  local_at df p -> (forall e, local_at df (h e)) ->
  run (try_except p h) df =
  match run p df with
  | (Ok a, n1) => (Ok a, n1)
  | (Raise e, n1) => (fst (run (h e) df), n1 ++ snd (run (h e) df))
  end.
Proof.
  intros Hp Hh. unfold run at 1 2. unfold try_except.
  rewrite (local_at_run (fresh df) Hp eq_refl).
  destruct (run p df) as [[a|e] n1]; simpl; [reflexivity|].
  rewrite (local_at_run (emit (fresh df) n1) (Hh e) eq_refl). reflexivity.
Qed.

Lemma sim_try_except {A : Type} B (m : Store.SM A) (hm : exn -> Store.SM A)
    (p : M A) (hp : exn -> M A) :
  sim fr df B m p -> (forall e, sim fr df B (hm e) (hp e)) ->
  local_at df p -> (forall e, local_at df (hp e)) ->
  sim fr df B (Store.try_except m hm) (try_except p hp).
Proof.
  intros Hm Hh Lp Lh h iss Hs Hw K.
  destruct (Hm h iss Hs Hw K) as (new1 & E1). unfold Store.try_except. rewrite E1.
  rewrite run_try_except by assumption.
  destruct (run p df) as [[a|e] n1]; cbn [fst snd].
  - exists new1. reflexivity.
  - destruct (Hh e (h ++ new1) (iss ++ n1)) as (new2 & E2).
    + now rewrite snapshot_grow.
    + now apply table_in_store_grow.
    + now apply known_grow.
    + rewrite E2. exists (new1 ++ new2). now rewrite !app_assoc.
Qed.

(** *** Steps of the store alone *)

Lemma sim_new {C : Type} B (o : Store.obj) (k : Store.addr -> Store.SM C) (p : M C) :
  (forall a, sim fr df ((a, o) :: B) (k a) p) -> sim fr df B (Store.bind (Store.new o) k) p.
Proof.
  intros Hk h iss Hs Hw K. unfold Store.bind, Store.new. cbn [Store.st_heap Store.st_frame
    Store.st_issues].
  destruct (Hk (List.length h) (h ++ [o]) iss) as (new & E).
  - now rewrite snapshot_grow.
  - now apply table_in_store_grow.
  - constructor; [apply nth_error_fresh|now apply known_grow].
  - rewrite E. exists ([o] ++ new). now rewrite !app_assoc.
Qed.

Lemma sim_read {A C : Type} B (read : list Store.obj -> A) (k : A -> Store.SM C) (p : M C) v :
  (forall h, known B h -> read h = v) ->
  sim fr df B (k v) p ->
  sim fr df B (Store.bind (fun st => (Ok (read (Store.st_heap st)), st)) k) p.
Proof.
  intros Hread Hk h iss Hs Hw K. unfold Store.bind. cbn [Store.st_heap].
  rewrite (Hread h K). now apply Hk.
Qed.

Lemma sim_series {C : Type} B a s (k : Series -> Store.SM C) (p : M C) :
  In (a, Store.OSeries s) B -> sim fr df B (k s) p ->
  sim fr df B (Store.bind (Store.series a) k) p.
Proof.
  intros Hin. apply sim_read with (read := fun h => Store.series_at h a).
  intros h K. unfold Store.series_at. now rewrite (@known_in _ _ _ _ K Hin).
Qed.

Lemma sim_cells_of_series {C : Type} B a s (k : list pyobj -> Store.SM C) (p : M C) :
  In (a, Store.OSeries s) B -> sim fr df B (k (values s)) p ->
  sim fr df B (Store.bind (Store.cells a) k) p.
Proof.
  intros Hin. apply sim_read with (read := fun h => Store.cells_at h a).
  intros h K. unfold Store.cells_at. now rewrite (@known_in _ _ _ _ K Hin).
Qed.

Lemma sim_cells {C : Type} B a vals (k : list pyobj -> Store.SM C) (p : M C) :
  In (a, Store.OValues vals) B -> sim fr df B (k vals) p ->
  sim fr df B (Store.bind (Store.cells a) k) p.
Proof.
  intros Hin. apply sim_read with (read := fun h => Store.cells_at h a).
  intros h K. unfold Store.cells_at. now rewrite (@known_in _ _ _ _ K Hin).
Qed.

Lemma sim_mask {C : Type} B a m (k : list bool -> Store.SM C) (p : M C) :
  In (a, Store.OMask m) B -> sim fr df B (k m) p ->
  sim fr df B (Store.bind (Store.mask a) k) p.
Proof.
  intros Hin. apply sim_read with (read := fun h => Store.mask_at h a).
  intros h K. unfold Store.mask_at. now rewrite (@known_in _ _ _ _ K Hin).
Qed.

Lemma sim_isna_of {C : Type} B a na (k : list bool -> Store.SM C) (p : M C) :
  In (a, Store.ODatetime na) B -> sim fr df B (k na) p ->
  sim fr df B (Store.bind (Store.isna_of a) k) p.
Proof.
  intros Hin. apply sim_read with (read := fun h => Store.isna_at h a).
  intros h K. unfold Store.isna_at. now rewrite (@known_in _ _ _ _ K Hin).
Qed.

Lemma sim_table {C : Type} B (k : DataFrame -> Store.SM C) (p : M C) :
  sim fr df B (k df) p -> sim fr df B (Store.bind Store.get_table k) p.
Proof.
  intros Hk h iss Hs Hw K. unfold Store.bind, Store.get_table.
  cbn [Store.st_heap Store.st_frame]. rewrite Hs. now apply Hk.
Qed.

Lemma sim_table_both {C : Type} B (k : DataFrame -> Store.SM C) (q : DataFrame -> M C) :
  sim fr df B (k df) (q df) -> sim fr df B (Store.bind Store.get_table k) (bind get_table q).
Proof. intros Hk. apply sim_table. eapply sim_pure; [|exact Hk]. reflexivity. Qed.

Lemma sim_column {C : Type} B c (k : option Store.addr -> Store.SM C) (p : M C) :
  (get_column df c = None -> sim fr df B (k None) p) ->
  (forall a s, get_column df c = Some s -> sim fr df ((a, Store.OSeries s) :: B) (k (Some a)) p) ->
  sim fr df B (Store.bind (Store.column c) k) p.
Proof.
  intros Hnone Hsome h iss Hs Hw K. unfold Store.bind, Store.column. cbn [Store.st_frame].
  pose proof (snapshot_column fr h c) as Hcol. rewrite Hs in Hcol.
  destruct (Store.lookup_addr fr c) as [a|] eqn:Hl; cbn [option_map] in Hcol.
  - apply (Hsome a _ Hcol); [exact Hs|exact Hw|].
    constructor; [|exact K]. cbn [fst snd].
    destruct (lookup_addr_in _ _ Hl) as (c' & Hin).
    unfold table_in_store in Hw. rewrite Forall_forall in Hw.
    destruct (Hw _ Hin) as (s & E). cbn [snd] in E.
    unfold Store.series_at. now rewrite E.
  - now apply (Hnone Hcol).
Qed.

Lemma sim_eval {C : Type} B expr (k : eval_result -> Store.SM C) (p : M C) :
  sim fr df B (k (rt_df_eval rt df expr)) p ->
  sim fr df B (Store.bind (Store.eval rt eval_store expr) k) p.
Proof.
  intros Hk h iss Hs Hw K. unfold Store.bind, Store.eval.
  cbn [Store.st_heap Store.st_frame Store.st_issues]. rewrite Hs.
  destruct (eval_adds fr h expr) as (new1 & ->).
  destruct (Hk (h ++ new1) iss) as (new2 & E).
  - now rewrite snapshot_grow.
  - now apply table_in_store_grow.
  - now apply known_grow.
  - rewrite E. exists (new1 ++ new2). now rewrite !app_assoc.
Qed.

End Sim.

Section SimSteps.

Variable rt : Runtime.
Variable eval_store : list (string * Store.addr) -> list Store.obj -> string -> list Store.obj.
Variable fr : list (string * Store.addr).
Variable df : DataFrame.

Lemma sim_ret_bind {A C : Type} B (a : A) (k : A -> Store.SM C) (p : M C) :
  sim fr df B (k a) p -> sim fr df B (Store.bind (Store.ret a) k) p.
Proof. intros H. exact H. Qed.

Lemma sim_assoc {A A' C : Type} B (m : Store.SM A) (k1 : A -> Store.SM A')
    (k2 : A' -> Store.SM C) (p : M C) :
  sim fr df B (Store.bind m (fun x => Store.bind (k1 x) k2)) p ->
  sim fr df B (Store.bind (Store.bind m k1) k2) p.
Proof.
  intros H h iss Hs Hw K. destruct (H h iss Hs Hw K) as (new & E). exists new.
  rewrite <- E. unfold Store.bind. destruct (m _) as [[a|e] st]; reflexivity.
Qed.

Lemma sim_pure_table {C : Type} B (m : Store.SM C) (q : DataFrame -> M C) :
  sim fr df B m (q df) -> sim fr df B m (bind get_table q).
Proof. apply sim_pure. reflexivity. Qed.

Lemma sim_pure_ret {A C : Type} B (m : Store.SM C) (a : A) (q : A -> M C) :
  sim fr df B m (q a) -> sim fr df B m (bind (ret a) q).
Proof. apply sim_pure. reflexivity. Qed.

Lemma sim_raise_both {A A' C : Type} B e (k : A -> Store.SM C) (q : A' -> M C) :
  sim fr df B (Store.bind (Store.lift (Raise e)) k) (bind (lift (Raise e)) q).
Proof. intros h iss _ _ _. exists []. cbn. now rewrite !app_nil_r. Qed.

Lemma sim_pure_lift {A C : Type} B (m : Store.SM C) (a : A) (q : A -> M C) :
  sim fr df B m (q a) -> sim fr df B m (bind (lift (Ok a)) q).
Proof. apply sim_pure. reflexivity. Qed.

End SimSteps.

Ltac sim_fact := solve [cbn [In]; eauto 12].

Ltac local := unfold local_at; repeat emits_step; try exact I.

(** One step of a proof that a store action follows its value action. *)
Ltac sim_step :=
  cbv zeta;
  lazymatch goal with
  | |- sim _ _ _ _ (bind get_table _) => apply sim_pure_table
  | |- sim _ _ _ _ (bind (ret _) _) => apply sim_pure_ret
  | |- sim _ _ _ (Store.bind (Store.bind _ _) _) (bind (bind _ _) _) =>
      apply sim_bind; [ | intros ? | local | intros ?; local]
  | |- sim _ _ _ (Store.bind (Store.bind _ _) _) _ => apply sim_assoc
  | |- sim _ _ _ (Store.bind (Store.series _) _) _ => eapply sim_series; [sim_fact|]
  | |- sim _ _ _ (Store.bind (Store.cells _) _) _ =>
      first [eapply sim_cells; [sim_fact|] | eapply sim_cells_of_series; [sim_fact|]]
  | |- sim _ _ _ (Store.bind (Store.mask _) _) _ => eapply sim_mask; [sim_fact|]
  | |- sim _ _ _ (Store.bind (Store.isna_of _) _) _ => eapply sim_isna_of; [sim_fact|]
  | |- sim _ _ _ (Store.bind (Store.new _) _) _ => apply sim_new; intros ?
  | |- sim _ _ _ (Store.bind Store.get_table _) _ => apply sim_table
  | |- sim _ _ _ (Store.bind (Store.ret _) _) _ => apply sim_ret_bind
  | |- sim _ _ _ (Store.bind (match ?x with _ => _ end) _) _ => destruct x eqn:?
  | |- sim _ _ _ (match ?x with _ => _ end) _ => destruct x eqn:?
  | |- sim _ _ _ (Store.bind (Store.lift _) _) (bind (lift _) _) =>
      apply sim_lift_both; intros ? ?
  | |- sim _ _ _ _ (bind (lift (Ok _)) _) => apply sim_pure_lift
  | |- sim _ _ _ (Store.bind _ _) (bind _ _) =>
      apply sim_bind; [ | intros ? | local | intros ?; local]
  | |- sim _ _ _ (Store.try_except _ _) (try_except _ _) =>
      apply sim_try_except; [ | intros ? | local | intros ?; local]
  | |- sim _ _ _ (Store.when _ _) (when _ _) => apply sim_when; intros ?
  | |- sim _ _ _ (Store.append _) (append _) => apply sim_append
  | |- sim _ _ _ (Store.ret _) (ret _) => apply sim_ret
  | |- sim _ _ _ (Store.lift _) (lift _) => apply sim_lift
  end.

Section SimChecks.

Variable rt : Runtime.
Variable eval_store : list (string * Store.addr) -> list Store.obj -> string -> list Store.obj.
Hypothesis eval_adds : eval_adds_only eval_store.
Variable fr : list (string * Store.addr).
Variable df : DataFrame.

Lemma sim_check_required B cols :
  sim fr df B (Store.check_required rt cols) (check_required rt cols).
Proof. unfold Store.check_required, check_required. repeat sim_step. Qed.

Lemma sim_check_unexpected B schema cols :
  sim fr df B (Store.check_unexpected rt schema cols) (check_unexpected rt schema cols).
Proof. unfold Store.check_unexpected, check_unexpected. repeat sim_step. Qed.

Lemma sim_check_nullability B col a s nullable :
  In (a, Store.OSeries s) B ->
  sim fr df B (Store.check_nullability rt col a nullable) (check_nullability rt col s nullable).
Proof. intros Hin. unfold Store.check_nullability, check_nullability. repeat sim_step. Qed.

Lemma sim_check_dtype B col a s expected :
  In (a, Store.OSeries s) B ->
  sim fr df B (Store.check_dtype rt col a expected) (check_dtype rt col s expected).
Proof. intros Hin. unfold Store.check_dtype, check_dtype. repeat sim_step. Qed.

Lemma sim_check_range B col a s spec :
  In (a, Store.OSeries s) B ->
  sim fr df B (Store.check_range rt col a spec) (check_range rt col s spec).
Proof. intros Hin. unfold Store.check_range, check_range. repeat sim_step. Qed.

Lemma sim_check_allowed B col a s spec :
  In (a, Store.OSeries s) B ->
  sim fr df B (Store.check_allowed rt col a spec) (check_allowed rt col s spec).
Proof. intros Hin. unfold Store.check_allowed, check_allowed. repeat sim_step. Qed.

Lemma sim_check_regex B col a s spec :
  In (a, Store.OSeries s) B ->
  sim fr df B (Store.check_regex rt col a spec) (check_regex rt col s spec).
Proof. intros Hin. unfold Store.check_regex, check_regex. repeat sim_step. Qed.

Lemma sim_check_unique B col a s spec :
  In (a, Store.OSeries s) B ->
  sim fr df B (Store.check_unique rt col a spec) (check_unique rt col s spec).
Proof. intros Hin. unfold Store.check_unique, check_unique. repeat sim_step. Qed.

End SimChecks.

Section SimRun.

Variable rt : Runtime.
Variable eval_store : list (string * Store.addr) -> list Store.obj -> string -> list Store.obj.
Hypothesis eval_adds : eval_adds_only eval_store.
Variable fr : list (string * Store.addr).
Variable df : DataFrame.

Lemma sim_column_checks B col a s spec :
  In (a, Store.OSeries s) B ->
  sim fr df B (Store.column_checks rt col a spec) (column_checks rt col s spec).
Proof.
  intros Hin. unfold Store.column_checks, column_checks. cbv zeta.
  assert (L1 := fun n => emits_at_local (check_nullability_emits rt df col s n)).
  assert (L2 := fun e => emits_at_local (check_dtype_emits rt df col s e)).
  assert (L3 := emits_at_local (check_range_emits rt df col s spec)).
  assert (L4 := emits_at_local (check_allowed_emits rt df col s spec)).
  assert (L5 := emits_at_local (check_regex_emits rt df col s spec)).
  assert (L6 := emits_at_local (check_unique_emits rt df col s spec)).
  repeat (apply sim_bind;
          [ | intros _
            | first [apply L1|apply L2|apply L3|apply L4|apply L5|apply L6]
            | intros _; unfold local_at; repeat emits_step;
              first [apply L1|apply L2|apply L3|apply L4|apply L5|apply L6] ]);
    auto using sim_check_nullability, sim_check_dtype, sim_check_range, sim_check_allowed,
      sim_check_regex, sim_check_unique.
Qed.

Lemma sim_check_column B item :
  sim fr df B (Store.check_column rt item) (check_column rt item).
Proof.
  unfold Store.check_column, check_column. cbv zeta.
  apply sim_pure_table. apply sim_column.
  - intros Hnone. rewrite Hnone. apply sim_ret.
  - intros a s Hsome. rewrite Hsome. apply sim_lift_both. intros spec _.
    apply sim_column_checks. now left.
Qed.

Lemma sim_check_primary_key B schema :
  sim fr df B (Store.check_primary_key rt schema) (check_primary_key rt schema).
Proof. unfold Store.check_primary_key, check_primary_key. repeat sim_step. Qed.

Lemma sim_eval_rule B name expr :
  sim fr df B (Store.eval_rule rt eval_store name expr) (eval_rule rt name expr).
Proof.
  unfold Store.eval_rule, eval_rule, Store.safe_eval_expr, safe_eval_expr. cbv zeta.
  apply sim_assoc. apply sim_eval; [exact eval_adds|]. apply sim_pure_table.
  destruct (rt_df_eval rt df expr) as [res| |msg].
  - repeat sim_step.
  - apply sim_raise_both.
  - apply sim_raise_both.
Qed.

Lemma eval_rule_local name expr : local_at df (eval_rule rt name expr).
Proof. unfold eval_rule. local. Qed.

Lemma sim_check_rule B r : sim fr df B (Store.check_rule rt eval_store r) (check_rule rt r).
Proof.
  unfold Store.check_rule, check_rule. destruct r; try apply sim_append. cbv zeta.
  destruct (orb _ _); [apply sim_append|].
  apply sim_try_except.
  - apply sim_eval_rule.
  - intros e. apply sim_append.
  - apply eval_rule_local.
  - intros e. local.
Qed.

Lemma sim_check_rules B schema :
  sim fr df B (Store.check_rules rt eval_store schema) (check_rules rt schema).
Proof.
  unfold Store.check_rules, check_rules. cbv zeta. apply sim_when. intros _.
  destruct (py_or _ _); try apply sim_append.
  apply sim_for_each; [apply sim_check_rule|].
  intros r. eapply emits_at_local, check_rule_emits.
Qed.

Lemma sim_run_checks schema cols :
  sim fr df [] (Store.run_checks rt eval_store schema cols) (run_checks rt schema cols).
Proof.
  assert (L1 := emits_at_local (check_required_emits rt df cols)).
  assert (L2 := emits_at_local (check_unexpected_emits rt df schema cols)).
  assert (L3 := columns_loop_local rt df cols).
  assert (L4 := emits_at_local (check_primary_key_emits rt df schema)).
  assert (L5 := emits_at_local (check_rules_emits rt df schema)).
  unfold Store.run_checks, run_checks.
  repeat (apply sim_bind;
          [ | intros _
            | first [exact L1|exact L2|exact L3|exact L4|exact L5]
            | intros _; unfold local_at; repeat emits_step;
              first [exact L1|exact L2|exact L3|exact L4|exact L5] ]).
  - apply sim_check_required.
  - apply sim_check_unexpected.
  - apply sim_for_each; [apply sim_check_column|apply check_column_local].
  - apply sim_check_primary_key.
  - apply sim_check_rules.
Qed.

End SimRun.

(** ** The table after a run *)

(** A run on the store answers as the run on the value of the table, and
    leaves the table and every object of the store alone. *)
Lemma store_validate_run rt eval_store fr h schema :
  eval_adds_only eval_store -> table_in_store fr h ->
  exists new,
    Store.validate rt eval_store fr h schema
    = (fst (validate rt (Store.snapshot fr h) schema), (fr, h ++ new)).
Proof.
  intros He Hw. destruct (columns_or_not schema) as [(cols & Hc)|Hno].
  - rewrite (validate_eq rt (Store.snapshot fr h) Hc). cbn [fst].
    unfold Store.validate, Store.validate_body. rewrite (declares_columns_or Hc).
    destruct Hc as [_ Hne]. destruct cols as [|item cols]; [contradiction|].
    destruct (@sim_run_checks rt eval_store He fr (Store.snapshot fr h) schema (item :: cols)
                h [] eq_refl Hw (Forall_nil _)) as (new & E).
    unfold Store.bind at 1. rewrite E. exists new.
    destruct (run (run_checks rt schema (item :: cols)) (Store.snapshot fr h))
      as [[[]|e] n]; reflexivity.
  - rewrite (validate_no_columns rt (Store.snapshot fr h) Hno). cbn [fst].
    exists []. rewrite app_nil_r.
    unfold Store.validate, Store.validate_body, get_default.
    destruct Hno as [H|[(v & H & Hv)|H]]; rewrite H; try reflexivity.
    unfold py_or. destruct (py_truthy v); [|reflexivity].
    destruct v; try reflexivity. now contradiction (Hv kvs).
Qed.



(** The run of the witness: the key check derives one mask, the only new
    object, and the report is that of [ids]. *)
Example ids_run_on_store :
  Store.validate Ref.runtime eval_reads_only ids_frame ids_store ids_schema
  = (Ok (false, ids_report),
     (ids_frame, ids_store ++ [Store.OMask [true; true; false]])).
Proof. vm_compute. reflexivity. Qed.

(** The statement is about the statements of [validate], not about the store:
    an action that writes into a column of the table is seen by the next read
    of the table. *)
Example in_place_write_changes_table :
  Store.snapshot ids_frame
    (Store.st_heap
       (snd (Store.assign 1%nat (Store.OSeries {| dtype := "object"; values := [PStr "a"] |})
               {| Store.st_frame := ids_frame; Store.st_heap := ids_store;
                  Store.st_issues := [] |})))
  <> Store.snapshot ids_frame ids_store.
Proof. vm_compute. discriminate. Qed.
